(** * Trail counter: the coordination and caching core

    A shallow embedding of the manager's in-process cache
    (workers/durable-objects/trail-manager.ts), the statistics service
    (workers/services/statistics-service.ts), the trail and registration
    services (workers/services/trail-service.ts), the registration and
    trail actors (workers/durable-objects/registration.ts, trail.ts) and
    the routing of a request to an operation, followed by the properties
    proved about them.

    Conventions.  Times are integer milliseconds ([Z]), as returned by
    [Date.now()].  A JavaScript [Map] or storage namespace is a [gmap]; a
    [Map] whose iteration order reaches the output is an association list in
    insertion order.  An [await] is sequential composition: one manager
    instance handles one operation at a time. *)

From Stdlib Require Import ZArith String Ascii List.
From stdpp Require Import gmap strings list pretty sorting.

Local Open Scope string_scope.
Local Open Scope list_scope.
Local Open Scope Z_scope.

(** ** JavaScript primitives used by the services *)

Module Js.

(** [key.startsWith(p)] *)
Definition startsWith (s p : string) : bool := String.prefix p s.

(** [!s] on a string: the empty string is falsy.  [undefined] and [null]
    in a string position are represented by the empty string as well: the
    services only ever test such values with [!x], [x || d] and [if (x)]. *)
Definition falsy (s : string) : bool := String.eqb s "".

(** [s || d] on strings *)
Definition or_else (s d : string) : string := if falsy s then d else s.

(** [n || d] on numbers: [0] is falsy *)
Definition or_elseZ (n d : Z) : Z := if n =? 0 then d else n.

(** [a.localeCompare(b)], as the comparison of the code units.  The
    strings compared by the services are dates, week keys and month keys,
    made of digits, [-] and [W], and ISO timestamps of one shape.  On
    those the default collation of the platform orders as the code units
    do: it puts [-] before the digits and the digits before the letters,
    and two timestamps of one shape differ first at a digit.  On other
    strings the collation may order differently (it puts [-] before [+],
    and [:] before the digits); the statements about sorted output say on
    which strings they hold. *)
Definition localeCompare (a b : string) : comparison := String.compare a b.

(** [Array.prototype.sort(cmp)]: a stable sort; [cmp a b] is the sign of
    the comparator's result. *)
Fixpoint sort_insert {A} (cmp : A -> A -> comparison) (x : A) (l : list A) : list A :=
  match l with
  | [] => [x]
  | y :: l' =>
      match cmp y x with
      | Gt => x :: y :: l'
      | _ => y :: sort_insert cmp x l'
      end
  end.

Definition sort {A} (cmp : A -> A -> comparison) (l : list A) : list A :=
  foldl (fun acc x => sort_insert cmp x acc) [] l.

(** [`${n}`] for an integer *)
Definition showZ (n : Z) : string := pretty n.

(** [s.substring(n)] *)
Definition substringFrom (n : nat) (s : string) : string :=
  String.substring n (String.length s - n) s.

End Js.

(** ** The manager's cache (trail-manager.ts) *)

Module TTLCache.

Record CacheEntry (V : Type) := mkEntry { data : V; expires : Z }.
Arguments mkEntry {V} _ _.
Arguments data {V} _.
Arguments expires {V} _.

Section ops.
Context {V : Type}.

Definition DEFAULT_CACHE_TTL_MS : Z := 60 * 1000.

(** [getFromCache(key)] at time [now]: the value found, if any, and the
    table afterwards (an expired entry is deleted by the read). *)
Definition getFromCache (key : string) (now : Z) (cache : gmap string (CacheEntry V))
  : option V * gmap string (CacheEntry V) :=
  match cache !! key with
  | None => (None, cache)
  | Some entry =>
      if expires entry <? now then (None, delete key cache)
      else (Some (data entry), cache)
  end.

(** [setInCache(key, data, ttlMs)] at time [now] *)
Definition setInCache (key : string) (d : V) (ttlMs : Z) (now : Z)
    (cache : gmap string (CacheEntry V)) : gmap string (CacheEntry V) :=
  <[key := mkEntry d (now + ttlMs)]> cache.

(** The loop of [invalidateCache] over a list of keys *)
Definition invalidateKeys (keyPrefix : string) (keys : list string)
    (cache : gmap string (CacheEntry V)) : gmap string (CacheEntry V) :=
  foldl (fun acc key => if Js.startsWith key keyPrefix then delete key acc else acc)
        cache keys.

(** [invalidateCache(keyPrefix)]: one pass over [this.cache.keys()] *)
Definition invalidateCache (keyPrefix : string) (cache : gmap string (CacheEntry V))
  : gmap string (CacheEntry V) :=
  invalidateKeys keyPrefix (map_to_list cache).*1 cache.

(** The [cleanup] closure of [setupCacheCleanup], run at time [now] *)
Definition cleanup (now : Z) (cache : gmap string (CacheEntry V))
  : gmap string (CacheEntry V) :=
  foldl (fun acc '(key, entry) => if expires entry <? now then delete key acc else acc)
        cache (map_to_list cache).

End ops.
End TTLCache.

(** ** Data model *)

(** An HTTP response as the services use it: the status and, when the body
    is the JSON document the caller expects, that document.  A plain-text
    body ([new Response('Registration not found', {status: 404})]) has
    [json = None]. *)
Record Response (A : Type) := mkResponse { status : Z; json : option A }.
Arguments mkResponse {A} _ _.
Arguments status {A} _.
Arguments json {A} _.

(** [RegistrationData] (registration.ts).  Only the fields the core reads
    are kept; an absent field is the falsy value of its type. *)
Record RegistrationData := mkRegistration {
  reg_id : string;
  reg_trailId : string;
  reg_riderName : string;
  reg_horseCount : Z;
  reg_timestamp : string
}.

(** [Partial<RegistrationData>]: the body of a PUT *)
Record PartialRegistration := mkPartial {
  p_id : option string;
  p_trailId : option string;
  p_riderName : option string;
  p_horseCount : option Z;
  p_timestamp : option string
}.

(** [TrailData] (trail.ts).  [active] is compared with [!== false], so the
    absent case is kept apart; the two counts are set by the trail service. *)
Record TrailData := mkTrail {
  trail_id : string;
  trail_name : string;
  trail_active : option bool;
  trail_registrationCount : option Z;
  trail_horseCount : option Z
}.

(** [Partial<TrailData>]: the body of a PUT to a trail; [None] is a key
    that is not in the body *)
Record PartialTrail := mkPartialTrail {
  pt_id : option string;
  pt_name : option string;
  pt_active : option bool;
  pt_registrationCount : option Z;
  pt_horseCount : option Z
}.

(** [TrailInfo] and [ProcessedRegistration] (statistics-service.ts) *)
Record TrailInfo := mkTrailInfo {
  info_id : string;
  info_name : string;
  info_active : bool
}.

Record ProcessedRegistration := mkProcessed {
  pr_id : string;
  pr_trailId : string;
  pr_trailName : string;
  pr_horseCount : Z;
  pr_timestamp : string;
  pr_date : string;
  pr_weekKey : string;
  pr_weekLabel : string;
  pr_monthKey : string;
  pr_monthLabel : string
}.

(** [AnalyticsTimeEntry] and [AnalyticsData] (lib/api.ts).  A
    [Record<string, _>] is the list of its properties in the order they
    were set (JavaScript lists property names that are canonical array
    indices first; trail names are taken not to be such, and not to be
    [__proto__], a name under which an assignment creates no property).
    A number is an integer: the totals are exact as long as the code's
    sums of doubles are, that is up to [2^53].  The average is the exact
    quotient, kept as numerator and denominator.  The statements about
    totals and summaries say for which registrations they hold. *)
Record TrailBreakdown := mkBreakdown {
  bd_horseCount : Z;
  bd_registrationCount : Z
}.

Record AnalyticsTimeEntry := mkTimeEntry {
  timeKey : string;
  label : string;
  totalHorses : Z;
  totalRegistrations : Z;
  byTrail : list (string * TrailBreakdown)
}.

Record TrailSummary := mkSummary {
  sum_totalHorses : Z;
  sum_totalRegistrations : Z;
  sum_averageHorsesPerRegistration : Z * Z
}.

Record Grouped := mkGrouped {
  daily : list AnalyticsTimeEntry;
  weekly : list AnalyticsTimeEntry;
  monthly : list AnalyticsTimeEntry;
  trailSummaries : list (string * TrailSummary)
}.

Record AnalyticsData := mkAnalytics {
  grouped : Grouped;
  lastUpdated : string
}.

(** [RegistrationTableItem] and the paginated view (statistics-service.ts).
    A number that may be [NaN] is an [option Z]: [None] is [NaN] in the
    arithmetic and [null] once serialised. *)
Record RegistrationTableItem := mkItem {
  item_id : string;
  item_date : string;
  item_trail : string;
  item_trailId : string;
  item_riderName : string;
  item_horseCount : Z;
  item_timestamp : string
}.

Record Pagination := mkPagination {
  pg_page : option Z;
  pg_limit : option Z;
  pg_totalItems : Z;
  pg_totalPages : option Z;
  pg_hasNextPage : bool;
  pg_hasPrevPage : bool
}.

Record Filters := mkFilters {
  f_trail : string;
  f_startDate : string;
  f_endDate : string;
  f_timezone : string
}.

Record RegistrationView := mkView {
  view_data : list RegistrationTableItem;
  view_pagination : Pagination;
  view_filters : Filters
}.

(** What the cache holds ([CacheEntry<any>]): one constructor per kind of
    value the trail, registration and statistics services store. *)
Inductive CacheValue :=
  | CVTrails (l : list TrailData)
  | CVNumber (n : Z)
  | CVNameMap (m : gmap string string)
  | CVView (v : RegistrationView)
  | CVAnalytics (a : AnalyticsData)
  | CVRegistrations (l : list RegistrationData)
  | CVRegistration (r : RegistrationData).

(** [if (v)] on a cached value: objects and arrays are truthy, [0] is not. *)
Definition truthy (v : CacheValue) : bool :=
  match v with
  | CVNumber n => negb (n =? 0)
  | _ => true
  end.

(** [if (cached)] on the result of [getFromCache]: the value when it is
    truthy *)
Definition truthyValue (o : option CacheValue) : option CacheValue :=
  match o with
  | Some v => if truthy v then Some v else None
  | None => None
  end.

(** A cached value read where a number is expected *)
Definition as_number (v : CacheValue) : option Z :=
  match v with
  | CVNumber n => Some n
  | _ => None
  end.

(** [trailsMap[id]] on a cached value read as the name map; a missing
    property is [undefined], the empty string here.  The name map is a
    plain object: for an id that is the name of a property it inherits
    ([constructor], [toString], ...) the code reads that property, which
    is not a name; the statements about trail names in the view are for
    other ids. *)
Definition name_lookup (v : CacheValue) (id : string) : string :=
  match v with
  | CVNameMap m => default "" (m !! id)
  | _ => ""
  end.

(** What the manager's storage holds: an actor handle under [trail:<id>]
    and [registration:<id>], a list of registration ids under
    [trail_registrations:<id>], the snapshot under [analytics:data]. *)
Inductive Stored :=
  | SHandle (h : string)
  | SRegistrationIds (ids : list string)
  | SAnalytics (a : AnalyticsData).

(** ** Timers *)

Inductive Callback :=
  | InvalidateTimer (trailId : string)
  | AggregationTimer.

Record Timer := mkTimer {
  timer_id : Z;
  fireAt : Z;
  callback : Callback
}.

(** The timers of the instance: the pending [setTimeout]s, the next timer
    id, [cacheInvalidationTimers] of the registration service, and the
    times at which [aggregateStatistics] was started by a timer (a trace,
    kept for the statements about debouncing).  [cacheInvalidationTimers]
    is a plain object keyed by trail ids; as a map it is exact for the
    keys that are not names of properties a plain object inherits
    ([__proto__], [constructor], ...); the statements about debouncing are
    for such trail ids. *)
Record Scheduler := mkScheduler {
  timers : list Timer;
  nextTimerId : Z;
  cacheInvalidationTimers : gmap string Z;
  aggregations : list Z
}.

(** ** The world: manager storage, actors, cache, timers *)

Record World := mkWorld {
  storage : gmap string Stored;
  registrationDocs : gmap string RegistrationData;
  trailDocs : gmap string TrailData;
  failing : gset string;
  cache : gmap string (TTLCache.CacheEntry CacheValue);
  sched : Scheduler
}.

Definition with_storage (w : World) (s : gmap string Stored) : World :=
  mkWorld s (registrationDocs w) (trailDocs w) (failing w) (cache w) (sched w).

Definition with_registrationDocs (w : World) (d : gmap string RegistrationData) : World :=
  mkWorld (storage w) d (trailDocs w) (failing w) (cache w) (sched w).

Definition with_trailDocs (w : World) (d : gmap string TrailData) : World :=
  mkWorld (storage w) (registrationDocs w) d (failing w) (cache w) (sched w).

Definition with_cache (w : World) (c : gmap string (TTLCache.CacheEntry CacheValue)) : World :=
  mkWorld (storage w) (registrationDocs w) (trailDocs w) (failing w) c (sched w).

Definition with_sched (w : World) (s : Scheduler) : World :=
  mkWorld (storage w) (registrationDocs w) (trailDocs w) (failing w) (cache w) s.

(** A fresh instance: nothing stored, no actor, timer ids from 1 *)
Definition emptyWorld : World :=
  mkWorld ∅ ∅ ∅ ∅ ∅ (mkScheduler [] 1 ∅ []).

(** ** Exceptions *)

(** The result of running a piece of code that may throw *)
Inductive Outcome (A : Type) :=
  | Returned (a : A)
  | Thrown.
Arguments Returned {A} _.
Arguments Thrown {A}.

#[global] Instance Outcome_ret : MRet Outcome := fun A a => Returned a.
#[global] Instance Outcome_bind : MBind Outcome := fun A B f m =>
  match m with
  | Returned a => f a
  | Thrown => Thrown
  end.

(** [try { body } catch (error) { console.error(...) } return null]: the
    shape of every per-item callback of a batch *)
Definition catchNull {A} (body : Outcome (option A)) : option A :=
  match body with
  | Returned r => r
  | Thrown => None
  end.

(** [await Promise.all(promises)]: rejects as soon as one promise does *)
Fixpoint promiseAll {A} (l : list (Outcome A)) : Outcome (list A) :=
  match l with
  | [] => Returned []
  | o :: l' => a ← o; r ← promiseAll l'; mret (a :: r)
  end.

(** [results.filter(item => item !== null)] *)
Definition filterNonNull {A} (l : list (option A)) : list A := omap id l.

(** ** Batching *)

(** The loop that cuts a listing into batches:
    [currentBatch.push(entry); if (currentBatch.length >= batchSize)
    { batches.push([...currentBatch]); currentBatch = [] }], and after the
    loop [if (currentBatch.length > 0) batches.push(currentBatch)]. *)
Fixpoint toBatchesFrom {A} (batchSize : nat) (currentBatch : list A) (l : list A)
  : list (list A) :=
  match l with
  | [] => match currentBatch with [] => [] | _ => [currentBatch] end
  | entry :: l' =>
      let currentBatch := currentBatch ++ [entry] in
      if (batchSize <=? List.length currentBatch)%nat
      then currentBatch :: toBatchesFrom batchSize [] l'
      else toBatchesFrom batchSize currentBatch l'
  end.

Definition toBatches {A} (batchSize : nat) (l : list A) : list (list A) :=
  toBatchesFrom batchSize [] l.

(** ** Manager storage *)

(** The order of a storage listing: by key, byte by byte *)
Definition keyCompare {A} (x y : string * A) : comparison := String.compare x.1 y.1.
Definition keyLt {A} (x y : string * A) : Prop := String.compare x.1 y.1 = Lt.

Module Storage.

(** [storage.list({ prefix })]: the entries whose key starts with
    [prefix], in key order *)
Definition listing (prefix : string) (s : gmap string Stored) : list (string * Stored) :=
  Js.sort keyCompare (List.filter (fun kv => Js.startsWith kv.1 prefix) (map_to_list s)).

(** [storage.get<string>(key)] read as an actor handle; an absent key and
    an empty handle are both falsy for the callers' [!id] test.  (Nothing
    but handles is ever stored under [trail:] and [registration:].) *)
Definition getHandle (key : string) (s : gmap string Stored) : option string :=
  match s !! key with
  | Some (SHandle h) => if Js.falsy h then None else Some h
  | _ => None
  end.

(** [storage.get<{registrationIds: string[]}>(key)] *)
Definition getRegistrationIds (key : string) (s : gmap string Stored) : option (list string) :=
  match s !! key with
  | Some (SRegistrationIds ids) => Some ids
  | _ => None
  end.

(** [storage.get<AnalyticsData>(key)] *)
Definition getAnalytics (key : string) (s : gmap string Stored) : option AnalyticsData :=
  match s !! key with
  | Some (SAnalytics a) => Some a
  | _ => None
  end.

End Storage.

(** ** The actors *)

(** registration.ts *)
Module RegistrationDO.

Definition getRegistration (doc : option RegistrationData) : Response RegistrationData :=
  match doc with
  | None => mkResponse 404 None
  | Some d => mkResponse 200 (Some d)
  end.

(** [{ ...(existingData || {}), ...data }] *)
Definition merge (existing : option RegistrationData) (data : PartialRegistration)
  : RegistrationData :=
  let base := default (mkRegistration "" "" "" 0 "") existing in
  mkRegistration
    (default (reg_id base) (p_id data))
    (default (reg_trailId base) (p_trailId data))
    (default (reg_riderName base) (p_riderName data))
    (default (reg_horseCount base) (p_horseCount data))
    (default (reg_timestamp base) (p_timestamp data)).

(** [updateRegistration(data)]; [nowIso] is [new Date().toISOString()].
    The document afterwards and the response. *)
Definition updateRegistration (nowIso : string) (doc : option RegistrationData)
    (data : PartialRegistration) : option RegistrationData * Response RegistrationData :=
  let isNew := match doc with None => true | Some _ => false end in
  if isNew && (Js.falsy (default "" (p_trailId data))
               || Js.falsy (default "" (p_riderName data))
               || (default 0 (p_horseCount data) =? 0))
  then (doc, mkResponse 400 None)
  else
    let data :=
      if isNew && Js.falsy (default "" (p_timestamp data))
      then mkPartial (p_id data) (p_trailId data) (p_riderName data)
                     (p_horseCount data) (Some nowIso)
      else data in
    let updatedData := merge doc data in
    (Some updatedData, mkResponse 200 (Some updatedData)).

(** [deleteRegistration()]: the body of the success response is
    [{ success: true }], not a registration *)
Definition deleteRegistration (doc : option RegistrationData)
  : option RegistrationData * Response RegistrationData :=
  match doc with
  | None => (None, mkResponse 404 None)
  | Some _ => (None, mkResponse 200 None)
  end.

End RegistrationDO.

(** trail.ts *)
Module TrailDO.

Definition getTrail (doc : option TrailData) : Response TrailData :=
  match doc with
  | None => mkResponse 404 None
  | Some d => mkResponse 200 (Some d)
  end.

(** [{ ...(existingData || {}), ...data, updatedAt: now }] on the fields
    kept here *)
Definition merge (existing : option TrailData) (data : PartialTrail) : TrailData :=
  let base := default (mkTrail "" "" None None None) existing in
  mkTrail
    (default (trail_id base) (pt_id data))
    (default (trail_name base) (pt_name data))
    (match pt_active data with Some b => Some b | None => trail_active base end)
    (match pt_registrationCount data with
     | Some n => Some n
     | None => trail_registrationCount base
     end)
    (match pt_horseCount data with Some n => Some n | None => trail_horseCount base end).

(** [updateTrail(data)]: the document afterwards and the response.  There
    is no validation: the answer is always 200.  A new trail is active
    unless the body says otherwise.  The creation and update dates and the
    QR code, which a new trail gets from an external service inside a
    [try]/[catch], are not among the fields kept here. *)
Definition updateTrail (doc : option TrailData) (data : PartialTrail)
  : option TrailData * Response TrailData :=
  let isNew := match doc with None => true | Some _ => false end in
  let updatedData := merge doc data in
  let updatedData :=
    if isNew then
      mkTrail (trail_id updatedData) (trail_name updatedData)
              (match trail_active updatedData with
               | None => Some true
               | Some b => Some b
               end)
              (trail_registrationCount updatedData) (trail_horseCount updatedData)
    else updatedData in
  (Some updatedData, mkResponse 200 (Some updatedData)).

(** [deleteTrail()]: the body of the success response is
    [{ success: true }], not a trail *)
Definition deleteTrail (doc : option TrailData) : option TrailData * Response TrailData :=
  match doc with
  | None => (None, mkResponse 404 None)
  | Some _ => (None, mkResponse 200 None)
  end.

End TrailDO.

(** ** Calls from the manager to an actor

    [env.X_DO.get(env.X_DO.idFromString(handle)).fetch(...)].  A handle in
    [failing w] is one whose call throws: [idFromString] rejects it or the
    actor cannot be reached.  [idFromString] always rejects the empty
    string. *)
Module Stub.

Definition throws (w : World) (h : string) : bool :=
  Js.falsy h || bool_decide (h ∈ failing w).

Definition getRegistration (w : World) (h : string) : Outcome (Response RegistrationData) :=
  if throws w h then Thrown
  else Returned (RegistrationDO.getRegistration (registrationDocs w !! h)).

Definition getTrail (w : World) (h : string) : Outcome (Response TrailData) :=
  if throws w h then Thrown
  else Returned (TrailDO.getTrail (trailDocs w !! h)).

(** The document store after the actor ran [f] on its document *)
Definition setDoc (w : World) (h : string) (doc : option RegistrationData) : World :=
  with_registrationDocs w
    (match doc with
     | Some d => <[h := d]> (registrationDocs w)
     | None => delete h (registrationDocs w)
     end).

Definition putRegistration (nowIso : string) (w : World) (h : string)
    (data : PartialRegistration) : Outcome (Response RegistrationData) * World :=
  if throws w h then (Thrown, w)
  else
    let '(doc, resp) := RegistrationDO.updateRegistration nowIso (registrationDocs w !! h) data in
    (Returned resp, setDoc w h doc).

Definition deleteRegistration (w : World) (h : string)
  : Outcome (Response RegistrationData) * World :=
  if throws w h then (Thrown, w)
  else
    let '(doc, resp) := RegistrationDO.deleteRegistration (registrationDocs w !! h) in
    (Returned resp, setDoc w h doc).

Definition setTrailDoc (w : World) (h : string) (doc : option TrailData) : World :=
  with_trailDocs w
    (match doc with
     | Some d => <[h := d]> (trailDocs w)
     | None => delete h (trailDocs w)
     end).

Definition putTrail (w : World) (h : string) (data : PartialTrail)
  : Outcome (Response TrailData) * World :=
  if throws w h then (Thrown, w)
  else
    let '(doc, resp) := TrailDO.updateTrail (trailDocs w !! h) data in
    (Returned resp, setTrailDoc w h doc).

Definition deleteTrail (w : World) (h : string) : Outcome (Response TrailData) * World :=
  if throws w h then (Thrown, w)
  else
    let '(doc, resp) := TrailDO.deleteTrail (trailDocs w !! h) in
    (Returned resp, setTrailDoc w h doc).

End Stub.

(** ** The manager's cache methods on the world *)

Module Manager.

Definition getFromCache (key : string) (now : Z) (w : World) : option CacheValue * World :=
  let '(r, c) := TTLCache.getFromCache key now (cache w) in (r, with_cache w c).

Definition setInCache (key : string) (v : CacheValue) (ttlMs : Z) (now : Z) (w : World)
  : World :=
  with_cache w (TTLCache.setInCache key v ttlMs now (cache w)).

Definition invalidateCache (keyPrefix : string) (w : World) : World :=
  with_cache w (TTLCache.invalidateCache keyPrefix (cache w)).

End Manager.

(** An async callback whose whole body is inside [try]/[catch]: it
    always resolves. *)
Definition caught {A} (body : Outcome (option A)) : Outcome (option A) :=
  Returned (catchNull body).

(** [for (const batch of batches) { const r = await Promise.all(batch.map(cb));
    out.push(...r.filter(x => x !== null)) }] *)
Fixpoint forBatches {A B} (cb : A -> Outcome (option B)) (batches : list (list A))
  : Outcome (list B) :=
  match batches with
  | [] => Returned []
  | batch :: rest =>
      batchResults ← promiseAll (map cb batch);
      more ← forBatches cb rest;
      mret (filterNonNull batchResults ++ more)
  end.

(** [idFromString(id)] on a stored value: only a string can be a handle *)
Definition handleOf (v : Stored) : Outcome string :=
  match v with
  | SHandle h => Returned h
  | _ => Thrown
  end.

(** [await response.json()]: rejects when the body is not the document *)
Definition jsonOf {A} (r : Response A) : Outcome A :=
  match json r with
  | Some a => Returned a
  | None => Thrown
  end.

(** ** Dates

    The platform's [Date] and [Intl] are taken as given. *)
Record JsDate := mkDate {
  getTime : Z;
  isoDay : string;
  getFullYear : Z;
  getMonth : Z
}.

Record DateEnv := mkDateEnv {
  (** [new Date(timestamp)]; [None] is an invalid date, on which
      [toISOString()] throws *)
  newDate : string -> option JsDate;
  (** [new Date(year, 0, 1)]: its [getTime()] and [getDay()] *)
  yearStart : Z -> Z * Z;
  (** the [year-month-day] of a timestamp in a time zone, assembled from
      [Intl.DateTimeFormat(...).formatToParts]; [None] when [Intl] throws *)
  zonedDate : string -> string -> option string;
  (** [new Date(now).toISOString()] *)
  toISOString : Z -> string
}.

(** [Math.ceil(a / b)] for integers [a] and [b > 0] *)
Definition ceilDiv (a b : Z) : Z := - ((- a) / b).

(** ** The statistics service (statistics-service.ts) *)

Module Statistics.

(** *** Grouping ([processRegistrations]) *)

(** A [Map<string, _>] in insertion order *)
Fixpoint has {A} (k : string) (m : list (string * A)) : bool :=
  match m with
  | [] => false
  | (k', _) :: m' => if String.eqb k k' then true else has k m'
  end.

Fixpoint update {A} (f : A -> A) (k : string) (m : list (string * A)) : list (string * A) :=
  match m with
  | [] => []
  | (k', a) :: m' => if String.eqb k k' then (k', f a) :: m' else (k', a) :: update f k m'
  end.

(** [if (!m.has(k)) m.set(k, fresh)] *)
Definition ensure {A} (k : string) (fresh : A) (m : list (string * A)) : list (string * A) :=
  if has k m then m else m ++ [(k, fresh)].

Record TimeGroup := mkGroup {
  g_entries : list ProcessedRegistration;
  g_label : string;
  g_byTrail : list (string * list ProcessedRegistration)
}.

(** The four statements that file [reg] under the bucket [key] of one of
    the daily, weekly and monthly maps (the daily map has no label of its
    own: its entries are labelled with the date). *)
Definition addToTimeGroups (key lbl : string) (reg : ProcessedRegistration)
    (groups : list (string * TimeGroup)) : list (string * TimeGroup) :=
  let groups := ensure key (mkGroup [] lbl []) groups in
  let groups :=
    update (fun g => mkGroup (g_entries g ++ [reg]) (g_label g) (g_byTrail g)) key groups in
  let groups :=
    update (fun g => mkGroup (g_entries g) (g_label g)
                             (ensure (pr_trailName reg) [] (g_byTrail g))) key groups in
  update (fun g => mkGroup (g_entries g) (g_label g)
                           (update (fun es => es ++ [reg]) (pr_trailName reg) (g_byTrail g)))
         key groups.

Definition addToTrailGroups (reg : ProcessedRegistration)
    (groups : list (string * list ProcessedRegistration))
  : list (string * list ProcessedRegistration) :=
  update (fun es => es ++ [reg]) (pr_trailName reg) (ensure (pr_trailName reg) [] groups).

(** [entries.reduce((sum, reg) => sum + reg.horseCount, 0)], for integer
    horse counts whose sums stay within [2^53], where the addition of
    doubles is exact *)
Definition sumHorses (entries : list ProcessedRegistration) : Z :=
  foldl (fun sum reg => sum + pr_horseCount reg) 0 entries.

Definition toTimeEntry (kv : string * TimeGroup) : AnalyticsTimeEntry :=
  let '(key, g) := kv in
  mkTimeEntry key (g_label g) (sumHorses (g_entries g)) (Z.of_nat (List.length (g_entries g)))
    (map (fun '(trailName, es) =>
            (trailName, mkBreakdown (sumHorses es) (Z.of_nat (List.length es))))
         (g_byTrail g)).

Definition byTimeKey (a b : AnalyticsTimeEntry) : comparison :=
  Js.localeCompare (timeKey a) (timeKey b).

Definition toTrailSummary (kv : string * list ProcessedRegistration) : string * TrailSummary :=
  let '(trailName, es) := kv in
  let totalHorses := sumHorses es in
  let totalRegistrations := Z.of_nat (List.length es) in
  (trailName,
   mkSummary totalHorses totalRegistrations
     (if 0 <? totalRegistrations then (totalHorses, totalRegistrations) else (0, 1))).

Definition processRegistrations (registrations : list ProcessedRegistration) : Grouped :=
  let '(dailyGroups, weeklyGroups, monthlyGroups, trailGroups) :=
    foldl (fun '(d, w, m, t) reg =>
             (addToTimeGroups (pr_date reg) (pr_date reg) reg d,
              addToTimeGroups (pr_weekKey reg) (pr_weekLabel reg) reg w,
              addToTimeGroups (pr_monthKey reg) (pr_monthLabel reg) reg m,
              addToTrailGroups reg t))
          ([], [], [], []) registrations in
  mkGrouped
    (Js.sort byTimeKey (map toTimeEntry dailyGroups))
    (Js.sort byTimeKey (map toTimeEntry weeklyGroups))
    (Js.sort byTimeKey (map toTimeEntry monthlyGroups))
    (map toTrailSummary trailGroups).

Section with_dates.
Context (E : DateEnv).

(** [getWeekNumber(date)], in exact arithmetic:
    [ceil((pastDaysOfYear + firstDayOfYear.getDay() + 1) / 7)] with
    [pastDaysOfYear = (date.getTime() - firstDayOfYear.getTime()) / 86400000] *)
Definition getWeekNumber (date : JsDate) : Z :=
  let '(firstTime, firstDay) := yearStart E (getFullYear date) in
  ceilDiv (getTime date - firstTime + (firstDay + 1) * 86400000) (7 * 86400000).

Definition months : list string :=
  ["January"; "February"; "March"; "April"; "May"; "June";
   "July"; "August"; "September"; "October"; "November"; "December"].

Definition getMonthName (date : JsDate) : string :=
  if getMonth date <? 0 then "undefined"
  else default "undefined" (months !! Z.to_nat (getMonth date)).

(** [s.padStart(2, '0')] *)
Definition padStart2 (s : string) : string :=
  match String.length s with
  | 0%nat => "00"
  | 1%nat => "0" +:+ s
  | _ => s
  end.

(** *** [getAllTrails] (the private one of the statistics service) *)

Definition trailInfoBody (w : World) (entry : string * Stored)
  : Outcome (option (string * TrailInfo)) :=
  let '(key, id) := entry in
  let trailId := Js.substringFrom 6 key in
  h ← handleOf id;
  response ← Stub.getTrail w h;
  if status response =? 200 then
    data ← jsonOf response;
    mret (Some (trailId,
                mkTrailInfo trailId (Js.or_else (trail_name data) "Unknown")
                            (default false (trail_active data))))
  else mret None.

Definition getAllTrails (w : World) : Outcome (gmap string TrailInfo) :=
  let trailIds := Storage.listing "trail:" (storage w) in
  found ← forBatches (fun entry => caught (trailInfoBody w entry)) (toBatches 10 trailIds);
  mret (foldl (fun trailMap '(trailId, info) => <[trailId := info]> trailMap) ∅ found).

(** *** [getAllRegistrations] *)

Definition processedRegistrationBody (w : World) (trailMap : gmap string TrailInfo)
    (entry : string * Stored) : Outcome (option ProcessedRegistration) :=
  let '(key, registrationObjectId) := entry in
  match registrationObjectId with
  | SHandle "" => mret None
  | _ =>
      h ← handleOf registrationObjectId;
      regResponse ← Stub.getRegistration w h;
      if status regResponse =? 200 then
        regData ← jsonOf regResponse;
        if Js.falsy (reg_timestamp regData) then mret None
        else
          match newDate E (reg_timestamp regData) with
          | None => Thrown
          | Some date =>
              let trailId := Js.or_else (reg_trailId regData) "unknown" in
              let trailInfo := trailMap !! trailId in
              let dateStr := isoDay date in
              let year := getFullYear date in
              let weekNum := getWeekNumber date in
              let weekKey := Js.showZ year +:+ "-W" +:+ Js.showZ weekNum in
              let weekLabel := Js.showZ year +:+ " Week " +:+ Js.showZ weekNum in
              let month := getMonth date + 1 in
              let monthKey := Js.showZ year +:+ "-" +:+ padStart2 (Js.showZ month) in
              let monthLabel := getMonthName date +:+ " " +:+ Js.showZ year in
              mret (Some (mkProcessed
                            (Js.substringFrom 13 key)
                            trailId
                            (match trailInfo with Some i => info_name i | None => "Unknown" end)
                            (Js.or_elseZ (reg_horseCount regData) 1)
                            (reg_timestamp regData)
                            dateStr weekKey weekLabel monthKey monthLabel))
          end
      else mret None
  end.

Definition getAllRegistrations (w : World) (trailMap : gmap string TrailInfo)
  : Outcome (list ProcessedRegistration) :=
  let registrationIds := Storage.listing "registration:" (storage w) in
  forBatches (fun entry => caught (processedRegistrationBody w trailMap entry))
             (toBatches 50 registrationIds).

(** *** [aggregateAnalytics] at time [now] *)

(** Steps 1 to 3: read the trails and the registrations, group them *)
Definition groupAll (w : World) : Outcome Grouped :=
  trails ← getAllTrails w;
  registrations ← getAllRegistrations w trails;
  mret (processRegistrations registrations).

(** Steps 4 and 5: assemble the snapshot, store it, cache it *)
Definition aggregateAnalyticsBody (now : Z) (w : World) : Outcome World :=
  g ← groupAll w;
  let analyticsData := mkAnalytics g (toISOString E now) in
  let w := with_storage w (<["analytics:data" := SAnalytics analyticsData]> (storage w)) in
  mret (Manager.setInCache "analytics-data" (CVAnalytics analyticsData) (10 * 60 * 1000) now w).

(** The whole body is inside [try]/[catch]; nothing is written before the
    last two statements, so a caught exception leaves the world as it was. *)
Definition aggregateAnalytics (now : Z) (w : World) : World :=
  match aggregateAnalyticsBody now w with
  | Returned w' => w'
  | Thrown => w
  end.

Definition aggregateStatistics (now : Z) (w : World) : World := aggregateAnalytics now w.

(** *** [getRegistrationData]: the paginated registration view *)

(** [if (page < 1) page = 1]: a comparison with [NaN] is false *)
Definition clampPage (page : option Z) : option Z :=
  match page with
  | Some p => if p <? 1 then Some 1 else Some p
  | None => None
  end.

(** [if (limit < 1) limit = 10; if (limit > 100) limit = 100] *)
Definition clampLimit (limit : option Z) : option Z :=
  match limit with
  | Some l =>
      let l := if l <? 1 then 10 else l in
      Some (if 100 <? l then 100 else l)
  | None => None
  end.

(** [`${n}`] for a number that may be [NaN] *)
Definition showNum (n : option Z) : string :=
  match n with
  | Some z => Js.showZ z
  | None => "NaN"
  end.

Definition cacheKey (page limit : option Z) (trailFilter startDate endDate timezone : string)
  : string :=
  "registrations:" +:+ showNum page +:+ ":" +:+ showNum limit +:+ ":"
    +:+ Js.or_else trailFilter "all" +:+ ":" +:+ Js.or_else startDate "none" +:+ ":"
    +:+ Js.or_else endDate "none" +:+ ":" +:+ Js.or_else timezone "UTC".

(** One trail of the name map: the property to set, if any.  Here the
    [catch] block sets the name to ['Unknown']. *)
Definition trailNameEntry (w : World) (entry : string * Stored) : Outcome (option (string * string)) :=
  let '(key, id) := entry in
  let trailId := Js.substringFrom 6 key in
  match (h ← handleOf id;
         response ← Stub.getTrail w h;
         if status response =? 200 then
           data ← jsonOf response;
           mret (Some (Js.or_else (trail_name data) "Unknown"))
         else mret None) with
  | Returned (Some name) => Returned (Some (trailId, name))
  | Returned None => Returned None
  | Thrown => Returned (Some (trailId, "Unknown"))
  end.

Definition buildTrailsMap (w : World) : Outcome (gmap string string) :=
  let trailIds := Storage.listing "trail:" (storage w) in
  found ← forBatches (trailNameEntry w) (toBatches 10 trailIds);
  mret (foldl (fun trailsMap '(trailId, name) => <[trailId := name]> trailsMap) ∅ found).

(** One registration of the view *)
Definition tableItemBody (w : World) (trailsMap : CacheValue)
    (trailFilter startDate endDate timezone : string) (entry : string * Stored)
  : Outcome (option RegistrationTableItem) :=
  let '(key, registrationObjectId) := entry in
  match registrationObjectId with
  | SHandle "" => mret None
  | _ =>
      h ← handleOf registrationObjectId;
      regResponse ← Stub.getRegistration w h;
      if status regResponse =? 200 then
        regData ← jsonOf regResponse;
        regDate ← (if Js.falsy (reg_timestamp regData) then mret "Unknown"
                   else match newDate E (reg_timestamp regData) with
                        | Some date => mret (isoDay date)
                        | None => Thrown
                        end);
        let regDate :=
          if negb (Js.falsy timezone) && negb (Js.falsy (reg_timestamp regData))
          then default regDate (zonedDate E timezone (reg_timestamp regData))
          else regDate in
        if negb (Js.falsy startDate) && String.ltb regDate startDate then mret None
        else if negb (Js.falsy endDate) && String.ltb endDate regDate then mret None
        else
          let trailName :=
            if Js.falsy (reg_trailId regData) then "Unknown"
            else Js.or_else (name_lookup trailsMap (reg_trailId regData)) "Unknown" in
          if negb (Js.falsy trailFilter) && negb (String.eqb trailName trailFilter)
          then mret None
          else mret (Some (mkItem
                             (Js.substringFrom 13 key)
                             regDate
                             trailName
                             (Js.or_else (reg_trailId regData) "unknown")
                             (Js.or_else (reg_riderName regData) "Unknown")
                             (Js.or_elseZ (reg_horseCount regData) 1)
                             (reg_timestamp regData)))
      else mret None
  end.

(** [(a, b) => b.timestamp.localeCompare(a.timestamp)] *)
Definition newestFirst (a b : RegistrationTableItem) : comparison :=
  Js.localeCompare (item_timestamp b) (item_timestamp a).

(** A relative index of [Array.prototype.slice]; [NaN] is [0] *)
Definition relIndex (len : Z) (k : option Z) : Z :=
  match k with
  | None => 0
  | Some k => if k <? 0 then Z.max (len + k) 0 else Z.min k len
  end.

(** [l.slice(s, e)] *)
Definition slice {A} (s e : option Z) (l : list A) : list A :=
  let len := Z.of_nat (List.length l) in
  let from := relIndex len s in
  let to := relIndex len e in
  take (Z.to_nat (to - from)) (drop (Z.to_nat from) l).

(** The pagination block, from the sorted list *)
Definition paginate (page limit : option Z) (trailFilter startDate endDate timezone : string)
    (registrationList : list RegistrationTableItem) : RegistrationView :=
  let totalItems := Z.of_nat (List.length registrationList) in
  let totalPages := l ← limit; Some (ceilDiv totalItems l) in
  let startIndex := p ← page; l ← limit; Some ((p - 1) * l) in
  let endIndex := s ← startIndex; l ← limit; Some (Z.min (s + l) totalItems) in
  let paginatedItems := slice startIndex endIndex registrationList in
  mkView paginatedItems
    (mkPagination page limit totalItems totalPages
       (match page, totalPages with Some p, Some t => p <? t | _, _ => false end)
       (match page with Some p => 1 <? p | None => false end))
    (mkFilters trailFilter startDate endDate timezone).

(** [getRegistrationData(page, limit, trailFilter, startDate, endDate,
    timezone)] at time [now].  A string parameter that is [null] is the
    empty string ([handleStatisticsRequest] passes [x || null]). *)
Definition getRegistrationData (page limit : option Z)
    (trailFilter startDate endDate timezone : string) (now : Z) (w : World)
  : Outcome (Response CacheValue) * World :=
  let page := clampPage page in
  let limit := clampLimit limit in
  let key := cacheKey page limit trailFilter startDate endDate timezone in
  let '(cachedData, w) := Manager.getFromCache key now w in
  match truthyValue cachedData with
  | Some safeData => (Returned (mkResponse 200 (Some safeData)), w)
  | None =>
      let '(cachedMap, w) := Manager.getFromCache "trails-name-map" now w in
      let built :=
        match truthyValue cachedMap with
        | Some trailsMap => Returned (trailsMap, w)
        | None =>
            m ← buildTrailsMap w;
            mret (CVNameMap m,
                  Manager.setInCache "trails-name-map" (CVNameMap m) (5 * 60 * 1000) now w)
        end in
      match built with
      | Thrown => (Thrown, w)
      | Returned (trailsMap, w) =>
          let registrationIds := Storage.listing "registration:" (storage w) in
          match forBatches
                  (fun entry =>
                     caught (tableItemBody w trailsMap trailFilter startDate endDate
                                           timezone entry))
                  (toBatches 50 registrationIds) with
          | Thrown => (Thrown, w)
          | Returned registrationList =>
              let registrationList := Js.sort newestFirst registrationList in
              let response :=
                paginate page limit trailFilter startDate endDate timezone registrationList in
              let w := Manager.setInCache key (CVView response) (30 * 1000) now w in
              (Returned (mkResponse 200 (Some (CVView response))), w)
          end
      end
  end.

(** *** [getAnalytics] at time [now]: the cache, then the stored snapshot,
    then a fresh aggregation *)

Definition emptyData (now : Z) : AnalyticsData :=
  mkAnalytics (mkGrouped [] [] [] []) (toISOString E now).

Definition getAnalytics (now : Z) (w : World) : Response CacheValue * World :=
  let '(cachedData, w) := Manager.getFromCache "analytics-data" now w in
  match truthyValue cachedData with
  | Some v => (mkResponse 200 (Some v), w)
  | None =>
      match Storage.getAnalytics "analytics:data" (storage w) with
      | Some storedData =>
          let w := Manager.setInCache "analytics-data" (CVAnalytics storedData)
                                      (10 * 60 * 1000) now w in
          (mkResponse 200 (Some (CVAnalytics storedData)), w)
      | None =>
          let w := aggregateAnalytics now w in
          match Storage.getAnalytics "analytics:data" (storage w) with
          | Some freshData =>
              let w := Manager.setInCache "analytics-data" (CVAnalytics freshData)
                                          (10 * 60 * 1000) now w in
              (mkResponse 200 (Some (CVAnalytics freshData)), w)
          | None => (mkResponse 200 (Some (CVAnalytics (emptyData now))), w)
          end
      end
  end.

End with_dates.
End Statistics.

(** ** The registration service (registration-service.ts) and its timers *)

Module RegistrationService.

(** [setTimeout(cb, delay)] at time [now]: the timer id and the scheduler *)
Definition setTimeout (cb : Callback) (delay : Z) (now : Z) (s : Scheduler) : Z * Scheduler :=
  let id := nextTimerId s in
  (id, mkScheduler (timers s ++ [mkTimer id (now + delay) cb]) (id + 1)
                   (cacheInvalidationTimers s) (aggregations s)).

Definition clearTimeout (id : Z) (s : Scheduler) : Scheduler :=
  mkScheduler (List.filter (fun t => negb (timer_id t =? id)) (timers s)) (nextTimerId s)
              (cacheInvalidationTimers s) (aggregations s).

(** [trailId || 'global'] *)
Definition timerKey (trailId : string) : string := Js.or_else trailId "global".

(** [debounceInvalidateCache(trailId)] at time [now] *)
Definition debounceInvalidateCache (trailId : string) (now : Z) (w : World) : World :=
  let s := sched w in
  let s :=
    match cacheInvalidationTimers s !! timerKey trailId with
    | Some id => if id =? 0 then s else clearTimeout id s
    | None => s
    end in
  let '(id, s) := setTimeout (InvalidateTimer trailId) 2000 now s in
  with_sched w (mkScheduler (timers s) (nextTimerId s)
                            (<[timerKey trailId := id]> (cacheInvalidationTimers s))
                            (aggregations s)).

(** [triggerAnalyticsAggregation()]: the aggregation runs from a timer,
    100 ms later *)
Definition triggerAnalyticsAggregation (now : Z) (w : World) : World :=
  with_sched w (setTimeout AggregationTimer 100 now (sched w)).2.

(** [invalidateAllCaches(trailId)] *)
Definition invalidateAllCaches (trailId : string) (now : Z) (w : World) : World :=
  let w := Manager.invalidateCache "all-registrations" w in
  let w := Manager.invalidateCache "summary-statistics" w in
  let w := Manager.invalidateCache "registrations:" w in
  let w := Manager.invalidateCache "analytics-data" w in
  let w := Manager.invalidateCache "all-trails" w in
  let w := Manager.invalidateCache "trails-name-map" w in
  let w :=
    if Js.falsy trailId then w
    else
      let w := Manager.invalidateCache ("trail-reg-count:" +:+ trailId) w in
      let w := Manager.invalidateCache ("trail-horse-count:" +:+ trailId) w in
      Manager.invalidateCache ("trail:" +:+ trailId) w in
  triggerAnalyticsAggregation now w.

(** [updateTrailRegistrationsMap(trailId, registrationId)] *)
Definition updateTrailRegistrationsMap (trailId registrationId : string) (w : World) : World :=
  let key := "trail_registrations:" +:+ trailId in
  let registrationIds := default [] (Storage.getRegistrationIds key (storage w)) in
  with_storage w (<[key := SRegistrationIds (registrationIds ++ [registrationId])]> (storage w)).

(** [createRegistration(data)] at time [now]; [registrationId] is the
    result of [crypto.randomUUID()] and [registrationObjectId] that of
    [newUniqueId().toString()]. *)
Definition createRegistration (nowIso : string) (data : PartialRegistration)
    (registrationId registrationObjectId : string) (now : Z) (w : World)
  : Response RegistrationData * World :=
  let trailId := default "" (p_trailId data) in
  if Js.falsy trailId then (mkResponse 400 None, w)
  else
    match Storage.getHandle ("trail:" +:+ trailId) (storage w) with
    | None => (mkResponse 404 None, w)
    | Some _ =>
        let data := mkPartial (Some registrationId) (p_trailId data) (p_riderName data)
                              (p_horseCount data) (p_timestamp data) in
        match Stub.putRegistration nowIso w registrationObjectId data with
        | (Thrown, w) => (mkResponse 500 None, w)
        | (Returned response, w) =>
            if status response =? 200 then
              let w := with_storage w (<["registration:" +:+ registrationId
                                          := SHandle registrationObjectId]> (storage w)) in
              let w := updateTrailRegistrationsMap trailId registrationId w in
              (response, debounceInvalidateCache trailId now w)
            else (response, w)
        end
    end.

(** [updateRegistration(registrationId, data)] at time [now] *)
Definition updateRegistration (nowIso : string) (registrationId : string)
    (data : PartialRegistration) (now : Z) (w : World)
  : Outcome (Response RegistrationData) * World :=
  match Storage.getHandle ("registration:" +:+ registrationId) (storage w) with
  | None => (Returned (mkResponse 404 None), w)
  | Some h =>
      match Stub.getRegistration w h with
      | Thrown => (Thrown, w)
      | Returned originalResponse =>
          let originalData :=
            if status originalResponse =? 200 then json originalResponse else None in
          match Stub.putRegistration nowIso w h data with
          | (Thrown, w) => (Thrown, w)
          | (Returned response, w) =>
              if status response =? 200 then
                let w :=
                  match originalData with
                  | Some o =>
                      if Js.falsy (reg_trailId o) then w
                      else invalidateAllCaches (reg_trailId o) now w
                  | None => w
                  end in
                let w :=
                  match p_trailId data, originalData with
                  | Some t, Some o =>
                      if negb (Js.falsy t) && negb (String.eqb t (reg_trailId o))
                      then invalidateAllCaches t now w
                      else w
                  | _, _ => w
                  end in
                (Returned response, w)
              else (Returned response, w)
          end
      end
  end.

(** [deleteRegistration(registrationId)] at time [now] *)
Definition deleteRegistration (registrationId : string) (now : Z) (w : World)
  : Outcome (Response RegistrationData) * World :=
  match Storage.getHandle ("registration:" +:+ registrationId) (storage w) with
  | None => (Returned (mkResponse 404 None), w)
  | Some h =>
      match Stub.getRegistration w h with
      | Thrown => (Thrown, w)
      | Returned response =>
          let trailId :=
            if status response =? 200
            then match json response with Some d => reg_trailId d | None => "" end
            else "" in
          let w :=
            if Js.falsy trailId then w
            else
              let key := "trail_registrations:" +:+ trailId in
              match Storage.getRegistrationIds key (storage w) with
              | Some ids =>
                  with_storage w
                    (<[key := SRegistrationIds
                                (List.filter (fun id => negb (String.eqb id registrationId)) ids)]>
                       (storage w))
              | None => w
              end in
          let w := with_storage w (delete ("registration:" +:+ registrationId) (storage w)) in
          match Stub.deleteRegistration w h with
          | (Thrown, w) => (Thrown, w)
          | (Returned deleteResponse, w) =>
              let w :=
                if (status deleteResponse =? 200) && negb (Js.falsy trailId)
                then invalidateAllCaches trailId now w
                else w in
              (Returned deleteResponse, w)
          end
      end
  end.

(** [flushAllRegistrations()] at time [now]: each deletion is inside its
    own [try]/[catch]. *)
Definition flushOne (w : World) (entry : string * Stored) : World :=
  let '(key, id) := entry in
  match handleOf id with
  | Thrown => w
  | Returned h =>
      match Stub.deleteRegistration w h with
      | (Thrown, w) => w
      | (Returned _, w) => with_storage w (delete key (storage w))
      end
  end.

Definition flushAllRegistrations (now : Z) (w : World) : Response RegistrationData * World :=
  let registrationIds := Storage.listing "registration:" (storage w) in
  let trailRegistrationsEntries := Storage.listing "trail_registrations:" (storage w) in
  let w := foldl flushOne w registrationIds in
  let w :=
    foldl (fun w '(key, _) => with_storage w (<[key := SRegistrationIds []]> (storage w)))
          w trailRegistrationsEntries in
  (mkResponse 200 None, invalidateAllCaches "" now w).

(** *** Reading registrations *)

(** The callback of one listed registration in [getAllRegistrations],
    before its [try]/[catch] is applied *)
Definition registrationBody (w : World) (entry : string * Stored)
  : Outcome (option RegistrationData) :=
  let '(key, id) := entry in
  h ← handleOf id;
  response ← Stub.getRegistration w h;
  if status response =? 200 then
    data ← jsonOf response;
    mret (Some data)
  else mret None.

(** [getAllRegistrations()] at time [now] *)
Definition getAllRegistrations (now : Z) (w : World)
  : Outcome (Response CacheValue) * World :=
  let '(cachedRegistrations, w) := Manager.getFromCache "all-registrations" now w in
  match truthyValue cachedRegistrations with
  | Some v => (Returned (mkResponse 200 (Some v)), w)
  | None =>
      let registrationIds := Storage.listing "registration:" (storage w) in
      match forBatches (fun entry => caught (registrationBody w entry))
                       (toBatches 50 registrationIds) with
      | Thrown => (Thrown, w)
      | Returned registrations =>
          let w := Manager.setInCache "all-registrations" (CVRegistrations registrations)
                                      (60 * 1000) now w in
          (Returned (mkResponse 200 (Some (CVRegistrations registrations))), w)
      end
  end.

(** [getRegistration(registrationId)] at time [now].  The document is
    cached under [registration:<id>] for five minutes. *)
Definition getRegistration (registrationId : string) (now : Z) (w : World)
  : Outcome (Response CacheValue) * World :=
  let cacheKey := "registration:" +:+ registrationId in
  let '(cachedRegistration, w) := Manager.getFromCache cacheKey now w in
  match truthyValue cachedRegistration with
  | Some v => (Returned (mkResponse 200 (Some v)), w)
  | None =>
      match Storage.getHandle ("registration:" +:+ registrationId) (storage w) with
      | None => (Returned (mkResponse 404 None), w)
      | Some h =>
          match Stub.getRegistration w h with
          | Thrown => (Thrown, w)
          | Returned response =>
              if status response =? 200 then
                match jsonOf response with
                | Thrown => (Thrown, w)
                | Returned data =>
                    let w := Manager.setInCache cacheKey (CVRegistration data)
                                                (5 * 60 * 1000) now w in
                    (Returned (mkResponse 200 (Some (CVRegistration data))), w)
                end
              else (Returned (mkResponse (status response) None), w)
          end
      end
  end.

(** *** The timer loop *)

Section with_dates.
Context (E : DateEnv).

(** What a timer does when it fires; the callback runs at [fireAt]. *)
Definition fire (t : Timer) (w : World) : World :=
  match callback t with
  | InvalidateTimer trailId =>
      let w := invalidateAllCaches trailId (fireAt t) w in
      let s := sched w in
      with_sched w (mkScheduler (timers s) (nextTimerId s)
                                (delete (timerKey trailId) (cacheInvalidationTimers s))
                                (aggregations s))
  | AggregationTimer =>
      let w := Statistics.aggregateStatistics E (fireAt t) w in
      let s := sched w in
      with_sched w (mkScheduler (timers s) (nextTimerId s) (cacheInvalidationTimers s)
                                (aggregations s ++ [fireAt t]))
  end.

Definition earlier (a b : Timer) : bool :=
  (fireAt a <? fireAt b) || ((fireAt a =? fireAt b) && (timer_id a <? timer_id b)).

Fixpoint earliest (l : list Timer) : option Timer :=
  match l with
  | [] => None
  | t :: l' =>
      match earliest l' with
      | Some u => if earlier u t then Some u else Some t
      | None => Some t
      end
  end.

(** The next timer to fire if time runs up to [upTo] *)
Definition nextDue (upTo : Z) (s : Scheduler) : option Timer :=
  match earliest (timers s) with
  | Some t => if fireAt t <=? upTo then Some t else None
  | None => None
  end.

(** An invalidation timer starts one aggregation timer when it fires; an
    aggregation timer starts none. *)
Definition weight (t : Timer) : nat :=
  match callback t with
  | InvalidateTimer _ => 2
  | AggregationTimer => 1
  end.

(** The loop: the next due timer leaves the pending list and fires *)
Fixpoint runTimers (fuel : nat) (upTo : Z) (w : World) : World :=
  match fuel with
  | O => w
  | S fuel =>
      match nextDue upTo (sched w) with
      | None => w
      | Some t => runTimers fuel upTo (fire t (with_sched w (clearTimeout (timer_id t) (sched w))))
      end
  end.

(** Let time pass up to [upTo], firing every timer that falls due.  The
    weights of the pending timers bound the number of firings. *)
Definition advance (upTo : Z) (w : World) : World :=
  runTimers (sum_list (map weight (timers (sched w)))) upTo w.

(** The requests that change registrations, and a run of the instance
    over a timed script of them.  A request is handled at one instant of
    the clock: the timers due by then have fired, none fires in between. *)
Inductive Request :=
  | CreateRegistration (data : PartialRegistration) (registrationId registrationObjectId : string)
  | UpdateRegistration (registrationId : string) (data : PartialRegistration)
  | DeleteRegistration (registrationId : string)
  | FlushAllRegistrations.

Definition handleRequest (r : Request) (now : Z) (w : World) : World :=
  match r with
  | CreateRegistration data registrationId registrationObjectId =>
      (createRegistration (toISOString E now) data registrationId registrationObjectId now w).2
  | UpdateRegistration registrationId data =>
      (updateRegistration (toISOString E now) registrationId data now w).2
  | DeleteRegistration registrationId => (deleteRegistration registrationId now w).2
  | FlushAllRegistrations => (flushAllRegistrations now w).2
  end.

Fixpoint run (script : list (Z * Request)) (w : World) : World :=
  match script with
  | [] => w
  | (t, r) :: rest => run rest (handleRequest r t (advance t w))
  end.

End with_dates.
End RegistrationService.

(** ** The trail service (trail-service.ts): listing all trails *)

Module TrailService.

(** The callback that reads one registration's horse count; its
    [try]/[catch] ends in [return 0]. *)
Definition horseCountOf (w : World) (regId : string) : Outcome Z :=
  match Storage.getHandle ("registration:" +:+ regId) (storage w) with
  | None => Returned 0
  | Some h =>
      match (regResponse ← Stub.getRegistration w h;
             if status regResponse =? 200 then
               regData ← jsonOf regResponse;
               mret (Some (reg_horseCount regData))
             else mret None) with
      | Returned (Some n) => Returned n
      | Returned None => Returned 0
      | Thrown => Returned 0
      end
  end.

(** [for (const regBatch of regBatches) { const horseCounts = await
    Promise.all(...); horseCount += horseCounts.reduce(...) }], for
    integer horse counts whose sums stay within [2^53], where the addition
    of doubles is exact *)
Fixpoint sumBatches (w : World) (regBatches : list (list string)) (horseCount : Z)
  : Outcome Z :=
  match regBatches with
  | [] => Returned horseCount
  | regBatch :: rest =>
      horseCounts ← promiseAll (map (horseCountOf w) regBatch);
      sumBatches w rest (horseCount + foldl (fun sum count => sum + count) 0 horseCounts)
  end.

(** The part of the callback after the trail document was read: the two
    counts, each through the cache *)
Definition withCounts (trailId : string) (data : TrailData) (now : Z) (w : World)
  : Outcome TrailData * World :=
  let registrationCountCacheKey := "trail-reg-count:" +:+ trailId in
  let '(cachedCount, w) := Manager.getFromCache registrationCountCacheKey now w in
  let '(registrationCount, w) :=
    match cachedCount with
    | Some v => (as_number v, w)
    | None =>
        let trailRegistrations :=
          Storage.getRegistrationIds ("trail_registrations:" +:+ trailId) (storage w) in
        let n := match trailRegistrations with
                 | Some ids => Z.of_nat (List.length ids)
                 | None => 0
                 end in
        (Some n, Manager.setInCache registrationCountCacheKey (CVNumber n) (2 * 60 * 1000) now w)
    end in
  let horseCountCacheKey := "trail-horse-count:" +:+ trailId in
  let '(cachedHorses, w) := Manager.getFromCache horseCountCacheKey now w in
  match cachedHorses with
  | Some v =>
      (Returned (mkTrail (trail_id data) (trail_name data) (trail_active data)
                         registrationCount (as_number v)), w)
  | None =>
      let ids := default [] (Storage.getRegistrationIds ("trail_registrations:" +:+ trailId)
                                                        (storage w)) in
      match sumBatches w (toBatches 20 ids) 0 with
      | Thrown => (Thrown, w)
      | Returned horseCount =>
          let w := Manager.setInCache horseCountCacheKey (CVNumber horseCount)
                                      (2 * 60 * 1000) now w in
          (Returned (mkTrail (trail_id data) (trail_name data) (trail_active data)
                             registrationCount (Some horseCount)), w)
      end
  end.

(** The callback of one trail, before its outer [try]/[catch] is applied;
    the inner one, around [idFromString], returns [null]. *)
Definition trailBody (now : Z) (entry : string * Stored) (w : World)
  : Outcome (option TrailData) * World :=
  let '(key, id) := entry in
  let trailId := Js.substringFrom 6 key in
  match handleOf id with
  | Thrown => (Returned None, w)
  | Returned h =>
      match Stub.getTrail w h with
      | Thrown => (Thrown, w)
      | Returned response =>
          if status response =? 200 then
            match jsonOf response with
            | Thrown => (Thrown, w)
            | Returned data =>
                match withCounts trailId data now w with
                | (Thrown, w) => (Thrown, w)
                | (Returned data, w) =>
                    match trail_active data with
                    | Some false => (Returned None, w)
                    | _ => (Returned (Some data), w)
                    end
                end
            end
          else (Returned None, w)
      end
  end.

Definition trailCallback (now : Z) (entry : string * Stored) (w : World)
  : Outcome (option TrailData) * World :=
  let '(o, w) := trailBody now entry w in (caught o, w).

(** [await Promise.all(batch.map(cb))] for callbacks that write the cache.
    The callbacks of a batch are run one after the other: each writes cache
    keys of its own trail only. *)
Fixpoint promiseAllSt {A B} (cb : A -> World -> Outcome B * World) (l : list A) (w : World)
  : Outcome (list B) * World :=
  match l with
  | [] => (Returned [], w)
  | a :: l' =>
      let '(o, w) := cb a w in
      let '(os, w) := promiseAllSt cb l' w in
      (b ← o; bs ← os; mret (b :: bs), w)
  end.

Fixpoint forBatchesSt {A B} (cb : A -> World -> Outcome (option B) * World)
    (batches : list (list A)) (w : World) : Outcome (list B) * World :=
  match batches with
  | [] => (Returned [], w)
  | batch :: rest =>
      match promiseAllSt cb batch w with
      | (Thrown, w) => (Thrown, w)
      | (Returned batchResults, w) =>
          let '(more, w) := forBatchesSt cb rest w in
          (m ← more; mret (filterNonNull batchResults ++ m), w)
      end
  end.

(** [getAllTrails()] at time [now] *)
Definition getAllTrails (now : Z) (w : World) : Outcome (Response CacheValue) * World :=
  let '(cachedTrails, w) := Manager.getFromCache "all-trails" now w in
  match truthyValue cachedTrails with
  | Some v => (Returned (mkResponse 200 (Some v)), w)
  | None =>
      let trailIds := Storage.listing "trail:" (storage w) in
      match forBatchesSt (trailCallback now) (toBatches 10 trailIds) w with
      | (Thrown, w) => (Thrown, w)
      | (Returned trails, w) =>
          let w := Manager.setInCache "all-trails" (CVTrails trails) (60 * 1000) now w in
          (Returned (mkResponse 200 (Some (CVTrails trails))), w)
      end
  end.

(** *** One trail: create, read, update, delete *)

(** [invalidateAllTrailCaches(specificTrailId?)]; no id is the empty
    string *)
Definition invalidateAllTrailCaches (specificTrailId : string) (w : World) : World :=
  let w := Manager.invalidateCache "all-trails" w in
  let w := Manager.invalidateCache "trails-name-map" w in
  let w :=
    if Js.falsy specificTrailId then w
    else
      let w := Manager.invalidateCache ("trail:" +:+ specificTrailId) w in
      let w := Manager.invalidateCache ("trail-reg-count:" +:+ specificTrailId) w in
      Manager.invalidateCache ("trail-horse-count:" +:+ specificTrailId) w in
  let w := Manager.invalidateCache "summary-statistics" w in
  Manager.invalidateCache "registrations:" w.

(** [createTrail(data)]; [trailId] is the fresh [crypto.randomUUID()] and
    [trailObjectId] the fresh [newUniqueId()].  The mapping is stored
    before the actor is called. *)
Definition createTrail (data : PartialTrail) (trailId trailObjectId : string) (w : World)
  : Outcome (Response TrailData) * World :=
  let w := with_storage w (<["trail:" +:+ trailId := SHandle trailObjectId]> (storage w)) in
  let data := mkPartialTrail (Some trailId) (pt_name data) (pt_active data)
                             (pt_registrationCount data) (pt_horseCount data) in
  match Stub.putTrail w trailObjectId data with
  | (Thrown, w) => (Thrown, w)
  | (Returned response, w) =>
      let w := if status response =? 200 then invalidateAllTrailCaches "" w else w in
      (Returned response, w)
  end.

(** [getTrail(trailId)] at time [now]: the registration count is read from
    storage, the horse count through the cache. *)
Definition getTrail (trailId : string) (now : Z) (w : World)
  : Outcome (Response TrailData) * World :=
  match Storage.getHandle ("trail:" +:+ trailId) (storage w) with
  | None => (Returned (mkResponse 404 None), w)
  | Some h =>
      match Stub.getTrail w h with
      | Thrown => (Thrown, w)
      | Returned response =>
          if status response =? 200 then
            match jsonOf response with
            | Thrown => (Thrown, w)
            | Returned data =>
                let trailRegistrations :=
                  Storage.getRegistrationIds ("trail_registrations:" +:+ trailId) (storage w) in
                let registrationCount :=
                  match trailRegistrations with
                  | Some ids => Z.of_nat (List.length ids)
                  | None => 0
                  end in
                let horseCountCacheKey := "trail-horse-count:" +:+ trailId in
                let '(cachedHorses, w) := Manager.getFromCache horseCountCacheKey now w in
                match cachedHorses with
                | Some v =>
                    (Returned (mkResponse 200
                                 (Some (mkTrail (trail_id data) (trail_name data)
                                                (trail_active data) (Some registrationCount)
                                                (as_number v)))), w)
                | None =>
                    match sumBatches w (toBatches 20 (default [] trailRegistrations)) 0 with
                    | Thrown => (Thrown, w)
                    | Returned horseCount =>
                        let w := Manager.setInCache horseCountCacheKey (CVNumber horseCount)
                                                    (2 * 60 * 1000) now w in
                        (Returned (mkResponse 200
                                     (Some (mkTrail (trail_id data) (trail_name data)
                                                    (trail_active data) (Some registrationCount)
                                                    (Some horseCount)))), w)
                    end
                end
            end
          else (Returned response, w)
      end
  end.

(** [updateTrail(trailId, data)] *)
Definition updateTrail (trailId : string) (data : PartialTrail) (w : World)
  : Outcome (Response TrailData) * World :=
  match Storage.getHandle ("trail:" +:+ trailId) (storage w) with
  | None => (Returned (mkResponse 404 None), w)
  | Some h =>
      match Stub.putTrail w h data with
      | (Thrown, w) => (Thrown, w)
      | (Returned response, w) =>
          let w := if status response =? 200 then invalidateAllTrailCaches trailId w else w in
          (Returned response, w)
      end
  end.

(** The callback that deletes one registration of a trail; its whole body
    is inside [try]/[catch]. *)
Definition deleteOne (w : World) (regId : string) : World :=
  match Storage.getHandle ("registration:" +:+ regId) (storage w) with
  | None => w
  | Some h =>
      match Stub.deleteRegistration w h with
      | (Thrown, w) => w
      | (Returned _, w) => with_storage w (delete ("registration:" +:+ regId) (storage w))
      end
  end.

(** [deleteTrail(trailId)].  The call to a failing trail actor throws
    either in [idFromString], before anything is deleted, or in [fetch],
    after the mappings were deleted: [malformed] tells which.  The
    callbacks of a batch are run one after the other: each deletes the
    mapping and the document of its own registration. *)
Definition deleteTrail (malformed : bool) (trailId : string) (w : World)
  : Outcome (Response TrailData) * World :=
  match Storage.getHandle ("trail:" +:+ trailId) (storage w) with
  | None => (Returned (mkResponse 404 None), w)
  | Some h =>
      if malformed && Stub.throws w h then (Thrown, w)
      else
        let w :=
          match Storage.getRegistrationIds ("trail_registrations:" +:+ trailId) (storage w) with
          | Some (regId :: regIds) =>
              let w := foldl (fun w batch => foldl deleteOne w batch) w
                             (toBatches 50 (regId :: regIds)) in
              with_storage w (delete ("trail_registrations:" +:+ trailId) (storage w))
          | _ => w
          end in
        let w := with_storage w (delete ("trail:" +:+ trailId) (storage w)) in
        match Stub.deleteTrail w h with
        | (Thrown, w) => (Thrown, w)
        | (Returned response, w) =>
            let w := if status response =? 200 then invalidateAllTrailCaches "" w else w in
            (Returned response, w)
        end
  end.

(** The body of the loop of [getTrailRegistrations]: the document to push,
    if any *)
Definition registrationOf (w : World) (registrationId : string) : option RegistrationData :=
  match Storage.getHandle ("registration:" +:+ registrationId) (storage w) with
  | None => None
  | Some h =>
      catchNull (response ← Stub.getRegistration w h;
                 if status response =? 200 then
                   data ← jsonOf response;
                   mret (Some data)
                 else mret None)
  end.

(** [getTrailRegistrations(trailId)] *)
Definition getTrailRegistrations (trailId : string) (w : World)
  : Response (list RegistrationData) :=
  match Storage.getRegistrationIds ("trail_registrations:" +:+ trailId) (storage w) with
  | None | Some [] => mkResponse 200 (Some [])
  | Some registrationIds =>
      mkResponse 200
        (Some (foldl (fun registrations registrationId =>
                        match registrationOf w registrationId with
                        | Some data => registrations ++ [data]
                        | None => registrations
                        end)
                     [] registrationIds))
  end.

(** [getPublicTrailInfo(trailId)]: the public data has the id, the name,
    the description, the location and [active], and no counts. *)
Definition getPublicTrailInfo (trailId : string) (w : World) : Outcome (Response TrailData) :=
  match Storage.getHandle ("trail:" +:+ trailId) (storage w) with
  | None => Returned (mkResponse 404 None)
  | Some h =>
      response ← Stub.getTrail w h;
      if status response =? 200 then
        fullData ← jsonOf response;
        let publicData :=
          mkTrail (trail_id fullData) (trail_name fullData) (trail_active fullData) None None in
        match trail_active publicData with
        | Some true => Returned (mkResponse 200 (Some publicData))
        | _ => Returned (mkResponse 403 None)
        end
      else Returned response
  end.

End TrailService.

(** ** Routing (app.ts, trail-manager.ts, the services' [handleRequest])

    A request is seen through its method and the path of its URL.  The
    handlers are followed up to the call they make: which operation, with
    which id from the path; or the response they make on the spot. *)

Module Routing.

(** [s.split(sep)] for a one-character separator *)
Fixpoint split (sep : ascii) (s : string) : list string :=
  match s with
  | EmptyString => [EmptyString]
  | String c s' =>
      if Ascii.eqb c sep then EmptyString :: split sep s'
      else match split sep s' with
           | part :: parts => String c part :: parts
           | [] => [String c EmptyString]
           end
  end.

Inductive Route :=
  | GetAllTrails
  | CreateTrail
  | GetPublicTrailInfo (trailId : string)
  | GetTrail (trailId : string)
  | UpdateTrail (trailId : string)
  | DeleteTrail (trailId : string)
  | GetTrailRegistrations (trailId : string)
  | GenerateTrailQRCode (trailId : string)
  | CreateRegistration
  | GetAllRegistrations
  | FlushAllRegistrations
  | GetRegistration (registrationId : string)
  | UpdateRegistration (registrationId : string)
  | DeleteRegistration (registrationId : string)
  (** [templateService.handleRequest(request, path)] *)
  | TemplateRequest (path : string)
  (** [statisticsService.handleStatisticsRequest(request)] *)
  | StatisticsRequest
  (** the request handler of the web application *)
  | Page
  (** [new Response(..., { status })] *)
  | Respond (status : Z).

(** [getIdFromPath(path)], the same in the manager and in every service *)
Definition getIdFromPath (path : string) : option string :=
  let parts := split "/" path in
  if (2 <? List.length parts)%nat then parts !! 2%nat else None.

Module TrailService.

Definition handleRequest (method path : string) : Route :=
  if String.eqb path "/trails" && String.eqb method "GET" then GetAllTrails
  else if String.eqb path "/trails" && String.eqb method "POST" then CreateTrail
  else if Js.startsWith path "/public/trails/" && String.eqb method "GET"
  then GetPublicTrailInfo (default "undefined" (split "/" path !! 3%nat))
  else
    match getIdFromPath path with
    | None => Respond 400
    | Some trailId =>
        if Js.falsy trailId then Respond 400
        else if String.eqb path ("/trails/" +:+ trailId) && String.eqb method "GET"
        then GetTrail trailId
        else if String.eqb path ("/trails/" +:+ trailId) && String.eqb method "PUT"
        then UpdateTrail trailId
        else if String.eqb path ("/trails/" +:+ trailId) && String.eqb method "DELETE"
        then DeleteTrail trailId
        else if String.eqb path ("/trails/" +:+ trailId +:+ "/registrations")
                && String.eqb method "GET"
        then GetTrailRegistrations trailId
        else if String.eqb path ("/trails/" +:+ trailId +:+ "/generate-qr")
                && String.eqb method "POST"
        then GenerateTrailQRCode trailId
        else Respond 404
    end.

End TrailService.

Module RegistrationService.

Definition handleRequest (method path : string) : Route :=
  if String.eqb path "/public/registrations" && String.eqb method "POST"
  then CreateRegistration
  else if String.eqb path "/registrations" && String.eqb method "POST" then CreateRegistration
  else if String.eqb path "/registrations" && String.eqb method "GET" then GetAllRegistrations
  else if String.eqb path "/registrations/flush-all" && String.eqb method "DELETE"
  then FlushAllRegistrations
  else
    match getIdFromPath path with
    | None => Respond 400
    | Some registrationId =>
        if Js.falsy registrationId then Respond 400
        else if String.eqb path ("/registrations/" +:+ registrationId)
                && String.eqb method "GET"
        then GetRegistration registrationId
        else if String.eqb path ("/registrations/" +:+ registrationId)
                && String.eqb method "PUT"
        then UpdateRegistration registrationId
        else if String.eqb path ("/registrations/" +:+ registrationId)
                && String.eqb method "DELETE"
        then DeleteRegistration registrationId
        else Respond 404
    end.

End RegistrationService.

Module TrailManagerDO.

(** [fetch(request)]: the [/api] prefix is removed, then the first
    matching prefix decides the service *)
Definition fetch (method pathname : string) : Route :=
  let path :=
    if Js.startsWith pathname "/api/" then Js.substringFrom 4 pathname else pathname in
  if Js.startsWith path "/public/trails" then TrailService.handleRequest method path
  else if Js.startsWith path "/public/registrations"
  then RegistrationService.handleRequest method path
  else if Js.startsWith path "/trails" then TrailService.handleRequest method path
  else if Js.startsWith path "/registrations"
  then RegistrationService.handleRequest method path
  else if Js.startsWith path "/templates" then TemplateRequest path
  else if Js.startsWith path "/statistics" then StatisticsRequest
  else Respond 404.

End TrailManagerDO.

Module App.

Definition isProtectedApiRoute (pathname method : string) : bool :=
  if Js.startsWith pathname "/api/public/" then false else true.

(** The worker's [fetch]; [authenticated] is whether [verifyAuthentication]
    finds a user, [isSecurityTest] whether the request carries the header
    [X-Security-Test: true]. *)
Definition fetch (method pathname : string) (authenticated isSecurityTest : bool) : Route :=
  if Js.startsWith pathname "/api/" then
    let requiresAuth :=
      Js.startsWith pathname "/api/admin/" || isProtectedApiRoute pathname method in
    if requiresAuth && negb authenticated then Respond 401
    else TrailManagerDO.fetch method pathname
  else if Js.startsWith pathname "/admin" && isSecurityTest then Respond 302
  else Page.

End App.

(** The operations a request without credentials may reach *)
Definition isPublic (r : Route) : bool :=
  match r with
  | CreateRegistration | GetPublicTrailInfo _ | Page | Respond _ => true
  | _ => false
  end.

End Routing.

(** ** Sample data *)

Module Sample.

(** A platform that knows two timestamps of 2024, a year that starts on a
    Monday: noon of 27 February and noon of 5 March (UTC). *)
Definition dates : DateEnv :=
  mkDateEnv
    (fun ts =>
       if String.eqb ts "2024-02-27T12:00:00.000Z"
       then Some (mkDate 1709035200000 "2024-02-27" 2024 1)
       else if String.eqb ts "2024-03-05T12:00:00.000Z"
       then Some (mkDate 1709640000000 "2024-03-05" 2024 2)
       else None)
    (fun _ => (1704067200000, 1))
    (fun _ _ => None)
    (fun _ => "2024-03-06T00:00:00.000Z").

Definition oak : TrailData := mkTrail "T1" "Oak" (Some true) None None.
Definition closed : TrailData := mkTrail "T2" "Closed" (Some false) None None.

Definition february : RegistrationData :=
  mkRegistration "r1" "T1" "A" 2 "2024-02-27T12:00:00.000Z".
Definition march : RegistrationData :=
  mkRegistration "r2" "T1" "B" 3 "2024-03-05T12:00:00.000Z".

(** Two trails, one of them inactive, and two registrations on the first;
    a third registration whose actor cannot be reached. *)
Definition world : World :=
  mkWorld
    (list_to_map
       [("trail:T1", SHandle "h1"); ("trail:T2", SHandle "h2");
        ("registration:r1", SHandle "g1"); ("registration:r2", SHandle "g2");
        ("registration:r3", SHandle "g3");
        ("trail_registrations:T1", SRegistrationIds ["r1"; "r2"; "r3"])])
    (list_to_map [("g1", february); ("g2", march)])
    (list_to_map [("h1", oak); ("h2", closed)])
    {["g3"]}
    ∅
    (mkScheduler [] 1 ∅ []).

(** A registration whose mapping is there but whose actor has no document *)
Definition orphan : World :=
  mkWorld (list_to_map [("registration:r9", SHandle "g9")]) ∅ ∅ ∅ ∅ (mkScheduler [] 1 ∅ []).

(** Twenty-five registrations, numbered from 1 *)
Definition busy : World :=
  mkWorld
    (list_to_map
       (map (fun i : nat => ("registration:" +:+ pretty i, SHandle ("g" +:+ pretty i)))
            (seq 1 25)))
    (list_to_map
       (map (fun i : nat => ("g" +:+ pretty i, mkRegistration (pretty i) "T1" "A" 1 ""))
            (seq 1 25)))
    ∅ ∅ ∅ (mkScheduler [] 1 ∅ []).

Definition newRider (name : string) : PartialRegistration :=
  mkPartial None (Some "T1") (Some name) (Some 2) None.

Definition fiveHorses : PartialRegistration := mkPartial None None None (Some 5) None.

End Sample.

(** ** Notions used in the statements *)

(** Two worlds with the same actors: the same documents, the same failing
    handles *)
Definition sameActors (w w' : World) : Prop :=
  registrationDocs w = registrationDocs w'
  ∧ trailDocs w = trailDocs w'
  ∧ failing w = failing w'.

(** A listed registration that can be read: its mapping is a handle, the
    call to its actor returns, the actor holds a document, and the
    timestamp of the document, if any, is a date *)
Definition readable (E : DateEnv) (w : World) (entry : string * Stored) : Prop :=
  ∃ h d, entry.2 = SHandle h ∧ Stub.throws w h = false
         ∧ registrationDocs w !! h = Some d
         ∧ (reg_timestamp d = "" ∨ is_Some (newDate E (reg_timestamp d))).

(** The same, as a test *)
Definition readableb (E : DateEnv) (w : World) (entry : string * Stored) : bool :=
  match entry.2 with
  | SHandle h =>
      negb (Stub.throws w h)
      && match registrationDocs w !! h with
         | Some d =>
             String.eqb (reg_timestamp d) ""
             || match newDate E (reg_timestamp d) with Some _ => true | None => false end
         | None => false
         end
  | _ => false
  end.

(** [w'] is [w] but for its cache and timers *)
Definition frame (w w' : World) : Prop := sameActors w w' ∧ storage w' = storage w.

(** What the callback of one listed trail may return: a trail that is not
    inactive, read from the actor of the entry; or nothing, and then the
    trail, if its actor could be read, is inactive *)
Definition trailResult (w : World) (entry : string * Stored) (r : option TrailData) : Prop :=
  match r with
  | Some t =>
      trail_active t ≠ Some false
      ∧ ∃ h d, entry.2 = SHandle h ∧ Stub.throws w h = false ∧ trailDocs w !! h = Some d
               ∧ trail_id t = trail_id d ∧ trail_name t = trail_name d
               ∧ trail_active t = trail_active d
  | None =>
      ∀ h d, entry.2 = SHandle h → Stub.throws w h = false → trailDocs w !! h = Some d →
             trail_active d = Some false
  end.

(** The timer loop seen on the scheduler alone: one step, and the run *)
Definition stepSched (upTo : Z) (s : Scheduler) : option Scheduler :=
  match RegistrationService.nextDue upTo s with
  | None => None
  | Some t =>
      let s := RegistrationService.clearTimeout (timer_id t) s in
      Some match callback t with
           | InvalidateTimer trailId =>
               mkScheduler (timers s ++ [mkTimer (nextTimerId s) (fireAt t + 100) AggregationTimer])
                           (nextTimerId s + 1)
                           (delete (RegistrationService.timerKey trailId) (cacheInvalidationTimers s))
                           (aggregations s)
           | AggregationTimer =>
               mkScheduler (timers s) (nextTimerId s) (cacheInvalidationTimers s)
                           (aggregations s ++ [fireAt t])
           end
  end.

Fixpoint runSched (fuel : nat) (upTo : Z) (s : Scheduler) : Scheduler :=
  match fuel with
  | O => s
  | S fuel => match stepSched upTo s with
              | None => s
              | Some s' => runSched fuel upTo s'
              end
  end.

(** A create that goes through: the trail is mapped, the required fields
    are there, the new actor answers *)
Definition validCreate (w : World) (trailId : string) (data : PartialRegistration) (h : string) : Prop :=
  p_trailId data = Some trailId ∧ Js.falsy trailId = false
  ∧ is_Some (Storage.getHandle ("trail:" +:+ trailId) (storage w))
  ∧ Js.falsy (default "" (p_riderName data)) = false
  ∧ default 0 (p_horseCount data) ≠ 0
  ∧ Stub.throws w h = false.

(** An update, and a delete, of a registration that has a trail: the
    registration is mapped, its actor answers and holds a document with a
    trail id; the update leaves the trail id alone *)
Definition validUpdate (w : World) (registrationId : string) (data : PartialRegistration) : Prop :=
  ∃ h d, Storage.getHandle ("registration:" +:+ registrationId) (storage w) = Some h
         ∧ Stub.throws w h = false ∧ registrationDocs w !! h = Some d
         ∧ Js.falsy (reg_trailId d) = false ∧ p_trailId data = None.

Definition validDelete (w : World) (registrationId : string) : Prop :=
  ∃ h d, Storage.getHandle ("registration:" +:+ registrationId) (storage w) = Some h
         ∧ Stub.throws w h = false ∧ registrationDocs w !! h = Some d
         ∧ Js.falsy (reg_trailId d) = false.



(** The states of an instance, as far as its cache goes.  The cache starts
    empty.  The paginated view reads and writes it; every other writer
    (the trail, registration, template and statistics services) sets keys
    that do not start with [registrations:]; entries are removed by reads,
    by invalidations and by the sweep.  Whatever else happens (storage,
    actors, timers) leaves the cache alone. *)
Inductive reachable (E : DateEnv) : World → Prop :=
  | reach_start w :
      cache w = ∅ → reachable E w
  | reach_elsewhere w w' :
      reachable E w → cache w' = cache w → reachable E w'
  | reach_view w page limit tf sd ed tz now :
      reachable E w →
      reachable E (Statistics.getRegistrationData E page limit tf sd ed tz now w).2
  | reach_set w key v ttl now :
      reachable E w → Js.startsWith key "registrations:" = false →
      reachable E (Manager.setInCache key v ttl now w)
  | reach_get w key now :
      reachable E w → reachable E (Manager.getFromCache key now w).2
  | reach_invalidate w keyPrefix :
      reachable E w → reachable E (Manager.invalidateCache keyPrefix w)
  | reach_sweep w now :
      reachable E w → reachable E (with_cache w (TTLCache.cleanup now (cache w))).

(** A listed registration the aggregator can process: its mapping is a
    handle, the call to its actor returns, the actor holds a document, and
    the timestamp of the document is a date *)
Definition processable (E : DateEnv) (w : World) (entry : string * Stored) : Prop :=
  ∃ h d date, entry.2 = SHandle h ∧ Stub.throws w h = false
              ∧ registrationDocs w !! h = Some d
              ∧ Js.falsy (reg_timestamp d) = false
              ∧ newDate E (reg_timestamp d) = Some date.

(** [r] is the record of the listed registration [entry], built from its
    document: the id is the key without its prefix; the trail id, the
    horse count and the timestamp are the document's ([unknown] and 1 when
    it has none); the trail name is the one of the trail map; the date, the
    week and the month are those of the timestamp *)
Definition builtFrom (E : DateEnv) (w : World) (trailMap : gmap string TrailInfo)
    (entry : string * Stored) (r : ProcessedRegistration) : Prop :=
  ∃ h d date,
    entry.2 = SHandle h ∧ registrationDocs w !! h = Some d
    ∧ newDate E (reg_timestamp d) = Some date
    ∧ pr_id r = Js.substringFrom 13 entry.1
    ∧ pr_trailId r = Js.or_else (reg_trailId d) "unknown"
    ∧ pr_trailName r
      = match trailMap !! Js.or_else (reg_trailId d) "unknown" with
        | Some i => info_name i
        | None => "Unknown"
        end
    ∧ pr_horseCount r = Js.or_elseZ (reg_horseCount d) 1
    ∧ pr_timestamp r = reg_timestamp d
    ∧ pr_date r = isoDay date
    ∧ pr_weekKey r
      = Js.showZ (getFullYear date) +:+ "-W" +:+ Js.showZ (Statistics.getWeekNumber E date)
    ∧ pr_weekLabel r
      = Js.showZ (getFullYear date) +:+ " Week " +:+ Js.showZ (Statistics.getWeekNumber E date)
    ∧ pr_monthKey r
      = Js.showZ (getFullYear date) +:+ "-" +:+ Statistics.padStart2 (Js.showZ (getMonth date + 1))
    ∧ pr_monthLabel r
      = Statistics.getMonthName date +:+ " " +:+ Js.showZ (getFullYear date).




(** [m.get(k)] on a [Map] kept as an association list *)
Fixpoint alookup {A} (k : string) (m : list (string * A)) : option A :=
  match m with
  | [] => None
  | (k', a) :: m' => if String.eqb k k' then Some a else alookup k m'
  end.

(** The by-trail groups and the time groups [processRegistrations] has built
    when its loop ends; [kf] and [lf] give the key and the label of a
    registration (its date, its week or its month) *)
Definition trailGroups (regs : list ProcessedRegistration)
  : list (string * list ProcessedRegistration) :=
  foldl (fun t reg => Statistics.addToTrailGroups reg t) [] regs.

Definition groupsBy (kf lf : ProcessedRegistration → string) (regs : list ProcessedRegistration)
  : list (string * Statistics.TimeGroup) :=
  foldl (fun g reg => Statistics.addToTimeGroups (kf reg) (lf reg) reg g) [] regs.

(** The registrations whose key is [k] *)
Definition inBucket (kf : ProcessedRegistration → string) (k : string)
    (regs : list ProcessedRegistration) : list ProcessedRegistration :=
  List.filter (fun r => String.eqb (kf r) k) regs.

(** An entry of a time list that totals the registrations of its key, as a
    whole and trail by trail *)
Definition bucketEntry (kf : ProcessedRegistration → string)
    (regs : list ProcessedRegistration) (e : AnalyticsTimeEntry) : Prop :=
  let mine := inBucket kf (timeKey e) regs in
  mine ≠ []
  ∧ totalRegistrations e = Z.of_nat (List.length mine)
  ∧ totalHorses e = Statistics.sumHorses mine
  ∧ ∀ trail bd, (trail, bd) ∈ byTrail e →
      let theirs := inBucket pr_trailName trail mine in
      theirs ≠ []
      ∧ bd_registrationCount bd = Z.of_nat (List.length theirs)
      ∧ bd_horseCount bd = Statistics.sumHorses theirs.

Definition sumOf {A} (f : A → Z) (l : list A) : Z := foldr (fun x s => f x + s) 0 l.

(** Numbers whose sums the code computes exactly.  The code adds numbers as
    doubles, the model as integers: the two agree as long as every partial
    sum is an integer of absolute value at most [2^53], which is so, in
    whatever order and grouping the numbers are added, when their absolute
    values add up to at most [2^53]. *)
Definition exactSums {A} (f : A → Z) (l : list A) : Prop :=
  sumOf (fun x => Z.abs (f x)) l ≤ 2 ^ 53.

(** The property names every plain object inherits from
    [Object.prototype].  Reading one of them from an object that has no
    such property of its own gives the inherited function or object, not
    [undefined]; and an assignment to [__proto__] creates no property. *)
Definition inheritedKeys : list string :=
  ["constructor"; "__defineGetter__"; "__defineSetter__"; "hasOwnProperty";
   "__lookupGetter__"; "__lookupSetter__"; "isPrototypeOf"; "propertyIsEnumerable";
   "toString"; "valueOf"; "__proto__"; "toLocaleString"].

(** A key that is none of them *)
Definition ordinaryKey (s : string) : bool := negb (existsb (String.eqb s) inheritedKeys).

Definition isDigit (c : ascii) : bool :=
  (48 <=? nat_of_ascii c)%nat && (nat_of_ascii c <=? 57)%nat.

(** A key made of digits, [-] and [W], as the date, week and month keys of
    the years 0 to 9999 are.  On such keys [localeCompare] orders as the
    code units do: the collation puts [-] before the digits and the digits
    before the letters, and compares no two of these characters as equal. *)
Definition plainKey (s : string) : bool :=
  forallb (fun c => isDigit c || Ascii.eqb c "-" || Ascii.eqb c "W") (list_ascii_of_string s).

(** [s] has the shape [shape]: a digit where the shape has [d], and the
    character of the shape elsewhere *)
Fixpoint hasShape (shape s : string) : bool :=
  match shape, s with
  | EmptyString, EmptyString => true
  | String p shape', String c s' =>
      (if Ascii.eqb p "d" then isDigit c else Ascii.eqb p c) && hasShape shape' s'
  | _, _ => false
  end.

(** A timestamp as [toISOString] writes it for the years 0 to 9999.  Two
    of them differ first at a digit, so [localeCompare] orders them as the
    code units do. *)
Definition isoTimestamp (s : string) : bool := hasShape "dddd-dd-ddTdd:dd:dd.dddZ" s.

(** The daily, weekly or monthly list of [processRegistrations] *)
Definition timeList (kf lf : ProcessedRegistration → string)
    (regs : list ProcessedRegistration) : list AnalyticsTimeEntry :=
  Js.sort Statistics.byTimeKey (map Statistics.toTimeEntry (groupsBy kf lf regs)).

Definition keyBefore (a b : AnalyticsTimeEntry) : Prop :=
  String.compare (timeKey a) (timeKey b) = Lt.

(** The document a create stores: the fields of the body, the new id, and
    the time of the call when the body has no timestamp *)
Definition createdDocument (nowIso : string) (data : PartialRegistration)
    (registrationId trailId : string) : RegistrationData :=
  mkRegistration registrationId trailId (default "" (p_riderName data))
    (default 0 (p_horseCount data)) (Js.or_else (default "" (p_timestamp data)) nowIso).

(** A stored value that is the handle of an actor that answers *)
Definition callable (w : World) (v : Stored) : bool :=
  match v with
  | SHandle h => negb (Stub.throws w h)
  | _ => false
  end.

(** The horses of a listed registration, as [getTrail] counts them: those
    of its document, and 0 when it is not mapped, cannot be called or has
    no document *)
Definition horsesOf (w : World) (regId : string) : Z :=
  match Storage.getHandle ("registration:" +:+ regId) (storage w) with
  | Some h =>
      if Stub.throws w h then 0
      else match registrationDocs w !! h with
           | Some d => reg_horseCount d
           | None => 0
           end
  | None => 0
  end.

(** An item of the paginated view that passes the filters of the request *)
Definition passesFilters (tf sd ed : string) (item : RegistrationTableItem) : Prop :=
  (Js.falsy sd = false → String.ltb (item_date item) sd = false)
  ∧ (Js.falsy ed = false → String.ltb ed (item_date item) = false)
  ∧ (Js.falsy tf = false → item_trail item = tf)
  ∧ item_horseCount item ≠ 0
  ∧ Js.falsy (item_trail item) = false.

(** [b] does not come after [a] in time, by their timestamps as strings *)
Definition notOlder (a b : RegistrationTableItem) : Prop :=
  String.compare (item_timestamp b) (item_timestamp a) ≠ Gt.

(** A path segment: no [/] in it *)
Definition noSlash (s : string) : bool :=
  forallb (fun c => negb (Ascii.eqb c "/")) (list_ascii_of_string s).

(** ** More sample data *)

Module Examples.

(** Three items of a view, newest first *)
Definition items : list RegistrationTableItem :=
  [mkItem "r3" "2024-03-06" "Oak" "T1" "C" 1 "2024-03-06T12:00:00.000Z";
   mkItem "r2" "2024-03-05" "Oak" "T1" "B" 3 "2024-03-05T12:00:00.000Z";
   mkItem "r1" "2024-02-27" "Oak" "T1" "A" 2 "2024-02-27T12:00:00.000Z"].

(** The two registrations of the sample world, as the aggregator reads
    them *)
Definition processed : list ProcessedRegistration :=
  [mkProcessed "r1" "T1" "Oak" 2 "2024-02-27T12:00:00.000Z"
     "2024-02-27" "2024-W9" "2024 Week 9" "2024-02" "February 2024";
   mkProcessed "r2" "T1" "Oak" 3 "2024-03-05T12:00:00.000Z"
     "2024-03-05" "2024-W10" "2024 Week 10" "2024-03" "March 2024"].

(** Noon of 27 February 2024 *)
Definition noon : JsDate := mkDate 1709035200000 "2024-02-27" 2024 1.

(** A create without a rider name *)
Definition nameless : PartialRegistration := mkPartial None (Some "T1") None (Some 2) None.

(** The sample world after its first registration was read at time 0 *)
Definition afterRead : World := (RegistrationService.getRegistration "r1" 0 Sample.world).2.

(** The sample world after an aggregation at time 0 *)
Definition aggregated : World := Statistics.aggregateAnalytics Sample.dates 0 Sample.world.

Definition elm : PartialTrail := mkPartialTrail None (Some "Elm") None None None.

(** Twenty-four registrations on one mapped trail, numbered from 1 *)
Definition crowded : World :=
  mkWorld
    (list_to_map
       (("trail:T1", SHandle "h1")
        :: map (fun i : nat => ("registration:" +:+ pretty i, SHandle ("g" +:+ pretty i)))
               (seq 1 24)))
    (list_to_map
       (map (fun i : nat => ("g" +:+ pretty i, mkRegistration (pretty i) "T1" "A" 1 ""))
            (seq 1 24)))
    (list_to_map [("h1", Sample.oak)]) ∅ ∅ (mkScheduler [] 1 ∅ []).

(** The same after the first page was viewed at time 0 and a twenty-fifth
    registration was created at time 1 *)
Definition crowdedThenCreate : World :=
  (RegistrationService.createRegistration "2024-03-05T12:00:00.000Z" (Sample.newRider "Z")
     "25" "g25" 1
     (Statistics.getRegistrationData Sample.dates (Some 1) (Some 10) "" "" "" "" 0 crowded).2).2.

End Examples.

(* ================================================================== *)
(** * Properties *)

#[local] Arguments Js.falsy : simpl never.

Section cache_facts.
Context {V : Type}.
Implicit Types (cache : gmap string (TTLCache.CacheEntry V)) (key p : string) (v : V).

Lemma invalidateKeys_lookup p keys cache k :
  TTLCache.invalidateKeys p keys cache !! k =
    if Js.startsWith k p && bool_decide (k ∈ keys) then None else cache !! k.
Proof.
  unfold TTLCache.invalidateKeys. revert cache.
  induction keys as [|key keys IH]; intros cache; simpl.
  - by rewrite andb_false_r.
  - rewrite IH. destruct (Js.startsWith k p) eqn:Hk; simpl.
    + destruct (decide (k = key)) as [->|Hne].
      * rewrite Hk, lookup_delete_eq.
        rewrite (bool_decide_eq_true_2 (key ∈ key :: keys)) by apply list_elem_of_here.
        by destruct (bool_decide _).
      * assert (bool_decide (k ∈ key :: keys) = bool_decide (k ∈ keys)) as ->.
        { apply bool_decide_ext. rewrite elem_of_cons. intuition congruence. }
        destruct (bool_decide (k ∈ keys)); [done|].
        destruct (Js.startsWith key p); [by rewrite lookup_delete_ne|done].
    + destruct (Js.startsWith key p) eqn:Hkey; [|done].
      destruct (decide (k = key)) as [->|Hne]; [congruence|].
      by rewrite lookup_delete_ne.
Qed.

Lemma invalidateCache_lookup p cache k :
  TTLCache.invalidateCache p cache !! k =
    if Js.startsWith k p then None else cache !! k.
Proof.
  unfold TTLCache.invalidateCache. rewrite invalidateKeys_lookup.
  destruct (Js.startsWith k p); simpl; [|done].
  destruct (cache !! k) as [e|] eqn:Hk.
  - rewrite bool_decide_eq_true_2; [done|].
    apply list_elem_of_fmap. exists (k, e). split; [done|].
    by apply elem_of_map_to_list.
  - by destruct (bool_decide _).
Qed.

(** C2 (as amended).  After [set(key, value, ttl)] with [ttl > 0] at time
    [now], a [get(key)] at any time up to and including [now + ttl] (so in
    particular immediately after the set) returns [value] and leaves the
    table alone; a [get(key)] at any time after [now + ttl] returns absent
    and removes the entry from the table. *)
Theorem cache_set_then_get key v (ttl now : Z) cache :
  0 < ttl →
  let cache' := TTLCache.setInCache key v ttl now cache in
  (∀ t, now ≤ t ≤ now + ttl → TTLCache.getFromCache key t cache' = (Some v, cache'))
  ∧ (∀ t, now + ttl < t →
       TTLCache.getFromCache key t cache' = (None, delete key cache')
       ∧ delete key cache' !! key = None).
Proof.
  intros Httl cache'. subst cache'.
  unfold TTLCache.getFromCache, TTLCache.setInCache.
  rewrite lookup_insert_eq. simpl. split.
  - intros t Ht. destruct (Z.ltb_spec (now + ttl) t); [lia|done].
  - intros t Ht. destruct (Z.ltb_spec (now + ttl) t); [|lia].
    split; [done|]. apply lookup_delete_eq.
Qed.

(** C3.  After [invalidate(p)], [get(k)] is absent, at any time, for
    every key [k] that starts with [p], and an entry whose key does not
    start with [p] is the entry it was (same value, same expiry). *)
Theorem invalidate_prefix p cache k :
  (Js.startsWith k p = true →
     TTLCache.invalidateCache p cache !! k = None
     ∧ ∀ now, (TTLCache.getFromCache k now (TTLCache.invalidateCache p cache)).1 = None)
  ∧ (Js.startsWith k p = false →
     TTLCache.invalidateCache p cache !! k = cache !! k).
Proof.
  split; intros Hk.
  - assert (TTLCache.invalidateCache p cache !! k = None) as Hnone
      by (by rewrite invalidateCache_lookup, Hk).
    split; [done|]. intros now. unfold TTLCache.getFromCache. by rewrite Hnone.
  - by rewrite invalidateCache_lookup, Hk.
Qed.

End cache_facts.

(** ** Sorting and storage listings *)

Section sort_facts.
Context {A : Type} (cmp : A → A → comparison).

Lemma sort_insert_Permutation x l : Js.sort_insert cmp x l ≡ₚ x :: l.
Proof.
  induction l as [|y l IH]; simpl; [done|].
  destruct (cmp y x); try done.
  all: rewrite IH; apply perm_swap.
Qed.

Lemma sort_from_Permutation acc l :
  foldl (fun acc x => Js.sort_insert cmp x acc) acc l ≡ₚ acc ++ l.
Proof.
  revert acc. induction l as [|x l IH]; intros acc; simpl.
  - by rewrite app_nil_r.
  - rewrite IH, sort_insert_Permutation. simpl. apply Permutation_middle.
Qed.

Lemma sort_Permutation l : Js.sort cmp l ≡ₚ l.
Proof. unfold Js.sort. by rewrite sort_from_Permutation. Qed.

Lemma sort_length l : List.length (Js.sort cmp l) = List.length l.
Proof. by rewrite sort_Permutation. Qed.

End sort_facts.

Lemma compare_lt_trans a b c :
  String.compare a b = Lt → String.compare b c = Lt → String.compare a c = Lt.
Proof.
  revert b c. induction a as [|x a IH]; intros [|y b] [|z c]; simpl; try done.
  unfold Ascii.compare.
  destruct (N_of_ascii x ?= N_of_ascii y)%N eqn:Hxy; try done;
    destruct (N_of_ascii y ?= N_of_ascii z)%N eqn:Hyz; try done; intros H1 H2.
  - apply N.compare_eq_iff in Hxy, Hyz. rewrite Hxy, Hyz, N.compare_refl. eauto.
  - apply N.compare_eq_iff in Hxy. by rewrite Hxy, Hyz.
  - apply N.compare_eq_iff in Hyz. by rewrite <- Hyz, Hxy.
  - apply N.compare_lt_iff in Hxy. apply N.compare_lt_iff in Hyz.
    assert (N_of_ascii x < N_of_ascii z)%N as Hxz by (by etrans).
    apply N.compare_lt_iff in Hxz. by rewrite Hxz.
Qed.

Lemma compare_refl a : String.compare a a = Eq.
Proof.
  induction a as [|x a IH]; simpl; [done|].
  unfold Ascii.compare. by rewrite N.compare_refl.
Qed.

Section key_order.
Context {A : Type}.
Implicit Types (l : list (string * A)) (x y : string * A).

Lemma insert_by_key_sorted x l :
  StronglySorted keyLt l → x.1 ∉ l.*1 →
  StronglySorted keyLt (Js.sort_insert keyCompare x l).
Proof.
  intros Hs. induction Hs as [|y l Hs IH Hy]; intros Hx; simpl.
  - repeat constructor.
  - apply not_elem_of_cons in Hx as [Hxy Hx].
    unfold keyCompare at 1.
    destruct (String.compare y.1 x.1) eqn:Hc.
    + apply String.compare_eq_iff in Hc. congruence.
    + constructor; [by apply IH|].
      rewrite sort_insert_Permutation. by constructor.
    + assert (keyLt x y) as Hlt.
      { unfold keyLt. rewrite String.compare_antisym, Hc. done. }
      constructor; [by constructor|].
      constructor; [done|].
      eapply Forall_impl; [exact Hy|].
      intros z Hz. unfold keyLt in *. by eapply compare_lt_trans.
Qed.

Lemma sort_from_by_key_sorted acc l :
  StronglySorted keyLt acc → NoDup ((acc ++ l).*1) →
  StronglySorted keyLt (foldl (fun acc x => Js.sort_insert keyCompare x acc) acc l).
Proof.
  revert acc. induction l as [|x l IH]; intros acc Hs Hnd; simpl; [done|].
  rewrite fmap_app, fmap_cons in Hnd.
  apply IH.
  - apply insert_by_key_sorted; [done|].
    apply NoDup_app in Hnd as (_ & Hdisj & _).
    intros Hin. apply (Hdisj _ Hin). by left.
  - rewrite fmap_app.
    rewrite (fmap_Permutation fst _ _ (sort_insert_Permutation keyCompare x acc)).
    rewrite fmap_cons. simpl. by rewrite Permutation_middle.
Qed.

Lemma sort_by_key_sorted l :
  NoDup (l.*1) → StronglySorted keyLt (Js.sort keyCompare l).
Proof. intros. apply sort_from_by_key_sorted; [constructor|done]. Qed.

(** Two listings with the same entries are the same listing. *)
Lemma sort_by_key_unique l1 l2 :
  l1 ≡ₚ l2 → NoDup (l1.*1) → Js.sort keyCompare l1 = Js.sort keyCompare l2.
Proof.
  intros Hp Hnd.
  apply (StronglySorted_unique_strong keyLt).
  - intros x y _ _ Hxy Hyx. unfold keyLt in *.
    rewrite String.compare_antisym, Hyx in Hxy. done.
  - by apply sort_by_key_sorted.
  - apply sort_by_key_sorted. by rewrite <- Hp.
  - by rewrite !sort_Permutation.
Qed.

Lemma List_filter_Permutation (f : string * A → bool) l1 l2 :
  l1 ≡ₚ l2 → List.filter f l1 ≡ₚ List.filter f l2.
Proof.
  induction 1 as [|x l1 l2 _ IH|x y l|l1 l2 l3 _ IH1 _ IH2]; simpl.
  - done.
  - destruct (f x); by rewrite IH.
  - destruct (f x), (f y); try done. apply perm_swap.
  - by etrans.
Qed.

Lemma List_filter_NoDup_fst (f : string * A → bool) l :
  NoDup (l.*1) → NoDup ((List.filter f l).*1).
Proof.
  induction l as [|x l IH]; simpl; [done|].
  rewrite NoDup_cons. intros [Hx Hnd].
  destruct (f x); [|by apply IH].
  rewrite fmap_cons. apply NoDup_cons. split; [|by apply IH].
  intros Hin. apply Hx.
  apply list_elem_of_fmap in Hin as (y & -> & Hy).
  apply list_elem_of_fmap. exists y. split; [done|].
  apply list_elem_of_In, List.filter_In in Hy as [Hy _].
  by apply list_elem_of_In.
Qed.

End key_order.

Section listing_facts.
Implicit Types (s : gmap string Stored) (prefix key : string).

Lemma listing_Permutation prefix s :
  Storage.listing prefix s
  ≡ₚ List.filter (fun kv => Js.startsWith kv.1 prefix) (map_to_list s).
Proof. apply sort_Permutation. Qed.

Lemma filtered_delete prefix key s :
  Js.startsWith key prefix = false →
  List.filter (fun kv : string * Stored => Js.startsWith kv.1 prefix) (map_to_list (delete key s))
  ≡ₚ List.filter (fun kv => Js.startsWith kv.1 prefix) (map_to_list s).
Proof.
  intros Hkey. destruct (s !! key) as [v|] eqn:Hs.
  - rewrite <- (List_filter_Permutation _ _ _ (map_to_list_delete s key v Hs)).
    simpl. by rewrite Hkey.
  - by rewrite delete_id.
Qed.

(** Writing or deleting a key outside a prefix leaves the listing of that
    prefix as it was. *)
Lemma listing_delete_other prefix key s :
  Js.startsWith key prefix = false →
  Storage.listing prefix (delete key s) = Storage.listing prefix s.
Proof.
  intros Hkey. apply (sort_by_key_unique (A:=Stored)).
  - by apply filtered_delete.
  - apply List_filter_NoDup_fst, NoDup_fst_map_to_list.
Qed.

Lemma listing_insert_other prefix key v s :
  Js.startsWith key prefix = false →
  Storage.listing prefix (<[key := v]> s) = Storage.listing prefix s.
Proof.
  intros Hkey. rewrite <- (listing_delete_other prefix key s Hkey).
  rewrite <- (insert_delete_eq s).
  apply (sort_by_key_unique (A:=Stored)).
  - rewrite (List_filter_Permutation _ _ _
               (map_to_list_insert (delete key s) key v (lookup_delete_eq s key))).
    simpl. by rewrite Hkey.
  - apply List_filter_NoDup_fst, NoDup_fst_map_to_list.
Qed.

Lemma listing_elem_of prefix s key v :
  (key, v) ∈ Storage.listing prefix s ↔ s !! key = Some v ∧ Js.startsWith key prefix = true.
Proof.
  rewrite listing_Permutation, list_elem_of_In, List.filter_In, <- list_elem_of_In.
  by rewrite elem_of_map_to_list.
Qed.

End listing_facts.

(** ** Batches *)

Section batch_facts.
Context {A B : Type}.

Lemma concat_toBatchesFrom (n : nat) (cur l : list A) :
  concat (toBatchesFrom n cur l) = cur ++ l.
Proof.
  revert cur. induction l as [|x l IH]; intros cur; simpl.
  - destruct cur; simpl; by rewrite ?app_nil_r.
  - destruct (n <=? List.length (cur ++ [x]))%nat; simpl; rewrite IH.
    + by rewrite <- app_assoc.
    + by rewrite <- app_assoc.
Qed.

Lemma concat_toBatches (n : nat) (l : list A) : concat (toBatches n l) = l.
Proof. apply concat_toBatchesFrom. Qed.

Lemma toBatchesFrom_size (n : nat) (cur l : list A) :
  (0 < n)%nat → (List.length cur < n)%nat →
  Forall (fun batch => (List.length batch ≤ n)%nat) (toBatchesFrom n cur l).
Proof.
  intros Hn. revert cur. induction l as [|x l IH]; intros cur Hcur; simpl.
  - destruct cur; repeat constructor. simpl in *. lia.
  - destruct (Nat.leb_spec n (List.length (cur ++ [x]))) as [Hle|Hlt].
    + constructor; [|apply IH; simpl; lia].
      rewrite length_app in *. simpl in *. lia.
    + by apply IH.
Qed.

Lemma toBatches_size (n : nat) (l : list A) :
  (0 < n)%nat → Forall (fun batch => (List.length batch ≤ n)%nat) (toBatches n l).
Proof. intros. apply toBatchesFrom_size; simpl; lia. Qed.

Lemma omap_skip (f : A → option B) x (l : list A) :
  f x = None → omap f (x :: l) = omap f l.
Proof. intros Hx. cbn. by rewrite Hx. Qed.

Lemma omap_pointwise (f g : A → option B) (l : list A) :
  (∀ x, f x = g x) → omap f l = omap g l.
Proof.
  intros Hfg. induction l as [|x l IH]; [done|].
  cbn. rewrite Hfg. destruct (g x); cbn; by rewrite IH.
Qed.

Lemma filterNonNull_map (f : A → option B) l : filterNonNull (map f l) = omap f l.
Proof.
  unfold filterNonNull. induction l as [|x l IH]; [done|].
  cbn. destruct (f x); cbn; by rewrite IH.
Qed.

(** A batch of callbacks that all resolve resolves, to their results. *)
Lemma promiseAll_resolves {C} (cb : A → Outcome C) (r : A → C) l :
  (∀ x, cb x = Returned (r x)) →
  promiseAll (map cb l) = Returned (map r l).
Proof.
  intros Hcb. induction l as [|x l IH]; simpl; [done|].
  by rewrite Hcb, IH.
Qed.

Lemma forBatches_resolves (cb : A → Outcome (option B)) (r : A → option B) batches :
  (∀ x, cb x = Returned (r x)) →
  forBatches cb batches = Returned (omap r (concat batches)).
Proof.
  intros Hcb. induction batches as [|batch rest IH]; simpl; [done|].
  rewrite (promiseAll_resolves cb r) by done. simpl.
  rewrite IH. simpl. unfold mret, Outcome_ret.
  by rewrite filterNonNull_map, omap_app.
Qed.

Lemma forBatches_caught (body : A → Outcome (option B)) (n : nat) l :
  forBatches (fun x => caught (body x)) (toBatches n l)
  = Returned (omap (fun x => catchNull (body x)) l).
Proof.
  rewrite (forBatches_resolves _ (fun x => catchNull (body x))) by done.
  by rewrite concat_toBatches.
Qed.

End batch_facts.

(** ** The aggregator *)

Section aggregator_facts.
Context (E : DateEnv).

Lemma getAllRegistrations_eq w trailMap :
  Statistics.getAllRegistrations E w trailMap
  = Returned (omap (fun entry => catchNull (Statistics.processedRegistrationBody E w trailMap entry))
                   (Storage.listing "registration:" (storage w))).
Proof. apply forBatches_caught. Qed.

Lemma getAllTrails_eq w :
  Statistics.getAllTrails w
  = Returned (foldl (fun trailMap '(trailId, info) => <[trailId := info]> trailMap) ∅
                (omap (fun entry => catchNull (Statistics.trailInfoBody w entry))
                      (Storage.listing "trail:" (storage w)))).
Proof. unfold Statistics.getAllTrails. by rewrite forBatches_caught. Qed.

Lemma failing_registration_excluded w trailMap key h :
  Stub.throws w h = true →
  catchNull (Statistics.processedRegistrationBody E w trailMap (key, SHandle h)) = None.
Proof.
  intros Hh. unfold Statistics.processedRegistrationBody.
  destruct h as [|c h]; [done|].
  simpl. unfold Stub.getRegistration. by rewrite Hh.
Qed.

Lemma processable_built w trailMap entry :
  processable E w entry →
  ∃ r, catchNull (Statistics.processedRegistrationBody E w trailMap entry) = Some r
       ∧ builtFrom E w trailMap entry r.
Proof.
  destruct entry as [key v]. intros (h & d & date & Hv & Hh & Hd & Hts & Hdate).
  simpl in Hv. subst v.
  assert (Js.falsy h = false) as Hne by (unfold Stub.throws in Hh; by apply orb_false_elim in Hh as [? _]).
  unfold Statistics.processedRegistrationBody.
  destruct h as [|c h]; [done|].
  cbn [handleOf mbind Outcome_bind]. unfold Stub.getRegistration. rewrite Hh, Hd.
  cbn [RegistrationDO.getRegistration status mbind Outcome_bind jsonOf json]. rewrite Z.eqb_refl.
  cbn [jsonOf json mbind Outcome_bind]. rewrite Hts, Hdate.
  cbn [mret Outcome_ret catchNull].
  eexists. split; [reflexivity|].
  exists (String c h), d, date. repeat split; done.
Qed.

(** C5.  The registration fan-out of the aggregator cuts the listing into
    batches of at most 50.  When the call to one registration's actor
    throws, [getAllRegistrations] still returns: the failing registration
    is left out and nothing is thrown.  What it returns is built from the
    others: every other listed registration that can be processed has its
    record in the result, with its id, trail, horse count, timestamp and
    date parts; and when all the others can be processed, the result is
    their records, one for each, in the order of the listing.  The
    aggregation as a whole then stores the snapshot grouped from those. *)
Theorem batch_resilience w trailMap before key h after :
  Storage.listing "registration:" (storage w) = before ++ (key, SHandle h) :: after →
  Stub.throws w h = true →
  ∃ results,
    Statistics.getAllRegistrations E w trailMap = Returned results
    ∧ results
      = omap (fun entry =>
                catchNull (Statistics.processedRegistrationBody E w trailMap entry))
             (before ++ after)
    ∧ (∀ entry, entry ∈ before ++ after → processable E w entry →
         ∃ r, r ∈ results ∧ builtFrom E w trailMap entry r)
    ∧ (Forall (processable E w) (before ++ after) →
         Forall2 (builtFrom E w trailMap) (before ++ after) results)
    ∧ Forall (fun batch => (List.length batch ≤ 50)%nat)
             (toBatches 50 (Storage.listing "registration:" (storage w)))
    ∧ ∃ trails,
        Statistics.getAllTrails w = Returned trails
        ∧ ∀ now,
            Storage.getAnalytics "analytics:data"
              (storage (Statistics.aggregateAnalytics E now w))
            = Some (mkAnalytics
                      (Statistics.processRegistrations
                         (omap (fun entry =>
                                  catchNull (Statistics.processedRegistrationBody E w trails entry))
                               (before ++ after)))
                      (toISOString E now)).
Proof.
  intros Hlist Hh.
  assert (∀ tm, Statistics.getAllRegistrations E w tm
                = Returned (omap (fun entry =>
                                    catchNull (Statistics.processedRegistrationBody E w tm entry))
                                 (before ++ after))) as Hregs.
  { intros tm. rewrite getAllRegistrations_eq, Hlist, !omap_app.
    by rewrite omap_skip by by apply failing_registration_excluded. }
  eexists. split; [apply Hregs|]. split; [reflexivity|].
  split; [|split; [|split; [apply toBatches_size; lia|]]].
  - intros entry Hin Hp.
    destruct (processable_built w trailMap entry Hp) as (r & Hr & Hb).
    exists r. split; [|done]. apply list_elem_of_omap. by exists entry.
  - generalize (before ++ after). intros l Hall.
    induction Hall as [|entry l Hp _ IH]; [constructor|].
    destruct (processable_built w trailMap entry Hp) as (r & Hr & Hb).
    cbn. rewrite Hr. cbn. by constructor.
  - eexists. split; [apply getAllTrails_eq|]. intros now.
    unfold Statistics.aggregateAnalytics, Statistics.aggregateAnalyticsBody, Statistics.groupAll.
    rewrite getAllTrails_eq. simpl. rewrite Hregs. simpl.
    unfold Storage.getAnalytics. by rewrite lookup_insert_eq.
Qed.

Lemma throws_sameActors w w' h : sameActors w w' → Stub.throws w h = Stub.throws w' h.
Proof. intros (_ & _ & Hf). unfold Stub.throws. by rewrite Hf. Qed.

Lemma getRegistration_sameActors w w' h :
  sameActors w w' → Stub.getRegistration w h = Stub.getRegistration w' h.
Proof.
  intros Hs. unfold Stub.getRegistration.
  rewrite (throws_sameActors w w' h Hs). destruct Hs as (-> & _ & _). done.
Qed.

Lemma getTrail_sameActors w w' h :
  sameActors w w' → Stub.getTrail w h = Stub.getTrail w' h.
Proof.
  intros Hs. unfold Stub.getTrail.
  rewrite (throws_sameActors w w' h Hs). destruct Hs as (_ & -> & _). done.
Qed.

Lemma trailInfoBody_sameActors w w' entry :
  sameActors w w' → Statistics.trailInfoBody w entry = Statistics.trailInfoBody w' entry.
Proof.
  intros Hs. destruct entry as [key id]. unfold Statistics.trailInfoBody.
  destruct (handleOf id) as [h|]; simpl; [|done].
  by rewrite (getTrail_sameActors w w' h Hs).
Qed.

Lemma processedRegistrationBody_sameActors w w' trailMap entry :
  sameActors w w' →
  Statistics.processedRegistrationBody E w trailMap entry
  = Statistics.processedRegistrationBody E w' trailMap entry.
Proof.
  intros Hs. destruct entry as [key id]. unfold Statistics.processedRegistrationBody.
  destruct id as [h| |]; try done.
  destruct h as [|c h]; [done|]. simpl.
  by rewrite (getRegistration_sameActors w w' _ Hs).
Qed.

(** What the aggregator computes depends on the world through the two
    listings and the actors only. *)
Lemma groupAll_ext w w' :
  sameActors w w' →
  Storage.listing "trail:" (storage w) = Storage.listing "trail:" (storage w') →
  Storage.listing "registration:" (storage w) = Storage.listing "registration:" (storage w') →
  Statistics.groupAll E w = Statistics.groupAll E w'.
Proof.
  intros Hs Ht Hr. unfold Statistics.groupAll.
  rewrite !getAllTrails_eq. simpl.
  rewrite !getAllRegistrations_eq. simpl.
  rewrite Ht, Hr.
  rewrite (omap_pointwise (fun entry => catchNull (Statistics.trailInfoBody w entry))
             (fun entry => catchNull (Statistics.trailInfoBody w' entry)))
    by (intros entry; by rewrite (trailInfoBody_sameActors w w')).
  do 2 f_equal. apply omap_pointwise.
  intros entry. by rewrite (processedRegistrationBody_sameActors w w').
Qed.

Lemma groupAll_returns w : ∃ g, Statistics.groupAll E w = Returned g.
Proof.
  unfold Statistics.groupAll. rewrite getAllTrails_eq. simpl.
  rewrite getAllRegistrations_eq. simpl. eauto.
Qed.

Lemma aggregateAnalytics_eq now w g :
  Statistics.groupAll E w = Returned g →
  Statistics.aggregateAnalytics E now w
  = Manager.setInCache "analytics-data" (CVAnalytics (mkAnalytics g (toISOString E now)))
      (10 * 60 * 1000) now
      (with_storage w (<["analytics:data" := SAnalytics (mkAnalytics g (toISOString E now))]>
                         (storage w))).
Proof.
  intros Hg. unfold Statistics.aggregateAnalytics, Statistics.aggregateAnalyticsBody.
  by rewrite Hg.
Qed.

(** C6.  Run the aggregator at time [t1] and again at time [t2], nothing
    else happening in between.  Both runs store and cache a snapshot, and
    the two snapshots have the same grouped output (the same daily, weekly,
    monthly and by-trail groupings, totals and order): they differ in the
    generation timestamp only. *)
Theorem aggregation_idempotent t1 t2 w :
  let w1 := Statistics.aggregateAnalytics E t1 w in
  let w2 := Statistics.aggregateAnalytics E t2 w1 in
  ∃ g,
    Storage.getAnalytics "analytics:data" (storage w1)
      = Some (mkAnalytics g (toISOString E t1))
    ∧ Storage.getAnalytics "analytics:data" (storage w2)
      = Some (mkAnalytics g (toISOString E t2))
    ∧ cache w1 !! "analytics-data"
      = Some (TTLCache.mkEntry (CVAnalytics (mkAnalytics g (toISOString E t1)))
                               (t1 + 10 * 60 * 1000))
    ∧ cache w2 !! "analytics-data"
      = Some (TTLCache.mkEntry (CVAnalytics (mkAnalytics g (toISOString E t2)))
                               (t2 + 10 * 60 * 1000)).
Proof.
  intros w1 w2. destruct (groupAll_returns w) as [g Hg]. exists g.
  assert (w1 = Manager.setInCache "analytics-data"
                 (CVAnalytics (mkAnalytics g (toISOString E t1))) (10 * 60 * 1000) t1
                 (with_storage w (<["analytics:data" :=
                                      SAnalytics (mkAnalytics g (toISOString E t1))]>
                                    (storage w)))) as Hw1
    by (by apply aggregateAnalytics_eq).
  assert (Statistics.groupAll E w1 = Returned g) as Hg1.
  { rewrite <- Hg. rewrite Hw1. apply groupAll_ext.
    - done.
    - simpl. by apply listing_insert_other.
    - simpl. by apply listing_insert_other. }
  assert (w2 = Manager.setInCache "analytics-data"
                 (CVAnalytics (mkAnalytics g (toISOString E t2))) (10 * 60 * 1000) t2
                 (with_storage w1 (<["analytics:data" :=
                                       SAnalytics (mkAnalytics g (toISOString E t2))]>
                                     (storage w1)))) as Hw2
    by (by apply aggregateAnalytics_eq).
  rewrite Hw1 in Hw2 |- *. rewrite Hw2.
  unfold Storage.getAnalytics, Manager.setInCache, TTLCache.setInCache. simpl.
  by rewrite !lookup_insert_eq.
Qed.

End aggregator_facts.

(** ** The keys of the paginated view *)











(** ** The paginated view *)

Section view_facts.
Context (E : DateEnv).
Implicit Types (w : World) (page limit : option Z) (tf sd ed tz : string).

Lemma getFromCache_sameActors key now w :
  sameActors w (Manager.getFromCache key now w).2
  ∧ storage (Manager.getFromCache key now w).2 = storage w.
Proof.
  unfold Manager.getFromCache. by destruct (TTLCache.getFromCache key now (cache w)).
Qed.

(** A read takes entries away at most. *)
Lemma getFromCache_sub key now (c : gmap string (TTLCache.CacheEntry CacheValue)) k e :
  (TTLCache.getFromCache key now c).2 !! k = Some e → c !! k = Some e.
Proof.
  unfold TTLCache.getFromCache. destruct (c !! key) as [entry|]; [|done].
  destruct (TTLCache.expires entry <? now); [|done].
  simpl. rewrite lookup_delete_Some. by intros [_ ?].
Qed.

Lemma getFromCache_cache_sub key now w k e :
  cache (Manager.getFromCache key now w).2 !! k = Some e → cache w !! k = Some e.
Proof.
  unfold Manager.getFromCache.
  pose proof (getFromCache_sub key now (cache w) k e) as Hsub.
  by destruct (TTLCache.getFromCache key now (cache w)).
Qed.


Lemma trailNameEntry_returns w entry :
  Statistics.trailNameEntry w entry = Returned (catchNull (Statistics.trailNameEntry w entry)).
Proof.
  destruct entry as [key id]. unfold Statistics.trailNameEntry.
  by repeat case_match.
Qed.

Lemma buildTrailsMap_returns w : ∃ m, Statistics.buildTrailsMap w = Returned m.
Proof.
  unfold Statistics.buildTrailsMap.
  rewrite (forBatches_resolves _ _ _ (trailNameEntry_returns w)). simpl. eauto.
Qed.

Lemma tableItemBody_sameActors w w' trailsMap tf sd ed tz entry :
  sameActors w w' →
  Statistics.tableItemBody E w trailsMap tf sd ed tz entry
  = Statistics.tableItemBody E w' trailsMap tf sd ed tz entry.
Proof.
  intros Hs. destruct entry as [key id]. unfold Statistics.tableItemBody.
  destruct id as [h| |]; try done.
  destruct h as [|c h]; [done|]. simpl.
  by rewrite (getRegistration_sameActors w w' _ Hs).
Qed.

(** The view computed when the cache has nothing (truthy) under the key:
    the page cut from the sorted list of the items of the listing.  The
    name map is whatever the cache or the trail fan-out gave. *)
Lemma getRegistrationData_miss page limit tf sd ed tz now w :
  let key := Statistics.cacheKey (Statistics.clampPage page) (Statistics.clampLimit limit)
                                 tf sd ed tz in
  truthyValue (Manager.getFromCache key now w).1 = None →
  ∃ trailsMap w1,
    let view :=
      Statistics.paginate (Statistics.clampPage page) (Statistics.clampLimit limit) tf sd ed tz
        (Js.sort Statistics.newestFirst
           (omap (fun entry =>
                    catchNull (Statistics.tableItemBody E w trailsMap tf sd ed tz entry))
                 (Storage.listing "registration:" (storage w)))) in
    Statistics.getRegistrationData E page limit tf sd ed tz now w
    = (Returned (mkResponse 200 (Some (CVView view))),
       Manager.setInCache key (CVView view) (30 * 1000) now w1)
    ∧ sameActors w w1 ∧ storage w1 = storage w
    ∧ (∀ k e, cache w1 !! k = Some e → Js.startsWith k "registrations:" = true →
              cache w !! k = Some e).
Proof.
  intros key Hmiss. unfold Statistics.getRegistrationData. fold key.
  pose proof (getFromCache_sameActors key now w) as [Hs1 Hst1].
  destruct (Manager.getFromCache key now w) as [cachedData w1] eqn:Hget.
  simpl in Hmiss, Hs1, Hst1. rewrite Hmiss.
  pose proof (getFromCache_sameActors "trails-name-map" now w1) as [Hs2 Hst2].
  destruct (Manager.getFromCache "trails-name-map" now w1) as [cachedMap w2] eqn:Hget2.
  simpl in Hs2, Hst2.
  assert (sameActors w w2) as Hs by
    (destruct Hs1 as (?&?&?), Hs2 as (?&?&?); repeat split; congruence).
  assert (storage w2 = storage w) as Hst by congruence.
  assert (∀ k e, cache w2 !! k = Some e → cache w !! k = Some e) as Hsub.
  { intros k e Hk.
    apply (getFromCache_cache_sub key now w). rewrite Hget. simpl.
    apply (getFromCache_cache_sub "trails-name-map" now w1). by rewrite Hget2. }
  destruct (truthyValue cachedMap) as [trailsMap|].
  - exists trailsMap, w2. rewrite forBatches_caught, Hst.
    rewrite (omap_pointwise _ (fun entry =>
               catchNull (Statistics.tableItemBody E w trailsMap tf sd ed tz entry)))
      by (intros entry; by rewrite (tableItemBody_sameActors w w2)).
    split; [done|]. split; [done|]. split; [done|].
    intros k e Hk _. by apply Hsub.
  - destruct (buildTrailsMap_returns w2) as [m ->]. simpl.
    exists (CVNameMap m), (Manager.setInCache "trails-name-map" (CVNameMap m) (5 * 60 * 1000) now w2).
    rewrite forBatches_caught. simpl. rewrite Hst.
    rewrite (omap_pointwise _ (fun entry =>
               catchNull (Statistics.tableItemBody E w (CVNameMap m) tf sd ed tz entry)))
      by (intros entry; by apply f_equal, eq_sym, tableItemBody_sameActors).
    split; [done|]. split; [done|]. split; [done|].
    intros k e Hk Hprefix. apply Hsub.
    unfold TTLCache.setInCache in Hk. rewrite lookup_insert_ne in Hk; [done|].
    by intros <-.
Qed.

(** With no filter, a registration whose actor answers with its document
    gives an item of the view, provided its timestamp, if any, is a date. *)
Lemma tableItem_unfiltered w trailsMap tz key h d :
  Stub.throws w h = false →
  registrationDocs w !! h = Some d →
  (reg_timestamp d = "" ∨ is_Some (newDate E (reg_timestamp d))) →
  is_Some (catchNull (Statistics.tableItemBody E w trailsMap "" "" "" tz (key, SHandle h))).
Proof.
  intros Hh Hd Hts. unfold Statistics.tableItemBody.
  destruct h as [|c h]; [done|].
  cbn [mbind Outcome_bind handleOf].
  unfold Stub.getRegistration. rewrite Hh, Hd. simpl.
  destruct Hts as [->|[date ->]]; simpl.
  - rewrite andb_false_r. simpl. eauto.
  - destruct (Js.falsy (reg_timestamp d)); simpl; eauto.
Qed.

Lemma omap_all_Some {A B} (f : A → option B) (l : list A) :
  (∀ x, x ∈ l → is_Some (f x)) → List.length (omap f l) = List.length l.
Proof.
  induction l as [|x l IH]; intros Hall; [done|].
  destruct (Hall x) as [y Hy]; [by left|].
  cbn. rewrite Hy. cbn. f_equal. apply IH. intros z Hz. apply Hall. by right.
Qed.

(** C7 (as amended).  Twenty-five registrations are listed, each with a reachable actor
    that holds a document with a well-formed (or no) timestamp; no trail or
    date filter is given and the cache has no entry for the view.  The
    view for [page = 1], [limit = 10] then reports [totalItems = 25],
    [totalPages = 3], [hasNextPage = true], [hasPrevPage = false], and its
    [data] has exactly 10 items. *)
Theorem first_page_of_twenty_five tz now w :
  (Manager.getFromCache (Statistics.cacheKey (Some 1) (Some 10) "" "" "" tz) now w).1 = None →
  List.length (Storage.listing "registration:" (storage w)) = 25%nat →
  Forall (readable E w) (Storage.listing "registration:" (storage w)) →
  ∃ view w',
    Statistics.getRegistrationData E (Some 1) (Some 10) "" "" "" tz now w
    = (Returned (mkResponse 200 (Some (CVView view))), w')
    ∧ pg_page (view_pagination view) = Some 1
    ∧ pg_limit (view_pagination view) = Some 10
    ∧ pg_totalItems (view_pagination view) = 25
    ∧ pg_totalPages (view_pagination view) = Some 3
    ∧ pg_hasNextPage (view_pagination view) = true
    ∧ pg_hasPrevPage (view_pagination view) = false
    ∧ List.length (view_data view) = 10%nat.
Proof.
  intros Hmiss Hlen Hall.
  destruct (getRegistrationData_miss (Some 1) (Some 10) "" "" "" tz now w)
    as (trailsMap & w1 & Hres & _).
  { simpl. by rewrite Hmiss. }
  simpl in Hres. rewrite Hres. clear Hres.
  set (items := Js.sort _ _).
  assert (List.length items = 25%nat) as Hitems.
  { subst items. rewrite sort_length, omap_all_Some; [done|].
    intros [key v] Hin. rewrite Forall_forall in Hall.
    destruct (Hall _ Hin) as (h & d & Hv & Hh & Hd & Hts). simpl in Hv. subst v.
    by eapply tableItem_unfiltered. }
  eexists _, _. split; [reflexivity|].
  unfold Statistics.paginate. simpl. rewrite Hitems. simpl.
  repeat split; try reflexivity.
  unfold Statistics.slice. rewrite Hitems. simpl.
  rewrite length_take, length_drop, Hitems. reflexivity.
Qed.

Lemma readableb_sound w entry : readableb E w entry = true → readable E w entry.
Proof.
  unfold readableb, readable. destruct entry as [key [h| |]]; simpl; try done.
  intros [Hh Hd]%andb_prop. apply negb_true_iff in Hh.
  destruct (registrationDocs w !! h) as [d|] eqn:Hdoc; [|discriminate Hd].
  exists h, d. split; [done|]. split; [done|]. split; [done|].
  apply orb_prop in Hd as [Hd|Hd].
  - left. by apply String.eqb_eq.
  - right. destruct (newDate E (reg_timestamp d)); [eauto|done].
Qed.

End view_facts.

#[local] Arguments RegistrationService.invalidateAllCaches : simpl never.
#[local] Arguments Statistics.aggregateStatistics : simpl never.

(** ** The cache of the paginated view *)

Section view_invariant.
Context (E : DateEnv).
Implicit Types (w : World) (c : gmap string (TTLCache.CacheEntry CacheValue)).











End view_invariant.

(** ** Deleting a registration *)

Section delete_facts.
Implicit Types (w : World).

Lemma invalidateAllCaches_storage trailId now w :
  storage (RegistrationService.invalidateAllCaches trailId now w) = storage w.
Proof. unfold RegistrationService.invalidateAllCaches. by destruct (Js.falsy trailId). Qed.

Lemma invalidateAllCaches_docs trailId now w :
  registrationDocs (RegistrationService.invalidateAllCaches trailId now w) = registrationDocs w.
Proof. unfold RegistrationService.invalidateAllCaches. by destruct (Js.falsy trailId). Qed.

(** C9 (as amended).  When the mapping [registration:<id>] exists and the actor
    answers, [deleteRegistration] returns the actor's answer to the DELETE
    and the mapping is gone afterwards, whatever the actor answered.  In
    particular, when the actor has no document, the caller gets its 404
    and the only change to the world is that the mapping was removed. *)
Theorem delete_drops_mapping_first registrationId now w h :
  Storage.getHandle ("registration:" +:+ registrationId) (storage w) = Some h →
  Stub.throws w h = false →
  ∃ response,
    (RegistrationService.deleteRegistration registrationId now w).1 = Returned response
    ∧ storage (RegistrationService.deleteRegistration registrationId now w).2
        !! ("registration:" +:+ registrationId) = None
    ∧ (registrationDocs w !! h = None →
         response = mkResponse 404 None
         ∧ (RegistrationService.deleteRegistration registrationId now w).2
           = with_storage w (delete ("registration:" +:+ registrationId) (storage w))).
Proof.
  intros Hmap Hh. unfold RegistrationService.deleteRegistration.
  rewrite Hmap. unfold Stub.getRegistration. rewrite Hh.
  destruct (registrationDocs w !! h) as [d|] eqn:Hd; simpl.
  - match goal with |- context [Stub.deleteRegistration ?w2 h] => set (w1 := w2) end.
    assert (storage w1 !! ("registration:" +:+ registrationId) = None) as Hgone.
    { subst w1. simpl. apply lookup_delete_eq. }
    assert (Stub.deleteRegistration w1 h
            = (Returned (mkResponse 200 None), Stub.setDoc w1 h None)) as ->.
    { unfold Stub.deleteRegistration, Stub.throws in *.
      assert (failing w1 = failing w ∧ registrationDocs w1 = registrationDocs w) as [-> ->].
      { subst w1. by repeat case_match. }
      by rewrite Hh, Hd. }
    eexists. split; [reflexivity|]. split; [|done].
    cbn [status snd]. rewrite Z.eqb_refl.
    destruct (Js.falsy (reg_trailId d)); cbn [andb negb]; [done|].
    by rewrite invalidateAllCaches_storage.
  - unfold Stub.deleteRegistration, Stub.throws in *. simpl. rewrite Hh, Hd. simpl.
    eexists. split; [reflexivity|]. split; [apply lookup_delete_eq|].
    intros _. split; [reflexivity|].
    unfold Stub.setDoc, with_registrationDocs, with_storage. simpl.
    by rewrite (delete_id (registrationDocs w) h).
Qed.

(** When the first call to the actor throws, the exception reaches the
    caller and nothing was changed: the mapping is still there. *)
Lemma delete_throws_keeps_mapping registrationId now w h :
  Storage.getHandle ("registration:" +:+ registrationId) (storage w) = Some h →
  Stub.throws w h = true →
  RegistrationService.deleteRegistration registrationId now w = (Thrown, w).
Proof.
  intros Hmap Hh. unfold RegistrationService.deleteRegistration.
  rewrite Hmap. unfold Stub.getRegistration. by rewrite Hh.
Qed.

End delete_facts.

(** ** Listing the trails *)

Section trail_facts.
Implicit Types (w : World).

Lemma frame_refl w : frame w w.
Proof. by repeat split. Qed.

Lemma frame_trans w1 w2 w3 : frame w1 w2 → frame w2 w3 → frame w1 w3.
Proof.
  intros [(?&?&?) ?] [(?&?&?) ?]. repeat split; congruence.
Qed.

Lemma frame_getFromCache key now w : frame w (Manager.getFromCache key now w).2.
Proof. apply getFromCache_sameActors. Qed.

Lemma frame_setInCache key v ttl now w : frame w (Manager.setInCache key v ttl now w).
Proof. by repeat split. Qed.

Lemma horseCountOf_returns w regId :
  TrailService.horseCountOf w regId
  = Returned (match TrailService.horseCountOf w regId with Returned n => n | Thrown => 0 end).
Proof. unfold TrailService.horseCountOf. by repeat case_match. Qed.

Lemma sumBatches_returns w regBatches horseCount :
  ∃ n, TrailService.sumBatches w regBatches horseCount = Returned n.
Proof.
  revert horseCount. induction regBatches as [|regBatch rest IH]; intros horseCount; simpl.
  - eauto.
  - rewrite (promiseAll_resolves (TrailService.horseCountOf w)
               (fun regId => match TrailService.horseCountOf w regId with
                             | Returned n => n
                             | Thrown => 0
                             end) _ (horseCountOf_returns w)).
    simpl. apply IH.
Qed.

Lemma withCounts_spec trailId data now w :
  ∃ rc hc w',
    TrailService.withCounts trailId data now w
    = (Returned (mkTrail (trail_id data) (trail_name data) (trail_active data) rc hc), w')
    ∧ frame w w'.
Proof.
  unfold TrailService.withCounts.
  pose proof (frame_getFromCache ("trail-reg-count:" +:+ trailId) now w) as Hf1.
  destruct (Manager.getFromCache ("trail-reg-count:" +:+ trailId) now w) as [cachedCount w1].
  simpl in Hf1.
  set (step := match cachedCount with Some v => _ | None => _ end).
  assert (frame w step.2) as Hf2.
  { subst step. destruct cachedCount; simpl; [done|].
    eapply frame_trans; [exact Hf1|apply frame_setInCache]. }
  destruct step as [registrationCount w2]. simpl in Hf2.
  pose proof (frame_getFromCache ("trail-horse-count:" +:+ trailId) now w2) as Hf3.
  destruct (Manager.getFromCache ("trail-horse-count:" +:+ trailId) now w2) as [cachedHorses w3].
  simpl in Hf3.
  assert (frame w w3) as Hf by (by eapply frame_trans).
  destruct cachedHorses as [v|].
  - eauto 10.
  - match goal with |- context [TrailService.sumBatches ?a ?b ?c] =>
      destruct (sumBatches_returns a b c) as [n ->] end.
    eexists _, _, _. split; [reflexivity|].
    eapply frame_trans; [exact Hf|apply frame_setInCache].
Qed.

Lemma trailCallback_spec now entry w :
  ∃ r w', TrailService.trailCallback now entry w = (Returned r, w')
          ∧ frame w w' ∧ trailResult w entry r.
Proof.
  destruct entry as [key id]. unfold TrailService.trailCallback, TrailService.trailBody.
  destruct id as [h| |]; simpl; try by (eexists None, w; split_and!; [done|apply frame_refl|done]).
  unfold Stub.getTrail.
  destruct (Stub.throws w h) eqn:Hh; simpl.
  { eexists None, w. split_and!; [done|apply frame_refl|]. intros h' d [= <-]. congruence. }
  destruct (trailDocs w !! h) as [d|] eqn:Hd; simpl.
  2:{ eexists None, w. split_and!; [done|apply frame_refl|]. intros h' d [= <-]. congruence. }
  destruct (withCounts_spec (Js.substringFrom 6 key) d now w) as (rc & hc & w' & -> & Hf).
  simpl. destruct (trail_active d) as [[|]|] eqn:Hactive; simpl.
  - eexists (Some _), w'. split_and!; [done..|]. simpl. split; [done|].
    exists h, d. by rewrite Hactive.
  - eexists None, w'. split_and!; [done..|]. intros h' d' [= <-]. congruence.
  - eexists (Some _), w'. split_and!; [done..|]. simpl. split; [done|].
    exists h, d. by rewrite Hactive.
Qed.

Lemma trailResult_frame w w0 entry r : frame w w0 → trailResult w0 entry r → trailResult w entry r.
Proof.
  intros [Hs _]. pose proof (fun h => throws_sameActors w w0 h Hs) as Ht.
  destruct Hs as (_ & Hdocs & _). unfold trailResult.
  destruct r as [t|].
  - intros (Ha & h & d & ? & ? & ? & ?). split; [done|]. exists h, d.
    by rewrite Ht, Hdocs.
  - intros Hnone h d ? ? ?. apply (Hnone h d); [done|..].
    + by rewrite <- Ht.
    + by rewrite <- Hdocs.
Qed.

Lemma promiseAllSt_trails now l w :
  ∃ rs w', TrailService.promiseAllSt (TrailService.trailCallback now) l w = (Returned rs, w')
           ∧ frame w w' ∧ Forall2 (trailResult w) l rs.
Proof.
  revert w. induction l as [|entry l IH]; intros w; simpl.
  - exists [], w. split_and!; [done|apply frame_refl|constructor].
  - destruct (trailCallback_spec now entry w) as (r & w1 & -> & Hf1 & Hr).
    destruct (IH w1) as (rs & w2 & -> & Hf2 & Hrs). simpl.
    exists (r :: rs), w2. split_and!; [done|by eapply frame_trans|].
    constructor; [done|].
    eapply Forall2_impl; [exact Hrs|]. intros e r'. by apply trailResult_frame.
Qed.

Lemma forBatchesSt_trails now batches w :
  ∃ rs w', TrailService.forBatchesSt (TrailService.trailCallback now) batches w
           = (Returned (omap id rs), w')
           ∧ frame w w' ∧ Forall2 (trailResult w) (concat batches) rs.
Proof.
  revert w. induction batches as [|batch rest IH]; intros w; simpl.
  - exists [], w. split_and!; [done|apply frame_refl|constructor].
  - destruct (promiseAllSt_trails now batch w) as (rs1 & w1 & -> & Hf1 & Hrs1).
    destruct (IH w1) as (rs2 & w2 & -> & Hf2 & Hrs2). simpl.
    exists (rs1 ++ rs2), w2. split_and!.
    + unfold filterNonNull, mret, Outcome_ret. by rewrite omap_app.
    + by eapply frame_trans.
    + apply Forall2_app; [done|].
      eapply Forall2_impl; [exact Hrs2|]. intros e r'. by apply trailResult_frame.
Qed.

(** C10.  On a cache miss, [getAllTrails] returns the list it also stores
    under [all-trails], and for every listed trail whose actor was read, the
    trail (its document with the two counts added) is in that list if and
    only if its [active] field is not [false]. *)
Theorem inactive_trails_not_listed now w :
  truthyValue (Manager.getFromCache "all-trails" now w).1 = None →
  ∃ trails w',
    TrailService.getAllTrails now w = (Returned (mkResponse 200 (Some (CVTrails trails))), w')
    ∧ cache w' !! "all-trails" = Some (TTLCache.mkEntry (CVTrails trails) (now + 60 * 1000))
    ∧ ∀ key h d,
        (key, SHandle h) ∈ Storage.listing "trail:" (storage w) →
        Stub.throws w h = false → trailDocs w !! h = Some d →
        ((∃ rc hc, mkTrail (trail_id d) (trail_name d) (trail_active d) rc hc ∈ trails)
         ↔ trail_active d ≠ Some false).
Proof.
  intros Hmiss. unfold TrailService.getAllTrails.
  pose proof (frame_getFromCache "all-trails" now w) as Hf1.
  destruct (Manager.getFromCache "all-trails" now w) as [cachedTrails w1].
  simpl in Hmiss, Hf1. rewrite Hmiss.
  destruct (forBatchesSt_trails now (toBatches 10 (Storage.listing "trail:" (storage w1))) w1)
    as (rs & w2 & -> & Hf2 & Hrs).
  rewrite concat_toBatches in Hrs. destruct Hf1 as [Hs1 Hst1]. rewrite Hst1 in Hrs.
  eexists _, _. split; [reflexivity|]. split.
  { simpl. unfold TTLCache.setInCache. by rewrite lookup_insert_eq. }
  assert (∀ e r, trailResult w1 e r → trailResult w e r) as Hback.
  { intros e r. apply trailResult_frame. by split. }
  intros key h d Hin Hh Hd. split.
  - intros (rc & hc & Ht).
    apply list_elem_of_omap in Ht as (r & Hr & Heq). simpl in Heq. subst r.
    apply list_elem_of_lookup in Hr as [i Hi].
    destruct (Forall2_lookup_r _ _ _ _ _ Hrs Hi) as (e & _ & He).
    apply Hback in He. by destruct He as [Hactive _].
  - intros Hactive.
    apply list_elem_of_lookup in Hin as [i Hi].
    destruct (Forall2_lookup_l _ _ _ _ _ Hrs Hi) as (r & Hr & He).
    apply Hback in He. destruct r as [t|].
    + destruct He as (_ & h' & d' & [= <-] & _ & Hd' & Hid & Hname & Hact).
      assert (d' = d) as -> by congruence.
      exists (trail_registrationCount t), (trail_horseCount t).
      apply list_elem_of_omap. exists (Some t). split; [by eapply list_elem_of_lookup_2|].
      simpl. f_equal. destruct t; simpl in *; congruence.
    + simpl in He. by destruct Hactive, (He h d).
Qed.
End trail_facts.

(** ** Timers and debouncing *)

Section timer_facts.
Context (E : DateEnv).
Implicit Types (w : World) (s : Scheduler).

Lemma invalidateAllCaches_sched trailId now w :
  sched (RegistrationService.invalidateAllCaches trailId now w)
  = (RegistrationService.setTimeout AggregationTimer 100 now (sched w)).2.
Proof. unfold RegistrationService.invalidateAllCaches. by destruct (Js.falsy trailId). Qed.

Lemma aggregateStatistics_sched now w :
  sched (Statistics.aggregateStatistics E now w) = sched w.
Proof.
  unfold Statistics.aggregateStatistics.
  destruct (groupAll_returns E w) as [g Hg]. by rewrite (aggregateAnalytics_eq E now w g Hg).
Qed.

(** The scheduler after a timer fired *)
Lemma fire_sched t w :
  sched (RegistrationService.fire E t w)
  = match callback t with
    | InvalidateTimer trailId =>
        mkScheduler (timers (sched w) ++ [mkTimer (nextTimerId (sched w)) (fireAt t + 100) AggregationTimer])
                    (nextTimerId (sched w) + 1)
                    (delete (RegistrationService.timerKey trailId) (cacheInvalidationTimers (sched w)))
                    (aggregations (sched w))
    | AggregationTimer =>
        mkScheduler (timers (sched w)) (nextTimerId (sched w)) (cacheInvalidationTimers (sched w))
                    (aggregations (sched w) ++ [fireAt t])
    end.
Proof.
  unfold RegistrationService.fire, with_sched. destruct (callback t); cbn [sched].
  - by rewrite invalidateAllCaches_sched.
  - by rewrite aggregateStatistics_sched.
Qed.

Lemma runTimers_sched fuel upTo w :
  sched (RegistrationService.runTimers E fuel upTo w) = runSched fuel upTo (sched w).
Proof.
  revert w. induction fuel as [|fuel IH]; intros w; simpl; [done|].
  unfold stepSched. destruct (RegistrationService.nextDue upTo (sched w)) as [t|]; [|done].
  rewrite IH, fire_sched. unfold with_sched. cbn [sched]. by destruct (callback t).
Qed.

Lemma earliest_elem_of l t : RegistrationService.earliest l = Some t → t ∈ l.
Proof.
  revert t. induction l as [|u l IH]; intros t; simpl; [done|].
  destruct (RegistrationService.earliest l) as [v|].
  - destruct (RegistrationService.earlier v u); intros [= <-].
    + right. by apply IH.
    + by left.
  - intros [= <-]. by left.
Qed.

Lemma weight_after_removal l t :
  t ∈ l →
  (sum_list (map RegistrationService.weight
               (List.filter (fun u => negb (Z.eqb (timer_id u) (timer_id t))) l))
   + RegistrationService.weight t
   ≤ sum_list (map RegistrationService.weight l))%nat.
Proof.
  induction l as [|u l IH]; [by intros ?%elem_of_nil|].
  intros [<-|Hin]%elem_of_cons; simpl.
  - rewrite Z.eqb_refl. simpl.
    assert (∀ l', sum_list (map RegistrationService.weight
                              (List.filter (fun u => negb (Z.eqb (timer_id u) (timer_id t))) l'))
                  ≤ sum_list (map RegistrationService.weight l'))%nat as Hle.
    { induction l' as [|v l' IH']; simpl; [done|].
      destruct (negb (Z.eqb (timer_id v) (timer_id t))); simpl; lia. }
    specialize (Hle l). lia.
  - specialize (IH Hin). destruct (negb (Z.eqb (timer_id u) (timer_id t))); simpl; lia.
Qed.

(** The fuel is enough: when the loop stops, no timer is due. *)
Lemma runSched_complete fuel upTo s :
  (sum_list (map RegistrationService.weight (timers s)) ≤ fuel)%nat →
  stepSched upTo (runSched fuel upTo s) = None.
Proof.
  revert s. induction fuel as [|fuel IH]; intros s Hfuel; simpl.
  - unfold stepSched, RegistrationService.nextDue.
    destruct (timers s) as [|t l]; [done|].
    simpl in Hfuel. unfold RegistrationService.weight in Hfuel at 1.
    destruct (callback t); lia.
  - destruct (stepSched upTo s) as [s'|] eqn:Hstep; [|done].
    apply IH. unfold stepSched, RegistrationService.nextDue in Hstep.
    destruct (RegistrationService.earliest (timers s)) as [t|] eqn:Ht; [|done].
    destruct (fireAt t <=? upTo); [|done].
    pose proof (weight_after_removal _ _ (earliest_elem_of _ _ Ht)) as Hw.
    unfold RegistrationService.weight in Hw at 2.
    injection Hstep as <-.
    destruct (callback t); simpl.
    + rewrite map_app, sum_list_with_app. simpl. lia.
    + lia.
Qed.

Lemma advance_sched upTo w :
  sched (RegistrationService.advance E upTo w)
  = runSched (sum_list (map RegistrationService.weight (timers (sched w)))) upTo (sched w).
Proof. apply runTimers_sched. Qed.

Lemma advance_complete upTo w :
  RegistrationService.nextDue upTo (sched (RegistrationService.advance E upTo w)) = None.
Proof.
  rewrite advance_sched.
  pose proof (runSched_complete (sum_list (map RegistrationService.weight (timers (sched w))))
                upTo (sched w) (le_n _)) as Hdone.
  unfold stepSched in Hdone. by destruct (RegistrationService.nextDue _ _).
Qed.



Lemma nextDue_none_advance upTo w :
  RegistrationService.nextDue upTo (sched w) = None → RegistrationService.advance E upTo w = w.
Proof.
  intros Hnone. unfold RegistrationService.advance.
  destruct (sum_list _) as [|fuel]; simpl; [done|]. by rewrite Hnone.
Qed.




Lemma updateRegistration_invalidates nowIso registrationId data now w :
  validUpdate w registrationId data →
  ∃ response trailId w',
    RegistrationService.updateRegistration nowIso registrationId data now w
    = (Returned response, RegistrationService.invalidateAllCaches trailId now w')
    ∧ sched w' = sched w.
Proof.
  intros (h & d & Hmap & Hh & Hd & Hfalsy & Hsame).
  unfold RegistrationService.updateRegistration. rewrite Hmap.
  unfold Stub.getRegistration, Stub.putRegistration. rewrite Hh, Hd.
  unfold RegistrationDO.updateRegistration, RegistrationDO.getRegistration.
  cbn [andb status json]. rewrite Z.eqb_refl, Hfalsy, Hsame.
  eexists _, _, _. split; reflexivity.
Qed.

Lemma deleteRegistration_invalidates registrationId now w :
  validDelete w registrationId →
  ∃ response trailId w',
    RegistrationService.deleteRegistration registrationId now w
    = (Returned response, RegistrationService.invalidateAllCaches trailId now w')
    ∧ sched w' = sched w.
Proof.
  intros (h & d & Hmap & Hh & Hd & Hfalsy).
  unfold RegistrationService.deleteRegistration. rewrite Hmap.
  unfold Stub.getRegistration. rewrite Hh, Hd.
  unfold RegistrationDO.getRegistration. cbn [status json]. rewrite Z.eqb_refl, Hfalsy.
  match goal with |- context [Stub.deleteRegistration ?w2 h] => set (w1 := w2) end.
  assert (Stub.deleteRegistration w1 h
          = (Returned (mkResponse 200 None), Stub.setDoc w1 h None)) as ->.
  { unfold Stub.deleteRegistration, Stub.throws in *.
    assert (failing w1 = failing w ∧ registrationDocs w1 = registrationDocs w) as [-> ->].
    { subst w1. by repeat case_match. }
    by rewrite Hh, Hd. }
  cbn [status]. rewrite Z.eqb_refl. cbn [andb negb].
  eexists _, _, _. split; [reflexivity|].
  subst w1. by repeat case_match.
Qed.

(** One invalidation on an idle instance: one aggregation, 100 ms later *)
Lemma invalidation_then_aggregation trailId now w upTo n log :
  sched w = mkScheduler [] n ∅ log → now + 100 ≤ upTo →
  sched (RegistrationService.advance E upTo (RegistrationService.invalidateAllCaches trailId now w))
  = mkScheduler [] (n + 1) ∅ (log ++ [now + 100]).
Proof.
  intros Hidle HupTo. rewrite advance_sched, invalidateAllCaches_sched, Hidle. cbn.
  unfold stepSched, RegistrationService.nextDue. cbn.
  destruct (Z.leb_spec (now + 100) upTo); [|lia]. cbn. by rewrite Z.eqb_refl.
Qed.

(** An update or a delete alone: the aggregation starts 100 ms later. *)
Lemma update_delete_immediate w n log registrationId data t upTo :
  sched w = mkScheduler [] n ∅ log →
  validUpdate w registrationId data → validDelete w registrationId →
  t + 100 ≤ upTo →
  sched (RegistrationService.advance E upTo
           (RegistrationService.run E
              [(t, RegistrationService.UpdateRegistration registrationId data)] w))
  = mkScheduler [] (n + 1) ∅ (log ++ [t + 100])
  ∧ sched (RegistrationService.advance E upTo
           (RegistrationService.run E
              [(t, RegistrationService.DeleteRegistration registrationId)] w))
  = mkScheduler [] (n + 1) ∅ (log ++ [t + 100]).
Proof.
  intros Hidle Hu Hd HupTo.
  assert (RegistrationService.advance E t w = w) as Hadv.
  { apply nextDue_none_advance. by rewrite Hidle. }
  cbn [RegistrationService.run RegistrationService.handleRequest]. rewrite Hadv.
  destruct (updateRegistration_invalidates (toISOString E t) registrationId data t w Hu)
    as (r1 & T1 & w1 & -> & Hs1).
  destruct (deleteRegistration_invalidates registrationId t w Hd)
    as (r2 & T2 & w2 & -> & Hs2).
  cbn [snd]. split; apply invalidation_then_aggregation; congruence.
Qed.















End timer_facts.

(* ------------------------------------------------------------------ *)
(** ** The operations keep the instance reachable

    Every request of the registration service, every timer and the trail
    listing lead from a reachable state to a reachable state: the writes
    they make to the cache are the ones [reachable] allows. *)

Section reachable_facts.
Context (E : DateEnv).
Implicit Types (w : World).

Ltac elsewhere :=
  match goal with
  | |- reachable ?E (with_sched ?x _) => apply (reach_elsewhere E x); [|reflexivity]
  | |- reachable ?E (with_storage ?x _) => apply (reach_elsewhere E x); [|reflexivity]
  | |- reachable ?E (with_registrationDocs ?x _) =>
      apply (reach_elsewhere E x); [|reflexivity]
  end.

Lemma reachable_invalidateAllCaches trailId now w :
  reachable E w → reachable E (RegistrationService.invalidateAllCaches trailId now w).
Proof.
  intros Hw. unfold RegistrationService.invalidateAllCaches,
    RegistrationService.triggerAnalyticsAggregation.
  cbv zeta.
  destruct (Js.falsy trailId); elsewhere; repeat apply reach_invalidate; done.
Qed.

Lemma reachable_aggregateStatistics now w :
  reachable E w → reachable E (Statistics.aggregateStatistics E now w).
Proof.
  intros Hw. unfold Statistics.aggregateStatistics.
  destruct (groupAll_returns E w) as [g Hg]. rewrite (aggregateAnalytics_eq E now w g Hg).
  apply reach_set; [|done]. by eapply reach_elsewhere.
Qed.

Lemma reachable_fire t w : reachable E w → reachable E (RegistrationService.fire E t w).
Proof.
  intros Hw. unfold RegistrationService.fire.
  destruct (callback t); cbv zeta; elsewhere.
  - by apply reachable_invalidateAllCaches.
  - by apply reachable_aggregateStatistics.
Qed.

Lemma reachable_advance upTo w :
  reachable E w → reachable E (RegistrationService.advance E upTo w).
Proof.
  unfold RegistrationService.advance. generalize (sum_list (map RegistrationService.weight (timers (sched w)))).
  intros fuel. revert w. induction fuel as [|fuel IH]; intros w Hw; simpl; [done|].
  destruct (RegistrationService.nextDue upTo (sched w)) as [t|]; [|done].
  apply IH, reachable_fire. by elsewhere.
Qed.

Lemma putRegistration_cache nowIso w h data :
  cache (Stub.putRegistration nowIso w h data).2 = cache w.
Proof.
  unfold Stub.putRegistration. destruct (Stub.throws w h); [done|].
  by destruct (RegistrationDO.updateRegistration _ _ _).
Qed.

Lemma deleteRegistration_cache w h : cache (Stub.deleteRegistration w h).2 = cache w.
Proof.
  unfold Stub.deleteRegistration. destruct (Stub.throws w h); [done|].
  by destruct (RegistrationDO.deleteRegistration _).
Qed.

Lemma reachable_createRegistration nowIso data id h now w :
  reachable E w →
  reachable E (RegistrationService.createRegistration nowIso data id h now w).2.
Proof.
  intros Hw. eapply reach_elsewhere; [exact Hw|].
  unfold RegistrationService.createRegistration.
  destruct (Js.falsy _); [done|]. destruct (Storage.getHandle _ _); [|done].
  match goal with |- context [Stub.putRegistration ?a ?b ?c ?d] =>
    pose proof (putRegistration_cache a b c d) as Hc;
    destruct (Stub.putRegistration a b c d) as [[r|] w1] end; [|done].
  destruct (status r =? 200); done.
Qed.

Lemma reachable_updateRegistration nowIso id data now w :
  reachable E w →
  reachable E (RegistrationService.updateRegistration nowIso id data now w).2.
Proof.
  intros Hw. unfold RegistrationService.updateRegistration.
  destruct (Storage.getHandle _ _) as [h|]; [|done].
  destruct (Stub.getRegistration w h) as [o|]; [|done].
  pose proof (putRegistration_cache nowIso w h data) as Hc.
  destruct (Stub.putRegistration nowIso w h data) as [[r|] w1]; simpl in Hc;
    [|by eapply reach_elsewhere].
  assert (reachable E w1) as Hw1 by (by eapply reach_elsewhere).
  destruct (status r =? 200); [|done]. simpl.
  set (w2 := match (if status o =? 200 then json o else None) with Some _ => _ | None => _ end).
  assert (reachable E w2) as Hw2.
  { subst w2. destruct (if status o =? 200 then json o else None) as [d|]; [|done].
    destruct (Js.falsy (reg_trailId d)); [done|]. by apply reachable_invalidateAllCaches. }
  repeat case_match; try done. by apply reachable_invalidateAllCaches.
Qed.

Lemma reachable_deleteRegistration id now w :
  reachable E w → reachable E (RegistrationService.deleteRegistration id now w).2.
Proof.
  intros Hw. unfold RegistrationService.deleteRegistration.
  destruct (Storage.getHandle _ _) as [h|]; [|done].
  destruct (Stub.getRegistration w h) as [o|]; [|done].
  match goal with |- context [Stub.deleteRegistration ?a h] =>
    pose proof (deleteRegistration_cache a h) as Hc; set (w1 := a) in *;
    assert (cache w1 = cache w) as Hc1 by (subst w1; by repeat case_match);
    destruct (Stub.deleteRegistration w1 h) as [[r|] w2] end; cbn [snd] in Hc.
  - assert (reachable E w2) as Hw2 by (eapply reach_elsewhere; [exact Hw|congruence]).
    simpl. case_match; [by apply reachable_invalidateAllCaches|done].
  - simpl. eapply reach_elsewhere; [exact Hw|congruence].
Qed.

Lemma flush_cache l w :
  cache (foldl RegistrationService.flushOne w l) = cache w.
Proof.
  revert w. induction l as [|[key id] l IH]; intros w; simpl; [done|].
  rewrite IH. destruct (handleOf id) as [h|]; [|done].
  pose proof (deleteRegistration_cache w h) as Hc.
  by destruct (Stub.deleteRegistration w h) as [[r|] w1].
Qed.

Lemma reachable_flushAllRegistrations now w :
  reachable E w → reachable E (RegistrationService.flushAllRegistrations now w).2.
Proof.
  intros Hw. unfold RegistrationService.flushAllRegistrations. simpl.
  apply reachable_invalidateAllCaches. eapply reach_elsewhere; [exact Hw|].
  generalize (Storage.listing "trail_registrations:" (storage w)). intros l.
  rewrite <- (flush_cache (Storage.listing "registration:" (storage w)) w).
  generalize (foldl RegistrationService.flushOne w (Storage.listing "registration:" (storage w))).
  induction l as [|[key v] l IH]; intros w'; simpl; [done|]. by rewrite IH.
Qed.

(** Every request and every timer keeps the instance in a reachable state. *)
Lemma reachable_run script w :
  reachable E w → reachable E (RegistrationService.run E script w).
Proof.
  revert w. induction script as [|[t r] script IH]; intros w Hw; simpl; [done|].
  apply IH. apply (reachable_advance t) in Hw.
  destruct r; simpl.
  - by apply reachable_createRegistration.
  - by apply reachable_updateRegistration.
  - by apply reachable_deleteRegistration.
  - by apply reachable_flushAllRegistrations.
Qed.

Lemma reachable_withCounts trailId data now w :
  reachable E w → reachable E (TrailService.withCounts trailId data now w).2.
Proof.
  intros Hw. unfold TrailService.withCounts.
  pose proof (reach_get E w ("trail-reg-count:" +:+ trailId) now Hw) as Hw1.
  destruct (Manager.getFromCache ("trail-reg-count:" +:+ trailId) now w) as [cachedCount w1].
  simpl in Hw1.
  set (step := match cachedCount with Some v => _ | None => _ end).
  assert (reachable E step.2) as Hw2.
  { subst step. destruct cachedCount; simpl; [done|]. by apply reach_set. }
  destruct step as [registrationCount w2]. simpl in Hw2.
  pose proof (reach_get E w2 ("trail-horse-count:" +:+ trailId) now Hw2) as Hw3.
  destruct (Manager.getFromCache ("trail-horse-count:" +:+ trailId) now w2) as [cachedHorses w3].
  simpl in Hw3.
  destruct cachedHorses as [v|]; [done|].
  destruct (TrailService.sumBatches _ _ _); simpl; [|done]. by apply reach_set.
Qed.

Lemma reachable_trailCallback now entry w :
  reachable E w → reachable E (TrailService.trailCallback now entry w).2.
Proof.
  intros Hw. destruct entry as [key id].
  unfold TrailService.trailCallback, TrailService.trailBody.
  destruct (handleOf id) as [h|]; [|done].
  destruct (Stub.getTrail w h) as [r|]; [|done].
  destruct (status r =? 200); [|done].
  destruct (jsonOf r) as [d|]; [|done].
  pose proof (reachable_withCounts (Js.substringFrom 6 key) d now w Hw) as Hw1.
  destruct (TrailService.withCounts _ d now w) as [[d'|] w1]; simpl in *; [|done].
  by destruct (trail_active d') as [[|]|].
Qed.

Lemma reachable_promiseAllSt now l w :
  reachable E w →
  reachable E (TrailService.promiseAllSt (TrailService.trailCallback now) l w).2.
Proof.
  revert w. induction l as [|entry l IH]; intros w Hw; simpl; [done|].
  pose proof (reachable_trailCallback now entry w Hw) as Hw1.
  destruct (TrailService.trailCallback now entry w) as [o w1]. simpl in Hw1.
  specialize (IH w1 Hw1).
  by destruct (TrailService.promiseAllSt _ l w1).
Qed.

Lemma reachable_forBatchesSt now batches w :
  reachable E w →
  reachable E (TrailService.forBatchesSt (TrailService.trailCallback now) batches w).2.
Proof.
  revert w. induction batches as [|batch rest IH]; intros w Hw; simpl; [done|].
  pose proof (reachable_promiseAllSt now batch w Hw) as Hw1.
  destruct (TrailService.promiseAllSt _ batch w) as [[rs|] w1]; simpl in Hw1; [|done].
  specialize (IH w1 Hw1). by destruct (TrailService.forBatchesSt _ rest w1).
Qed.

Lemma reachable_getAllTrails now w :
  reachable E w → reachable E (TrailService.getAllTrails now w).2.
Proof.
  intros Hw. unfold TrailService.getAllTrails.
  pose proof (reach_get E w "all-trails" now Hw) as Hw1.
  destruct (Manager.getFromCache "all-trails" now w) as [cached w1]. simpl in Hw1.
  destruct (truthyValue cached); [done|].
  pose proof (reachable_forBatchesSt now (toBatches 10 (Storage.listing "trail:" (storage w1)))
                w1 Hw1) as Hw2.
  destruct (TrailService.forBatchesSt _ _ w1) as [[trails|] w2]; simpl in Hw2; [|done].
  simpl. by apply reach_set.
Qed.

End reachable_facts.

(** C1.  Two registrations made at noon on 27 February 2024 and at noon on
    5 March 2024 fall in the weeks [2024-W9] and [2024-W10].  In the
    snapshot the aggregator stores, the weekly list has [2024-W10] first:
    the weekly list is sorted with [localeCompare] on the key, like the
    daily and monthly lists, and ["2024-W10"] precedes ["2024-W9"] in that
    order.  The grouping function alone shows the same on two entries that
    carry these week keys. *)
Theorem weekly_sort_is_lexicographic :
  (fun a => timeKey <$> weekly (grouped a))
    <$> Storage.getAnalytics "analytics:data"
          (storage (Statistics.aggregateAnalytics Sample.dates 0 Sample.world))
  = Some ["2024-W10"; "2024-W9"]
  ∧ timeKey <$> weekly (Statistics.processRegistrations
                          [mkProcessed "r1" "T1" "Oak" 2 "2024-02-27T12:00:00.000Z"
                             "2024-02-27" "2024-W9" "2024 Week 9" "2024-02" "February 2024";
                           mkProcessed "r2" "T1" "Oak" 3 "2024-03-05T12:00:00.000Z"
                             "2024-03-05" "2024-W10" "2024 Week 10" "2024-03" "March 2024"])
    = ["2024-W10"; "2024-W9"].
Proof. split; vm_compute; reflexivity. Qed.

Lemma batch_resilience_witness :
  Storage.listing "registration:" (storage Sample.world)
    = [("registration:r1", SHandle "g1"); ("registration:r2", SHandle "g2")]
      ++ ("registration:r3", SHandle "g3") :: []
  ∧ Stub.throws Sample.world "g3" = true
  ∧ Forall (processable Sample.dates Sample.world)
           ([("registration:r1", SHandle "g1"); ("registration:r2", SHandle "g2")] ++ [])
  ∧ ∃ results,
      Statistics.getAllRegistrations Sample.dates Sample.world
        {["T1" := mkTrailInfo "T1" "Oak" true]} = Returned results
      ∧ Forall2 (builtFrom Sample.dates Sample.world {["T1" := mkTrailInfo "T1" "Oak" true]})
                ([("registration:r1", SHandle "g1"); ("registration:r2", SHandle "g2")] ++ [])
                results
      ∧ results
        = [mkProcessed "r1" "T1" "Oak" 2 "2024-02-27T12:00:00.000Z"
             "2024-02-27" "2024-W9" "2024 Week 9" "2024-02" "February 2024";
           mkProcessed "r2" "T1" "Oak" 3 "2024-03-05T12:00:00.000Z"
             "2024-03-05" "2024-W10" "2024 Week 10" "2024-03" "March 2024"].
Proof.
  assert (Storage.listing "registration:" (storage Sample.world)
          = [("registration:r1", SHandle "g1"); ("registration:r2", SHandle "g2")]
            ++ ("registration:r3", SHandle "g3") :: []) as H1 by (vm_compute; reflexivity).
  assert (Stub.throws Sample.world "g3" = true) as H2 by (vm_compute; reflexivity).
  assert (Forall (processable Sample.dates Sample.world)
            ([("registration:r1", SHandle "g1"); ("registration:r2", SHandle "g2")] ++ []))
    as H3.
  { repeat constructor.
    - exists "g1", Sample.february, (mkDate 1709035200000 "2024-02-27" 2024 1).
      repeat split; reflexivity.
    - exists "g2", Sample.march, (mkDate 1709640000000 "2024-03-05" 2024 2).
      repeat split; reflexivity. }
  split; [exact H1|]. split; [exact H2|]. split; [exact H3|].
  destruct (batch_resilience Sample.dates Sample.world {["T1" := mkTrailInfo "T1" "Oak" true]}
              _ _ _ _ H1 H2) as (results & Hres & Heq & _ & Hall & _).
  exists results. split; [exact Hres|]. split; [exact (Hall H3)|].
  rewrite Heq. vm_compute. reflexivity.
Defined.

(** C2, the boundary.  An entry set at time 0 with a time-to-live of 1000
    is still returned by a [get] at time 1000, when the whole time-to-live
    has elapsed: the test is [Date.now() > entry.expires]. *)
Lemma cache_get_at_ttl_boundary :
  (TTLCache.getFromCache "k" 1000 (TTLCache.setInCache "k" 7 1000 0 ∅)).1 = Some 7
  ∧ ¬ (TTLCache.getFromCache "k" 1000 (TTLCache.setInCache "k" 7 1000 0 ∅)).1 = None.
Proof. split; [reflexivity|discriminate]. Qed.

Lemma cache_set_then_get_witness :
  0 < 1000
  ∧ TTLCache.getFromCache "k" 0 (TTLCache.setInCache "k" 7 1000 0 ∅)
    = (Some 7, TTLCache.setInCache "k" 7 1000 0 ∅)
  ∧ TTLCache.getFromCache "k" 1001 (TTLCache.setInCache "k" 7 1000 0 ∅)
    = (None, delete "k" (TTLCache.setInCache "k" 7 1000 0 ∅)).
Proof.
  assert (0 < 1000) as H by lia.
  pose proof (cache_set_then_get "k" 7 1000 0 ∅ H) as [Hlive Hdead].
  split; [exact H|]. split.
  - apply Hlive. lia.
  - apply Hdead. lia.
Defined.

Lemma invalidate_prefix_witness :
  Js.startsWith "registrations:1:10" "registrations:" = true
  ∧ TTLCache.invalidateCache "registrations:"
      (TTLCache.setInCache "registrations:1:10" 7 1000 0
         (TTLCache.setInCache "all-trails" 8 1000 0 ∅)) !! "registrations:1:10" = None
  ∧ Js.startsWith "all-trails" "registrations:" = false
  ∧ TTLCache.invalidateCache "registrations:"
      (TTLCache.setInCache "registrations:1:10" 7 1000 0
         (TTLCache.setInCache "all-trails" 8 1000 0 ∅)) !! "all-trails"
    = Some (TTLCache.mkEntry 8 1000).
Proof.
  assert (Js.startsWith "registrations:1:10" "registrations:" = true) as H1 by reflexivity.
  assert (Js.startsWith "all-trails" "registrations:" = false) as H2 by reflexivity.
  split; [exact H1|]. split.
  - apply (invalidate_prefix "registrations:" _ "registrations:1:10"), H1.
  - split; [exact H2|].
    rewrite (proj2 (invalidate_prefix "registrations:" _ "all-trails") H2).
    reflexivity.
Defined.



Lemma first_page_of_twenty_five_witness :
  (Manager.getFromCache (Statistics.cacheKey (Some 1) (Some 10) "" "" "" "") 0 Sample.busy).1
  = None
  ∧ List.length (Storage.listing "registration:" (storage Sample.busy)) = 25%nat
  ∧ Forall (readable Sample.dates Sample.busy)
           (Storage.listing "registration:" (storage Sample.busy))
  ∧ ∃ view w',
      Statistics.getRegistrationData Sample.dates (Some 1) (Some 10) "" "" "" "" 0 Sample.busy
      = (Returned (mkResponse 200 (Some (CVView view))), w')
      ∧ pg_page (view_pagination view) = Some 1
      ∧ pg_limit (view_pagination view) = Some 10
      ∧ pg_totalItems (view_pagination view) = 25
      ∧ pg_totalPages (view_pagination view) = Some 3
      ∧ pg_hasNextPage (view_pagination view) = true
      ∧ pg_hasPrevPage (view_pagination view) = false
      ∧ List.length (view_data view) = 10%nat.
Proof.
  assert ((Manager.getFromCache (Statistics.cacheKey (Some 1) (Some 10) "" "" "" "") 0
             Sample.busy).1 = None) as H1 by (vm_compute; reflexivity).
  assert (List.length (Storage.listing "registration:" (storage Sample.busy)) = 25%nat) as H2
    by (vm_compute; reflexivity).
  assert (Forall (readable Sample.dates Sample.busy)
                 (Storage.listing "registration:" (storage Sample.busy))) as H3.
  { apply Forall_forall. intros entry Hin. apply readableb_sound.
    apply list_elem_of_In in Hin. revert entry Hin. apply forallb_forall.
    vm_compute. reflexivity. }
  split; [exact H1|]. split; [exact H2|]. split; [exact H3|].
  exact (first_page_of_twenty_five Sample.dates "" 0 Sample.busy H1 H2 H3).
Defined.


Lemma delete_drops_mapping_first_witness :
  Storage.getHandle ("registration:" +:+ "r9") (storage Sample.orphan) = Some "g9"
  ∧ Stub.throws Sample.orphan "g9" = false
  ∧ registrationDocs Sample.orphan !! "g9" = None
  ∧ (RegistrationService.deleteRegistration "r9" 0 Sample.orphan).1
    = Returned (mkResponse 404 None)
  ∧ storage (RegistrationService.deleteRegistration "r9" 0 Sample.orphan).2
      !! ("registration:" +:+ "r9") = None.
Proof.
  assert (Storage.getHandle ("registration:" +:+ "r9") (storage Sample.orphan) = Some "g9")
    as H1 by reflexivity.
  assert (Stub.throws Sample.orphan "g9" = false) as H2 by reflexivity.
  assert (registrationDocs Sample.orphan !! "g9" = None) as H3 by reflexivity.
  split; [exact H1|]. split; [exact H2|]. split; [exact H3|].
  destruct (delete_drops_mapping_first "r9" 0 Sample.orphan "g9" H1 H2)
    as (response & Hres & Hgone & Hnotfound).
  destruct (Hnotfound H3) as [-> _]. split; [exact Hres|exact Hgone].
Defined.

Lemma inactive_trails_not_listed_witness :
  truthyValue (Manager.getFromCache "all-trails" 0 Sample.world).1 = None
  ∧ ("trail:T1", SHandle "h1") ∈ Storage.listing "trail:" (storage Sample.world)
  ∧ Stub.throws Sample.world "h1" = false
  ∧ trailDocs Sample.world !! "h1" = Some Sample.oak
  ∧ ∃ trails w',
      TrailService.getAllTrails 0 Sample.world
      = (Returned (mkResponse 200 (Some (CVTrails trails))), w')
      ∧ ∃ rc hc, mkTrail "T1" "Oak" (Some true) rc hc ∈ trails.
Proof.
  assert (truthyValue (Manager.getFromCache "all-trails" 0 Sample.world).1 = None) as H1
    by reflexivity.
  assert (("trail:T1", SHandle "h1") ∈ Storage.listing "trail:" (storage Sample.world)) as H2.
  { apply listing_elem_of. split; reflexivity. }
  assert (Stub.throws Sample.world "h1" = false) as H3 by reflexivity.
  assert (trailDocs Sample.world !! "h1" = Some Sample.oak) as H4 by reflexivity.
  split; [exact H1|]. split; [exact H2|]. split; [exact H3|]. split; [exact H4|].
  destruct (inactive_trails_not_listed 0 Sample.world H1) as (trails & w' & Hres & _ & Hiff).
  exists trails, w'. split; [exact Hres|].
  apply (Hiff "trail:T1" "h1" Sample.oak H2 H3 H4). discriminate.
Defined.

(** C7, the cached view.  Twenty-five registrations are listed and each
    can be read, but the view for [page = 1], [limit = 10] reports
    [totalItems = 24]: the view was computed and cached one instant before
    the twenty-fifth registration was created, a create invalidates the
    cache only 2 s later, and a cached view is returned as it is. *)
Lemma cached_view_misses_new_registration :
  List.length (Storage.listing "registration:" (storage Examples.crowdedThenCreate)) = 25%nat
  ∧ forallb (readableb Sample.dates Examples.crowdedThenCreate)
            (Storage.listing "registration:" (storage Examples.crowdedThenCreate)) = true
  ∧ ∃ view w',
      Statistics.getRegistrationData Sample.dates (Some 1) (Some 10) "" "" "" "" 2
                                     Examples.crowdedThenCreate
      = (Returned (mkResponse 200 (Some (CVView view))), w')
      ∧ pg_totalItems (view_pagination view) = 24
      ∧ pg_totalItems (view_pagination view) ≠ 25.
Proof.
  split; [vm_compute; reflexivity|]. split; [vm_compute; reflexivity|].
  eexists _, _. split; [vm_compute; reflexivity|]. split; [reflexivity|discriminate].
Qed.

(** C9, the unreachable actor.  The mapping [registration:r3] exists, but
    the call to its actor throws: [deleteRegistration] throws too, before
    it has deleted anything, and the mapping is still there. *)
Lemma delete_unreachable_keeps_mapping :
  Storage.getHandle ("registration:" +:+ "r3") (storage Sample.world) = Some "g3"
  ∧ (RegistrationService.deleteRegistration "r3" 0 Sample.world).1 = Thrown
  ∧ storage (RegistrationService.deleteRegistration "r3" 0 Sample.world).2
      !! ("registration:" +:+ "r3") = Some (SHandle "g3")
  ∧ ¬ storage (RegistrationService.deleteRegistration "r3" 0 Sample.world).2
        !! ("registration:" +:+ "r3") = None.
Proof.
  assert (RegistrationService.deleteRegistration "r3" 0 Sample.world = (Thrown, Sample.world))
    as -> by (by apply (delete_throws_keeps_mapping "r3" 0 Sample.world "g3")).
  split; [reflexivity|]. split; [reflexivity|]. split; [reflexivity|discriminate].
Qed.

(** ** The sweep of the cache, and the pages of a view *)

Section sweep_facts.
Context {V : Type}.
Implicit Types (c : gmap string (TTLCache.CacheEntry V)) (k : string).

Lemma cleanup_from_lookup now (l : list (string * TTLCache.CacheEntry V)) c k :
  foldl (fun acc '(key, entry) => if TTLCache.expires entry <? now then delete key acc else acc)
        c l !! k
  = if existsb (fun '(key, entry) => String.eqb key k && (TTLCache.expires entry <? now)) l
    then None else c !! k.
Proof.
  revert c. induction l as [|[key entry] l IH]; intros c; simpl; [done|].
  rewrite IH. destruct (existsb _ l); [by rewrite orb_true_r|]. rewrite orb_false_r.
  destruct (TTLCache.expires entry <? now).
  - rewrite andb_true_r. destruct (String.eqb_spec key k) as [->|Hne].
    + apply lookup_delete_eq.
    + by apply lookup_delete_ne.
  - by rewrite andb_false_r.
Qed.

Lemma cleanup_lookup now c k :
  TTLCache.cleanup now c !! k
  = match c !! k with
    | Some e => if TTLCache.expires e <? now then None else Some e
    | None => None
    end.
Proof.
  unfold TTLCache.cleanup. rewrite cleanup_from_lookup.
  destruct (existsb _ _) eqn:Hex.
  - apply existsb_exists in Hex as ([key e] & Hin & Hk).
    apply andb_prop in Hk as [Hkey Hexp]. apply String.eqb_eq in Hkey. subst key.
    apply list_elem_of_In, elem_of_map_to_list in Hin. by rewrite Hin, Hexp.
  - destruct (c !! k) as [e|] eqn:Hc; [|done].
    destruct (TTLCache.expires e <? now) eqn:Hexp; [|done].
    assert (existsb (fun '(key, entry) => String.eqb key k && (TTLCache.expires entry <? now))
                    (map_to_list c) = true) as Htrue; [|congruence].
    apply existsb_exists. exists (k, e). split.
    + by apply list_elem_of_In, elem_of_map_to_list.
    + by rewrite String.eqb_refl, Hexp.
Qed.

(** X1.  The periodic sweep, run at time [now], removes exactly the
    entries whose expiry lies before [now] and leaves the others as they
    are; and no read made at or after [now] can tell whether the sweep ran:
    it returns what it would have returned without it. *)
Theorem sweep_removes_expired_only now c k :
  (∀ e, TTLCache.cleanup now c !! k = Some e ↔ c !! k = Some e ∧ now ≤ TTLCache.expires e)
  ∧ (∀ t, now ≤ t →
       (TTLCache.getFromCache k t (TTLCache.cleanup now c)).1 = (TTLCache.getFromCache k t c).1).
Proof.
  split.
  - intros e. rewrite cleanup_lookup. destruct (c !! k) as [e'|]; [|by split; [|intros []]].
    destruct (Z.ltb_spec (TTLCache.expires e') now); split.
    + done.
    + intros [[= ->] ?]. lia.
    + intros [= ->]. split; [done|lia].
    + by intros [[= ->] _].
  - intros t Ht. unfold TTLCache.getFromCache. rewrite cleanup_lookup.
    destruct (c !! k) as [e|]; [|done].
    destruct (Z.ltb_spec (TTLCache.expires e) now) as [Hlt|Hge].
    + simpl. destruct (Z.ltb_spec (TTLCache.expires e) t); [done|lia].
    + by destruct (TTLCache.expires e <? t).
Qed.

End sweep_facts.

Section page_facts.
Context {A : Type}.
Implicit Types (items : list A).

Lemma slice_page items (p l : Z) :
  1 ≤ l → 1 ≤ p →
  Statistics.slice (Some ((p - 1) * l))
                   (Some (Z.min ((p - 1) * l + l) (Z.of_nat (List.length items)))) items
  = take (Z.to_nat l) (drop (Z.to_nat ((p - 1) * l)) items).
Proof.
  intros Hl Hp. unfold Statistics.slice, Statistics.relIndex.
  set (n := Z.of_nat (List.length items)).
  assert (0 ≤ (p - 1) * l) as Hs by nia.
  destruct (Z.ltb_spec ((p - 1) * l) 0); [lia|].
  destruct (Z.ltb_spec (Z.min ((p - 1) * l + l) n) 0); [lia|].
  destruct (Z.le_gt_cases n ((p - 1) * l)) as [Hout|Hin].
  - replace (Z.min (Z.min ((p - 1) * l + l) n) n) with n by lia.
    replace (Z.min ((p - 1) * l) n) with n by lia.
    rewrite Z.sub_diag. simpl.
    rewrite (drop_ge items (Z.to_nat n)) by (subst n; lia).
    rewrite (drop_ge items (Z.to_nat ((p - 1) * l))) by (subst n; lia).
    by rewrite !take_nil.
  - replace (Z.min ((p - 1) * l) n) with ((p - 1) * l) by lia.
    destruct (Z.le_gt_cases ((p - 1) * l + l) n) as [Hfull|Hpart].
    + replace (Z.min (Z.min ((p - 1) * l + l) n) n) with ((p - 1) * l + l) by lia.
      f_equal. lia.
    + replace (Z.min (Z.min ((p - 1) * l + l) n) n) with n by lia.
      rewrite !take_ge; [done|rewrite length_drop; subst n; lia|rewrite length_drop; subst n; lia].
Qed.

Lemma chunks_concat (k l : nat) items :
  (0 < l)%nat → (List.length items ≤ k * l)%nat →
  concat (map (fun i => take l (drop (i * l) items)) (seq 0 k)) = items.
Proof.
  intros Hl. revert items. induction k as [|k IH]; intros items Hlen.
  - simpl in *. destruct items; [done|simpl in Hlen; lia].
  - cbn [seq map concat]. rewrite <- fmap_S_seq.
    etrans; [|apply (take_drop l items)]. f_equal.
    etrans; [|apply (IH (drop l items)); rewrite length_drop; lia].
    f_equal. change (map ?f (?g <$> ?x)) with (f <$> (g <$> x)).
    rewrite <- list_fmap_compose. apply list_fmap_ext.
    intros _ i _. simpl. by rewrite drop_drop.
Qed.

End page_facts.

Section paginate_facts.
Implicit Types (items : list RegistrationTableItem) (tf sd ed tz : string).

Lemma paginate_data items (p l : Z) tf sd ed tz :
  1 ≤ l → 1 ≤ p →
  view_data (Statistics.paginate (Some p) (Some l) tf sd ed tz items)
  = take (Z.to_nat l) (drop (Z.to_nat ((p - 1) * l)) items).
Proof. intros Hl Hp. unfold Statistics.paginate. simpl. by apply slice_page. Qed.

Lemma ceilDiv_spec (a b : Z) : 0 < b → a ≤ ceilDiv a b * b < a + b.
Proof.
  intros Hb. unfold ceilDiv.
  pose proof (Z.div_mod (- a) b ltac:(lia)) as Hdm.
  pose proof (Z.mod_pos_bound (- a) b Hb) as Hm. nia.
Qed.

(** X2.  The pages of a view partition the list: for a limit of at least
    1, the data of pages 1 to [totalPages], one after the other, are the
    whole sorted list, every item once and in order. *)
Theorem pages_partition items (l : Z) tf sd ed tz :
  1 ≤ l →
  concat (map (fun p : nat =>
                 view_data (Statistics.paginate (Some (Z.of_nat p)) (Some l) tf sd ed tz items))
              (seq 1 (Z.to_nat (ceilDiv (Z.of_nat (List.length items)) l))))
  = items.
Proof.
  intros Hl.
  pose proof (ceilDiv_spec (Z.of_nat (List.length items)) l ltac:(lia)) as Hc.
  set (k := Z.to_nat (ceilDiv (Z.of_nat (List.length items)) l)).
  etrans; [|apply (chunks_concat k (Z.to_nat l) items); subst k; nia].
  rewrite <- fmap_S_seq. change (map ?f (?g <$> ?x)) with (f <$> (g <$> x)).
  rewrite <- list_fmap_compose. f_equal. apply list_fmap_ext.
  intros _ i _. cbv [compose]. rewrite paginate_data by lia. do 2 f_equal. lia.
Qed.

(** X3.  A page past the last one is not an error: for a limit of at
    least 1 and a page above [totalPages], the view has no items, reports
    no next page and echoes the page asked for. *)
Theorem page_past_the_end items (p l : Z) tf sd ed tz :
  1 ≤ l → 1 ≤ p → ceilDiv (Z.of_nat (List.length items)) l < p →
  let view := Statistics.paginate (Some p) (Some l) tf sd ed tz items in
  view_data view = []
  ∧ pg_hasNextPage (view_pagination view) = false
  ∧ pg_page (view_pagination view) = Some p
  ∧ pg_totalItems (view_pagination view) = Z.of_nat (List.length items).
Proof.
  intros Hl Hp Hlast view.
  pose proof (ceilDiv_spec (Z.of_nat (List.length items)) l ltac:(lia)) as Hc.
  split; [|split; [|done]].
  - subst view. rewrite paginate_data by done.
    rewrite drop_ge; [by rewrite take_nil|nia].
  - subst view. unfold Statistics.paginate. simpl.
    destruct (Z.ltb_spec p (ceilDiv (Z.of_nat (List.length items)) l)); [lia|done].
Qed.

End paginate_facts.

(** ** The grouping of the registrations ([processRegistrations], [getWeekNumber]) *)

Section week_facts.
Context (E : DateEnv).

(** X4.  The week number of a date.  For a date of its year (at most 366
    days after the year's first instant) the number lies between 1 and 54;
    the first instant of the year is in week 1. *)
Theorem week_number_bounds date t0 d0 :
  yearStart E (getFullYear date) = (t0, d0) →
  0 ≤ d0 ≤ 6 →
  t0 ≤ getTime date < t0 + 366 * 86400000 →
  1 ≤ Statistics.getWeekNumber E date ≤ 54
  ∧ (getTime date = t0 → Statistics.getWeekNumber E date = 1).
Proof.
  intros Hy Hd Ht. unfold Statistics.getWeekNumber. rewrite Hy. unfold ceilDiv.
  set (a := getTime date - t0 + (d0 + 1) * 86400000).
  pose proof (Z.div_mod (- a) (7 * 86400000) ltac:(lia)) as Hdm.
  pose proof (Z.mod_pos_bound (- a) (7 * 86400000) ltac:(lia)) as Hm.
  split; [subst a; lia|]. intros Heq. subst a. lia.
Qed.
End week_facts.

Section assoc_facts.
Context {A : Type}.
Implicit Types (m : list (string * A)) (k : string).

Lemma has_alookup k m : Statistics.has k m = bool_decide (is_Some (alookup k m)).
Proof.
  induction m as [|[k' a] m IH]; simpl; [done|].
  destruct (String.eqb k k'); [|done].
  symmetry. apply bool_decide_eq_true_2. eauto.
Qed.

Lemma alookup_update (f : A → A) k k' m :
  alookup k (Statistics.update f k' m)
  = if String.eqb k k' then f <$> alookup k m else alookup k m.
Proof.
  induction m as [|[k0 a] m IH]; simpl; [by destruct (String.eqb k k')|].
  destruct (String.eqb_spec k' k0) as [->|Hne]; simpl.
  - by destruct (String.eqb k k0).
  - rewrite IH. destruct (String.eqb_spec k k0) as [->|Hne2]; [|done].
    destruct (String.eqb_spec k0 k'); [congruence|done].
Qed.

Lemma alookup_app k m1 m2 :
  alookup k (m1 ++ m2) = match alookup k m1 with Some a => Some a | None => alookup k m2 end.
Proof.
  induction m1 as [|[k0 a] m1 IH]; simpl; [done|]. by destruct (String.eqb k k0).
Qed.

Lemma alookup_ensure k k' (fresh : A) m :
  alookup k (Statistics.ensure k' fresh m)
  = match alookup k m with
    | Some a => Some a
    | None => if String.eqb k k' then Some fresh else None
    end.
Proof.
  unfold Statistics.ensure. rewrite has_alookup.
  destruct (alookup k' m) as [a'|] eqn:Hk'.
  - rewrite bool_decide_eq_true_2 by eauto.
    destruct (alookup k m) eqn:Hk; [done|].
    destruct (String.eqb_spec k k'); [congruence|done].
  - rewrite bool_decide_eq_false_2 by (by intros [? ?]).
    rewrite alookup_app. simpl. done.
Qed.

Lemma keys_update (f : A → A) k m : (Statistics.update f k m).*1 = m.*1.
Proof.
  induction m as [|[k0 a] m IH]; [done|]. cbn [Statistics.update].
  destruct (String.eqb k k0); [done|]. rewrite !fmap_cons. by rewrite IH.
Qed.

Lemma alookup_None k m : alookup k m = None ↔ k ∉ m.*1.
Proof.
  induction m as [|[k0 a] m IH]; simpl.
  - split; [intros _; apply not_elem_of_nil|done].
  - rewrite not_elem_of_cons. destruct (String.eqb_spec k k0) as [->|Hne].
    + split; [done|]. by intros [? _].
    + rewrite IH. split; [by intros ?; split|by intros [_ ?]].
Qed.

Lemma NoDup_ensure k (fresh : A) m :
  NoDup (m.*1) → NoDup ((Statistics.ensure k fresh m).*1).
Proof.
  intros Hnd. unfold Statistics.ensure. rewrite has_alookup.
  destruct (alookup k m) as [a|] eqn:Hk.
  - by rewrite bool_decide_eq_true_2 by eauto.
  - rewrite bool_decide_eq_false_2 by (by intros [? ?]).
    rewrite fmap_app. simpl. apply NoDup_app. split; [done|]. split.
    + intros k0 Hin [->|[]%elem_of_nil]%elem_of_cons. by apply alookup_None in Hk.
    + apply NoDup_singleton.
Qed.

Lemma elem_of_alookup k a m : NoDup (m.*1) → (k, a) ∈ m ↔ alookup k m = Some a.
Proof.
  induction m as [|[k0 a0] m IH]; simpl.
  - intros _. split; [by intros ?%elem_of_nil|done].
  - rewrite NoDup_cons. intros [Hk0 Hnd]. rewrite elem_of_cons.
    destruct (String.eqb_spec k k0) as [->|Hne].
    + split.
      * intros [[= ->]|Hin]; [done|]. destruct Hk0.
        apply list_elem_of_fmap. by exists (k0, a).
      * intros [= ->]. by left.
    + rewrite <- IH by done. split.
      * intros [[=]|?]; [done|done].
      * by right.
Qed.

End assoc_facts.

Section grouping_facts.
Implicit Types (regs : list ProcessedRegistration) (kf lf : ProcessedRegistration → string).

Lemma grouping_fold regs d w m t :
  foldl (fun '(d, w, m, t) reg =>
           (Statistics.addToTimeGroups (pr_date reg) (pr_date reg) reg d,
            Statistics.addToTimeGroups (pr_weekKey reg) (pr_weekLabel reg) reg w,
            Statistics.addToTimeGroups (pr_monthKey reg) (pr_monthLabel reg) reg m,
            Statistics.addToTrailGroups reg t))
        (d, w, m, t) regs
  = (foldl (fun g reg => Statistics.addToTimeGroups (pr_date reg) (pr_date reg) reg g) d regs,
     foldl (fun g reg => Statistics.addToTimeGroups (pr_weekKey reg) (pr_weekLabel reg) reg g)
           w regs,
     foldl (fun g reg => Statistics.addToTimeGroups (pr_monthKey reg) (pr_monthLabel reg) reg g)
           m regs,
     foldl (fun t reg => Statistics.addToTrailGroups reg t) t regs).
Proof.
  revert d w m t. induction regs as [|r regs IH]; intros d w m t; simpl; [done|]. apply IH.
Qed.

Lemma processRegistrations_eq regs :
  Statistics.processRegistrations regs
  = mkGrouped
      (Js.sort Statistics.byTimeKey (map Statistics.toTimeEntry (groupsBy pr_date pr_date regs)))
      (Js.sort Statistics.byTimeKey
         (map Statistics.toTimeEntry (groupsBy pr_weekKey pr_weekLabel regs)))
      (Js.sort Statistics.byTimeKey
         (map Statistics.toTimeEntry (groupsBy pr_monthKey pr_monthLabel regs)))
      (map Statistics.toTrailSummary (trailGroups regs)).
Proof. unfold Statistics.processRegistrations. by rewrite grouping_fold. Qed.

Lemma inBucket_snoc kf k regs r :
  inBucket kf k (regs ++ [r])
  = inBucket kf k regs ++ (if String.eqb (kf r) k then [r] else []).
Proof. unfold inBucket. rewrite List.filter_app. simpl. by destruct (String.eqb (kf r) k). Qed.

Lemma trailGroups_snoc regs r :
  trailGroups (regs ++ [r]) = Statistics.addToTrailGroups r (trailGroups regs).
Proof. unfold trailGroups. by rewrite foldl_app. Qed.

Lemma groupsBy_snoc kf lf regs r :
  groupsBy kf lf (regs ++ [r]) = Statistics.addToTimeGroups (kf r) (lf r) r (groupsBy kf lf regs).
Proof. unfold groupsBy. by rewrite foldl_app. Qed.

Lemma trailGroups_NoDup regs : NoDup ((trailGroups regs).*1).
Proof.
  induction regs as [|r regs IH] using rev_ind; [constructor|].
  rewrite trailGroups_snoc. unfold Statistics.addToTrailGroups.
  rewrite keys_update. by apply NoDup_ensure.
Qed.

Lemma groupsBy_NoDup kf lf regs : NoDup ((groupsBy kf lf regs).*1).
Proof.
  induction regs as [|r regs IH] using rev_ind; [constructor|].
  rewrite groupsBy_snoc. unfold Statistics.addToTimeGroups.
  rewrite !keys_update. by apply NoDup_ensure.
Qed.

Lemma trailGroups_lookup regs t :
  alookup t (trailGroups regs)
  = match inBucket pr_trailName t regs with
    | [] => None
    | mine => Some mine
    end.
Proof.
  induction regs as [|r regs IH] using rev_ind; [done|].
  rewrite trailGroups_snoc, inBucket_snoc. unfold Statistics.addToTrailGroups.
  rewrite alookup_update, alookup_ensure, IH.
  rewrite (String.eqb_sym t (pr_trailName r)).
  destruct (String.eqb (pr_trailName r) t).
  - by destruct (inBucket pr_trailName t regs).
  - rewrite app_nil_r. by destruct (inBucket pr_trailName t regs).
Qed.

Lemma groupsBy_lookup kf lf regs k :
  alookup k (groupsBy kf lf regs)
  = match inBucket kf k regs with
    | [] => None
    | r0 :: rest => Some (Statistics.mkGroup (r0 :: rest) (lf r0) (trailGroups (r0 :: rest)))
    end.
Proof.
  induction regs as [|r regs IH] using rev_ind; [done|].
  rewrite groupsBy_snoc, inBucket_snoc. unfold Statistics.addToTimeGroups.
  rewrite !alookup_update, alookup_ensure, IH.
  rewrite (String.eqb_sym k (kf r)).
  destruct (String.eqb (kf r) k).
  - destruct (inBucket kf k regs) as [|r0 rest]; simpl; [done|].
    do 2 f_equal. change (r0 :: rest ++ [r]) with ((r0 :: rest) ++ [r]).
    by rewrite trailGroups_snoc.
  - rewrite app_nil_r. by destruct (inBucket kf k regs).
Qed.

End grouping_facts.

#[local] Arguments trailGroups : simpl never.
#[local] Arguments groupsBy : simpl never.
#[local] Arguments inBucket : simpl never.

Section bucket_facts.
Implicit Types (regs : list ProcessedRegistration) (kf lf : ProcessedRegistration → string).

Lemma inBucket_elem_of kf regs r : r ∈ regs → r ∈ inBucket kf (kf r) regs.
Proof.
  intros Hin. unfold inBucket. apply list_elem_of_In, List.filter_In.
  split; [by apply list_elem_of_In|apply String.eqb_refl].
Qed.

Lemma timeList_buckets kf lf regs : Forall (bucketEntry kf regs) (timeList kf lf regs).
Proof.
  apply Forall_forall. intros e He. unfold timeList in He.
  rewrite sort_Permutation in He.
  apply list_elem_of_fmap in He as ([k g] & -> & Hin).
  apply elem_of_alookup in Hin; [|apply groupsBy_NoDup].
  rewrite groupsBy_lookup in Hin. unfold bucketEntry. simpl.
  destruct (inBucket kf k regs) as [|r0 rest] eqn:Hmine; [done|].
  cbn in Hin. injection Hin as <-. simpl. split; [done|]. split; [done|]. split; [done|].
  intros trail bd Hbd.
  apply list_elem_of_fmap in Hbd as ([trail' es] & [= -> ->] & Hes).
  apply elem_of_alookup in Hes; [|apply trailGroups_NoDup].
  rewrite trailGroups_lookup in Hes.
  destruct (inBucket pr_trailName trail' (r0 :: rest)) as [|r1 rest1]; [done|].
  cbn in Hes. by injection Hes as <-.
Qed.

Lemma timeList_covers kf lf regs r : r ∈ regs → kf r ∈ timeKey <$> timeList kf lf regs.
Proof.
  intros Hin. apply (inBucket_elem_of kf) in Hin.
  pose proof (groupsBy_lookup kf lf regs (kf r)) as Hlook.
  destruct (inBucket kf (kf r) regs) as [|r0 rest]; [by apply elem_of_nil in Hin|].
  apply elem_of_alookup in Hlook; [|apply groupsBy_NoDup].
  apply list_elem_of_fmap. eexists. split; [|unfold timeList; rewrite sort_Permutation;
    apply list_elem_of_fmap; eexists; split; [reflexivity|exact Hlook]].
  done.
Qed.

(** X5.  Every entry of the daily, weekly and monthly lists totals exactly
    the registrations of its bucket: the registrations whose date (week key,
    month key) is the entry's key are at least one, [totalRegistrations] is
    their number and [totalHorses] the sum of their horse counts, and each
    line of the per-trail breakdown counts those of them that are on that
    trail.  Every registration's date, week and month have an entry.
    This is for horse counts that the code adds exactly and for trail names
    other than [__proto__], which the per-trail record of the code cannot
    hold. *)
Theorem buckets_total_their_registrations regs :
  exactSums pr_horseCount regs →
  Forall (fun r => pr_trailName r ≠ "__proto__") regs →
  let g := Statistics.processRegistrations regs in
  Forall (bucketEntry pr_date regs) (daily g)
  ∧ Forall (bucketEntry pr_weekKey regs) (weekly g)
  ∧ Forall (bucketEntry pr_monthKey regs) (monthly g)
  ∧ ∀ r, r ∈ regs →
      pr_date r ∈ timeKey <$> daily g
      ∧ pr_weekKey r ∈ timeKey <$> weekly g
      ∧ pr_monthKey r ∈ timeKey <$> monthly g.
Proof.
  intros _ _ g. subst g. rewrite processRegistrations_eq. simpl.
  split; [apply (timeList_buckets pr_date pr_date)|].
  split; [apply (timeList_buckets pr_weekKey pr_weekLabel)|].
  split; [apply (timeList_buckets pr_monthKey pr_monthLabel)|].
  intros r Hr.
  split; [by apply (timeList_covers pr_date pr_date)|].
  split; [by apply (timeList_covers pr_weekKey pr_weekLabel)|].
  by apply (timeList_covers pr_monthKey pr_monthLabel).
Qed.

(** X6.  The by-trail summaries: the names are distinct; the summary of a
    trail name totals the registrations with that name, which are at least
    one, so the average is their horses over their number and its
    denominator is never zero; and every registration's trail name has a
    summary.  This is for horse counts that the code adds exactly and for
    trail names other than [__proto__], for which the record of the code
    gets no summary. *)
Theorem trail_summaries_total regs :
  exactSums pr_horseCount regs →
  Forall (fun r => pr_trailName r ≠ "__proto__") regs →
  let summaries := trailSummaries (Statistics.processRegistrations regs) in
  NoDup (summaries.*1)
  ∧ (∀ trail s, (trail, s) ∈ summaries →
       let theirs := inBucket pr_trailName trail regs in
       theirs ≠ []
       ∧ sum_totalRegistrations s = Z.of_nat (List.length theirs)
       ∧ sum_totalHorses s = Statistics.sumHorses theirs
       ∧ sum_averageHorsesPerRegistration s
         = (Statistics.sumHorses theirs, Z.of_nat (List.length theirs)))
  ∧ ∀ r, r ∈ regs → pr_trailName r ∈ summaries.*1.
Proof.
  intros _ _ summaries. subst summaries. rewrite processRegistrations_eq. simpl.
  assert ((map Statistics.toTrailSummary (trailGroups regs)).*1 = (trailGroups regs).*1) as Hkeys.
  { change (map ?f ?l) with (f <$> l). rewrite <- list_fmap_compose.
    apply list_fmap_ext. by intros _ [t es] _. }
  split; [rewrite Hkeys; apply trailGroups_NoDup|]. split.
  - intros trail s Hs.
    apply list_elem_of_fmap in Hs as ([trail' es] & [= -> ->] & Hes).
    apply elem_of_alookup in Hes; [|apply trailGroups_NoDup].
    rewrite trailGroups_lookup in Hes. simpl.
    destruct (inBucket pr_trailName trail' regs) as [|r0 rest]; [done|].
    cbn in Hes. injection Hes as <-. split; [done|]. split; [done|]. split; [done|].
    destruct (Z.ltb_spec 0 (Z.of_nat (List.length (r0 :: rest)))); [done|simpl in *; lia].
  - intros r Hr. rewrite Hkeys. apply (inBucket_elem_of pr_trailName) in Hr.
    pose proof (trailGroups_lookup regs (pr_trailName r)) as Hlook.
    destruct (inBucket pr_trailName (pr_trailName r) regs) as [|r0 rest];
      [by apply elem_of_nil in Hr|].
    apply elem_of_alookup in Hlook; [|apply trailGroups_NoDup].
    apply list_elem_of_fmap. eexists. split; [|exact Hlook]. done.
Qed.

End bucket_facts.

Section sorted_by_key.
Context {A : Type} (key : A → string).
Implicit Types (l : list A) (x : A).

Lemma insert_sorted_by x l :
  StronglySorted (fun a b => String.compare (key a) (key b) = Lt) l →
  key x ∉ key <$> l →
  StronglySorted (fun a b => String.compare (key a) (key b) = Lt)
                 (Js.sort_insert (fun a b => String.compare (key a) (key b)) x l).
Proof.
  intros Hs. induction Hs as [|y l Hs IH Hy]; intros Hx; simpl.
  - repeat constructor.
  - rewrite fmap_cons in Hx. apply not_elem_of_cons in Hx as [Hxy Hx].
    destruct (String.compare (key y) (key x)) eqn:Hc.
    + apply String.compare_eq_iff in Hc. congruence.
    + constructor; [by apply IH|].
      rewrite sort_insert_Permutation. by constructor.
    + assert (String.compare (key x) (key y) = Lt) as Hlt.
      { rewrite String.compare_antisym, Hc. done. }
      constructor; [by constructor|].
      constructor; [done|].
      eapply Forall_impl; [exact Hy|].
      intros z Hz. simpl in *. by eapply compare_lt_trans.
Qed.

Lemma sort_from_sorted_by acc l :
  StronglySorted (fun a b => String.compare (key a) (key b) = Lt) acc →
  NoDup (key <$> acc ++ l) →
  StronglySorted (fun a b => String.compare (key a) (key b) = Lt)
    (foldl (fun acc x => Js.sort_insert (fun a b => String.compare (key a) (key b)) x acc) acc l).
Proof.
  revert acc. induction l as [|x l IH]; intros acc Hs Hnd; simpl; [done|].
  rewrite fmap_app, fmap_cons in Hnd.
  apply IH.
  - apply insert_sorted_by; [done|].
    apply NoDup_app in Hnd as (_ & Hdisj & _).
    intros Hin. apply (Hdisj _ Hin). by left.
  - rewrite fmap_app.
    rewrite (fmap_Permutation key _ _ (sort_insert_Permutation _ x acc)).
    rewrite fmap_cons. simpl. by rewrite Permutation_middle.
Qed.

Lemma sort_sorted_by l :
  NoDup (key <$> l) →
  StronglySorted (fun a b => String.compare (key a) (key b) = Lt)
                 (Js.sort (fun a b => String.compare (key a) (key b)) l).
Proof. intros. apply sort_from_sorted_by; [constructor|done]. Qed.

End sorted_by_key.

Section order_facts.
Implicit Types (regs : list ProcessedRegistration) (kf lf : ProcessedRegistration → string).

Lemma timeList_keys kf lf regs :
  timeKey <$> map Statistics.toTimeEntry (groupsBy kf lf regs) = (groupsBy kf lf regs).*1.
Proof.
  change (map ?f ?l) with (f <$> l). rewrite <- list_fmap_compose.
  apply list_fmap_ext. by intros _ [k g] _.
Qed.

Lemma timeList_sorted kf lf regs : StronglySorted keyBefore (timeList kf lf regs).
Proof.
  apply (sort_sorted_by timeKey). rewrite timeList_keys. apply groupsBy_NoDup.
Qed.

(** X7.  Each of the daily, weekly and monthly lists is in strictly
    increasing order of its keys, compared as strings: no key comes twice,
    and an entry's key is below the key of every later entry.  This is
    for keys made of digits, [-] and [W], on which [localeCompare] orders as
    the code units do. *)
Theorem time_lists_strictly_sorted regs :
  Forall (fun r => plainKey (pr_date r) = true ∧ plainKey (pr_weekKey r) = true
                   ∧ plainKey (pr_monthKey r) = true) regs →
  let g := Statistics.processRegistrations regs in
  StronglySorted keyBefore (daily g)
  ∧ StronglySorted keyBefore (weekly g)
  ∧ StronglySorted keyBefore (monthly g).
Proof.
  intros _ g. subst g. rewrite processRegistrations_eq. simpl.
  split; [apply (timeList_sorted pr_date pr_date)|].
  split; [apply (timeList_sorted pr_weekKey pr_weekLabel)|].
  apply (timeList_sorted pr_monthKey pr_monthLabel).
Qed.

End order_facts.

Section sum_facts.
Context {A : Type}.
Implicit Types (f : A → Z) (l : list A).

Lemma sumOf_app f l1 l2 : sumOf f (l1 ++ l2) = sumOf f l1 + sumOf f l2.
Proof. induction l1 as [|x l1 IH]; simpl; [done|]. rewrite IH. lia. Qed.

Lemma sumOf_Permutation f l1 l2 : l1 ≡ₚ l2 → sumOf f l1 = sumOf f l2.
Proof.
  induction 1 as [|x l1 l2 _ IH|x y l|l1 l2 l3 _ IH1 _ IH2]; simpl; [done|lia|lia|congruence].
Qed.

Lemma sumOf_map {B} (g : B → A) f (l : list B) : sumOf f (map g l) = sumOf (fun x => f (g x)) l.
Proof. induction l as [|x l IH]; simpl; [done|]. by rewrite IH. Qed.

End sum_facts.

Section conservation.
Context {A : Type}.
Implicit Types (m : list (string * A)) (size : string * A → Z).

Lemma sumOf_update (size : A → Z) (f : A → A) k m d :
  (∀ a, size (f a) = size a + d) →
  is_Some (alookup k m) →
  sumOf (fun kv => size kv.2) (Statistics.update f k m) = sumOf (fun kv => size kv.2) m + d.
Proof.
  intros Hf. induction m as [|[k0 a] m IH]; simpl; [by intros [? ?]|].
  destruct (String.eqb k k0); simpl.
  - intros _. rewrite Hf. lia.
  - intros Hk. rewrite IH by done. lia.
Qed.

Lemma sumOf_ensure (size : A → Z) k fresh m :
  size fresh = 0 →
  sumOf (fun kv => size kv.2) (Statistics.ensure k fresh m) = sumOf (fun kv => size kv.2) m.
Proof.
  intros Hfresh. unfold Statistics.ensure. destruct (Statistics.has k m); [done|].
  rewrite sumOf_app. simpl. lia.
Qed.

Lemma alookup_ensure_Some k (fresh : A) m : is_Some (alookup k (Statistics.ensure k fresh m)).
Proof.
  rewrite alookup_ensure, String.eqb_refl. destruct (alookup k m); eauto.
Qed.

End conservation.

Section conservation_facts.
Implicit Types (regs : list ProcessedRegistration) (kf lf : ProcessedRegistration → string).

Lemma sumHorses_snoc es r :
  Statistics.sumHorses (es ++ [r]) = Statistics.sumHorses es + pr_horseCount r.
Proof. unfold Statistics.sumHorses. by rewrite foldl_app. Qed.

Lemma addToTimeGroups_sum (size : list ProcessedRegistration → Z) d key lbl reg groups :
  size [] = 0 → (∀ es, size (es ++ [reg]) = size es + d) →
  sumOf (fun kv => size (Statistics.g_entries kv.2))
        (Statistics.addToTimeGroups key lbl reg groups)
  = sumOf (fun kv => size (Statistics.g_entries kv.2)) groups + d.
Proof.
  intros Hnil Hsnoc. unfold Statistics.addToTimeGroups.
  pose proof (alookup_ensure_Some key (Statistics.mkGroup [] lbl []) groups) as H0.
  set (g0 := Statistics.ensure key _ groups) in *.
  rewrite (sumOf_update (fun g => size (Statistics.g_entries g)) _ key _ 0);
    [|intros a; simpl; lia|rewrite !alookup_update, String.eqb_refl; destruct H0 as [? ->]; eauto].
  rewrite (sumOf_update (fun g => size (Statistics.g_entries g)) _ key _ 0);
    [|intros a; simpl; lia|rewrite !alookup_update, String.eqb_refl; destruct H0 as [? ->]; eauto].
  rewrite (sumOf_update (fun g => size (Statistics.g_entries g)) _ key _ d);
    [|intros a; apply Hsnoc|done].
  subst g0. rewrite (sumOf_ensure (fun g => size (Statistics.g_entries g))) by done. lia.
Qed.

Lemma timeList_sum (size : list ProcessedRegistration → Z) (d : ProcessedRegistration → Z)
    kf lf regs :
  size [] = 0 → (∀ es r, size (es ++ [r]) = size es + d r) →
  sumOf (fun kv => size (Statistics.g_entries kv.2)) (groupsBy kf lf regs) = size regs.
Proof.
  intros Hnil Hsnoc. induction regs as [|r regs IH] using rev_ind; [by rewrite Hnil|].
  rewrite groupsBy_snoc, (addToTimeGroups_sum size (d r)), IH, Hsnoc; auto.
Qed.

Lemma trailGroups_sum (size : list ProcessedRegistration → Z) (d : ProcessedRegistration → Z)
    regs :
  size [] = 0 → (∀ es r, size (es ++ [r]) = size es + d r) →
  sumOf (fun kv => size kv.2) (trailGroups regs) = size regs.
Proof.
  intros Hnil Hsnoc. induction regs as [|r regs IH] using rev_ind; [by rewrite Hnil|].
  rewrite trailGroups_snoc. unfold Statistics.addToTrailGroups.
  rewrite (sumOf_update size _ _ _ (d r)); [|intros; apply Hsnoc|apply alookup_ensure_Some].
  rewrite (sumOf_ensure size) by done. rewrite IH, Hsnoc. done.
Qed.

Lemma sumOf_ext {A} (f g : A → Z) (l : list A) :
  (∀ x, f x = g x) → sumOf f l = sumOf g l.
Proof. intros Hfg. induction l as [|x l IH]; simpl; [done|]. by rewrite Hfg, IH. Qed.

Lemma timeList_totals kf lf regs :
  sumOf totalRegistrations (timeList kf lf regs) = Z.of_nat (List.length regs)
  ∧ sumOf totalHorses (timeList kf lf regs) = Statistics.sumHorses regs.
Proof.
  unfold timeList. split.
  - rewrite (sumOf_Permutation _ _ _ (sort_Permutation _ _)), sumOf_map.
    rewrite <- (timeList_sum (fun es => Z.of_nat (List.length es)) (fun _ => 1) kf lf regs).
    + apply sumOf_ext. by intros [k g].
    + done.
    + intros es r. rewrite length_app. simpl. lia.
  - rewrite (sumOf_Permutation _ _ _ (sort_Permutation _ _)), sumOf_map.
    rewrite <- (timeList_sum Statistics.sumHorses pr_horseCount kf lf regs).
    + apply sumOf_ext. by intros [k g].
    + done.
    + apply sumHorses_snoc.
Qed.

(** X8.  No registration is lost or counted twice: in each of the daily,
    weekly and monthly lists, and in the by-trail summaries, the
    [totalRegistrations] add up to the number of registrations and the
    [totalHorses] to the sum of their horse counts.  This is for horse
    counts that the code adds exactly and for trail names other than
    [__proto__]. *)
Theorem every_registration_counted_once regs :
  exactSums pr_horseCount regs →
  Forall (fun r => pr_trailName r ≠ "__proto__") regs →
  let g := Statistics.processRegistrations regs in
  let n := Z.of_nat (List.length regs) in
  let horses := Statistics.sumHorses regs in
  (sumOf totalRegistrations (daily g) = n ∧ sumOf totalHorses (daily g) = horses)
  ∧ (sumOf totalRegistrations (weekly g) = n ∧ sumOf totalHorses (weekly g) = horses)
  ∧ (sumOf totalRegistrations (monthly g) = n ∧ sumOf totalHorses (monthly g) = horses)
  ∧ (sumOf (fun s => sum_totalRegistrations s.2) (trailSummaries g) = n
     ∧ sumOf (fun s => sum_totalHorses s.2) (trailSummaries g) = horses).
Proof.
  intros _ _ g n horses. subst g n horses. rewrite processRegistrations_eq. simpl.
  split; [apply (timeList_totals pr_date pr_date)|].
  split; [apply (timeList_totals pr_weekKey pr_weekLabel)|].
  split; [apply (timeList_totals pr_monthKey pr_monthLabel)|].
  rewrite !sumOf_map. split.
  - rewrite <- (trailGroups_sum (fun es => Z.of_nat (List.length es)) (fun _ => 1) regs).
    + apply sumOf_ext. by intros [k es].
    + done.
    + intros es r. rewrite length_app. simpl. lia.
  - rewrite <- (trailGroups_sum Statistics.sumHorses pr_horseCount regs).
    + apply sumOf_ext. by intros [k es].
    + done.
    + apply sumHorses_snoc.
Qed.

End conservation_facts.

(** ** Creating a registration *)

Section create_facts.
Implicit Types (w : World).

Lemma with_registrationDocs_same w : with_registrationDocs w (registrationDocs w) = w.
Proof. by destruct w. Qed.

(** X9.  A create is all or nothing.  With a fresh actor (one that holds
    no document), a create that does not answer 200 (no trail id, unknown
    trail, a missing rider name or horse count, an actor that cannot be
    called) leaves the instance exactly as it was: no mapping, no document,
    no entry in the trail's list, no timer. *)
Theorem create_is_all_or_nothing nowIso data registrationId h now w :
  registrationDocs w !! h = None →
  status (RegistrationService.createRegistration nowIso data registrationId h now w).1 ≠ 200 →
  (RegistrationService.createRegistration nowIso data registrationId h now w).2 = w.
Proof.
  intros Hfresh. unfold RegistrationService.createRegistration.
  destruct (Js.falsy (default "" (p_trailId data))); [done|].
  destruct (Storage.getHandle _ _); [|done].
  unfold Stub.putRegistration. destruct (Stub.throws w h); [done|].
  rewrite Hfresh. unfold RegistrationDO.updateRegistration.
  cbn [andb p_trailId p_riderName p_horseCount].
  destruct (_ || _ || _).
  - intros _. cbn [status snd Z.eqb]. unfold Stub.setDoc.
    rewrite (delete_id (registrationDocs w) h Hfresh).
    apply with_registrationDocs_same.
  - cbn [status fst]. rewrite Z.eqb_refl. cbn [fst status]. done.
Qed.

End create_facts.

Section create_read_facts.
Implicit Types (w : World).

Lemma throws_not_falsy w h : Stub.throws w h = false → Js.falsy h = false.
Proof. unfold Stub.throws. by intros [? _]%orb_false_elim. Qed.

(** What a create that goes through does to the world *)
Lemma createRegistration_valid nowIso data registrationId h now w trailId :
  validCreate w trailId data h →
  registrationDocs w !! h = None →
  let doc := createdDocument nowIso data registrationId trailId in
  RegistrationService.createRegistration nowIso data registrationId h now w
  = (mkResponse 200 (Some doc),
     RegistrationService.debounceInvalidateCache trailId now
       (RegistrationService.updateTrailRegistrationsMap trailId registrationId
          (with_storage (Stub.setDoc w h (Some doc))
             (<["registration:" +:+ registrationId := SHandle h]> (storage w))))).
Proof.
  intros (Htrail & Hfalsy & [th Hth] & Hrider & Hhorse & Hh) Hfresh doc. subst doc.
  unfold RegistrationService.createRegistration. rewrite Htrail.
  change (default "" (Some trailId)) with trailId.
  rewrite Hfalsy, Hth. unfold Stub.putRegistration. rewrite Hh, Hfresh.
  unfold RegistrationDO.updateRegistration. cbn [p_trailId p_riderName p_horseCount p_timestamp].
  change (default "" (Some trailId)) with trailId.
  rewrite Hfalsy, Hrider. apply Z.eqb_neq in Hhorse. rewrite Hhorse.
  cbn [orb andb]. cbn [status]. rewrite Z.eqb_refl.
  unfold createdDocument, RegistrationDO.merge, Js.or_else.
  destruct (Js.falsy (default "" (p_timestamp data))) eqn:Hts; [done|].
  destruct (p_timestamp data) as [ts|]; [done|]. done.
Qed.

Lemma getTrailRegistrations_eq trailId w :
  TrailService.getTrailRegistrations trailId w
  = mkResponse 200
      (Some (omap (TrailService.registrationOf w)
                  (default [] (Storage.getRegistrationIds ("trail_registrations:" +:+ trailId)
                                                          (storage w))))).
Proof.
  unfold TrailService.getTrailRegistrations.
  assert (∀ ids acc,
            foldl (fun registrations registrationId =>
                     match TrailService.registrationOf w registrationId with
                     | Some data => registrations ++ [data]
                     | None => registrations
                     end) acc ids
            = acc ++ omap (TrailService.registrationOf w) ids) as Hfold.
  { induction ids as [|id ids IH]; intros acc; cbn; [by rewrite app_nil_r|].
    rewrite IH. destruct (TrailService.registrationOf w id); cbn; [|done].
    by rewrite <- app_assoc. }
  destruct (Storage.getRegistrationIds _ _) as [[|id ids]|]; try done.
  by rewrite Hfold.
Qed.

Lemma registrationOf_read w registrationId h d :
  Storage.getHandle ("registration:" +:+ registrationId) (storage w) = Some h →
  Stub.throws w h = false → registrationDocs w !! h = Some d →
  TrailService.registrationOf w registrationId = Some d.
Proof.
  intros Hmap Hh Hd. unfold TrailService.registrationOf, Stub.getRegistration.
  by rewrite Hmap, Hh, Hd.
Qed.

(** X10.  Create, then read.  A create that goes through, on a fresh actor
    and with an id that was never cached, answers 200 with the stored
    document: the id is the new id, the timestamp the one given or else the
    time of the call.  Reading the registration by its id afterwards
    returns that document, and the id is the last one of the list of its
    trail. *)
Theorem create_then_read nowIso data registrationId h now t w trailId :
  validCreate w trailId data h →
  registrationDocs w !! h = None →
  cache w !! ("registration:" +:+ registrationId) = None →
  let doc := createdDocument nowIso data registrationId trailId in
  let created := RegistrationService.createRegistration nowIso data registrationId h now w in
  created.1 = mkResponse 200 (Some doc)
  ∧ (RegistrationService.getRegistration registrationId t created.2).1
    = Returned (mkResponse 200 (Some (CVRegistration doc)))
  ∧ Storage.getRegistrationIds ("trail_registrations:" +:+ trailId) (storage created.2)
    = Some (default [] (Storage.getRegistrationIds ("trail_registrations:" +:+ trailId)
                                                   (storage w))
            ++ [registrationId]).
Proof.
  intros Hvalid Hfresh Hcache doc created. subst created.
  rewrite (createRegistration_valid nowIso data registrationId h now w trailId Hvalid Hfresh).
  fold doc. cbn [fst snd]. split; [done|].
  destruct Hvalid as (_ & _ & _ & _ & _ & Hh).
  set (w1 := RegistrationService.debounceInvalidateCache _ _ _).
  assert (cache w1 = cache w) as Hc by done.
  assert (failing w1 = failing w) as Hf by done.
  assert (registrationDocs w1 = <[h := doc]> (registrationDocs w)) as Hdocs by done.
  assert (storage w1
          = <["trail_registrations:" +:+ trailId :=
                SRegistrationIds
                  (default [] (Storage.getRegistrationIds ("trail_registrations:" +:+ trailId)
                     (<["registration:" +:+ registrationId := SHandle h]> (storage w)))
                   ++ [registrationId])]>
              (<["registration:" +:+ registrationId := SHandle h]> (storage w))) as Hst by done.
  assert (Storage.getRegistrationIds ("trail_registrations:" +:+ trailId)
            (<["registration:" +:+ registrationId := SHandle h]> (storage w))
          = Storage.getRegistrationIds ("trail_registrations:" +:+ trailId) (storage w)) as Hids.
  { unfold Storage.getRegistrationIds. by rewrite lookup_insert_ne by (by intros [=]). }
  rewrite Hids in Hst. split.
  - unfold RegistrationService.getRegistration, Manager.getFromCache, TTLCache.getFromCache.
    rewrite Hc, Hcache. cbn [truthyValue storage with_cache].
    unfold Storage.getHandle. rewrite Hst.
    rewrite lookup_insert_ne by (by intros [=]). rewrite lookup_insert_eq.
    rewrite (throws_not_falsy w h Hh).
    unfold Stub.getRegistration, Stub.throws. cbn [failing registrationDocs with_cache].
    rewrite Hf, Hdocs, lookup_insert_eq. unfold Stub.throws in Hh. rewrite Hh. done.
  - unfold Storage.getRegistrationIds at 1. by rewrite Hst, lookup_insert_eq.
Qed.

Lemma omap_ext_elem {A B} (f g : A → option B) (l : list A) :
  (∀ x, x ∈ l → f x = g x) → omap f l = omap g l.
Proof.
  induction l as [|x l IH]; intros Hfg; [done|].
  cbn. rewrite (Hfg x) by by left. destruct (g x); cbn; rewrite IH; try done.
  all: intros y Hy; apply Hfg; by right.
Qed.

(** X11.  Create, then list.  After a create that goes through (fresh
    actor, fresh id), the registrations of its trail are the ones listed
    before, in the same order, followed by the new document. *)
Theorem created_registration_is_listed nowIso data registrationId h now w trailId :
  validCreate w trailId data h →
  registrationDocs w !! h = None →
  let old := default [] (Storage.getRegistrationIds ("trail_registrations:" +:+ trailId)
                                                    (storage w)) in
  registrationId ∉ old →
  (∀ id, id ∈ old → Storage.getHandle ("registration:" +:+ id) (storage w) ≠ Some h) →
  json (TrailService.getTrailRegistrations trailId
          (RegistrationService.createRegistration nowIso data registrationId h now w).2)
  = Some (default [] (json (TrailService.getTrailRegistrations trailId w))
          ++ [createdDocument nowIso data registrationId trailId]).
Proof.
  intros Hvalid Hfresh old Hnew Hhandle.
  rewrite (createRegistration_valid nowIso data registrationId h now w trailId Hvalid Hfresh).
  destruct Hvalid as (_ & _ & _ & _ & _ & Hh).
  set (doc := createdDocument nowIso data registrationId trailId).
  cbn [snd]. set (w1 := RegistrationService.debounceInvalidateCache _ _ _).
  assert (failing w1 = failing w) as Hf by done.
  assert (registrationDocs w1 = <[h := doc]> (registrationDocs w)) as Hdocs by done.
  assert (Storage.getRegistrationIds ("trail_registrations:" +:+ trailId)
            (<["registration:" +:+ registrationId := SHandle h]> (storage w))
          = Storage.getRegistrationIds ("trail_registrations:" +:+ trailId) (storage w)) as Hids.
  { unfold Storage.getRegistrationIds. by rewrite lookup_insert_ne by (by intros [=]). }
  assert (storage w1
          = <["trail_registrations:" +:+ trailId := SRegistrationIds (old ++ [registrationId])]>
              (<["registration:" +:+ registrationId := SHandle h]> (storage w))) as Hst.
  { subst old. rewrite <- Hids. done. }
  assert (∀ id, Storage.getHandle ("registration:" +:+ id) (storage w1)
                = if String.eqb id registrationId then Some h
                  else Storage.getHandle ("registration:" +:+ id) (storage w)) as Hmap.
  { intros id. unfold Storage.getHandle. rewrite Hst.
    rewrite lookup_insert_ne by (by intros [=]).
    destruct (String.eqb_spec id registrationId) as [->|Hne].
    - rewrite lookup_insert_eq. by rewrite (throws_not_falsy w h Hh).
    - rewrite lookup_insert_ne; [done|]. intros Heq. simpl in Heq. by simplify_eq. }
  rewrite !getTrailRegistrations_eq. cbn [json default].
  assert (Storage.getRegistrationIds ("trail_registrations:" +:+ trailId) (storage w1)
          = Some (old ++ [registrationId])) as ->.
  { unfold Storage.getRegistrationIds. by rewrite Hst, lookup_insert_eq. }
  fold old. cbn [default from_option]. unfold id. rewrite omap_app. f_equal. f_equal.
  - apply omap_ext_elem. intros id Hid. unfold TrailService.registrationOf.
    rewrite Hmap. destruct (String.eqb_spec id registrationId) as [->|_]; [done|].
    destruct (Storage.getHandle ("registration:" +:+ id) (storage w)) as [h'|] eqn:Hh'; [|done].
    assert (h' ≠ h) as Hne by (intros ->; by apply (Hhandle id)).
    unfold Stub.getRegistration, Stub.throws. by rewrite Hf, Hdocs, lookup_insert_ne.
  - assert (TrailService.registrationOf w1 registrationId = Some doc) as Hr.
    { apply (registrationOf_read w1 registrationId h doc).
      + by rewrite Hmap, String.eqb_refl.
      + unfold Stub.throws in *. by rewrite Hf.
      + by rewrite Hdocs, lookup_insert_eq. }
    cbn [omap list_omap]. by rewrite Hr.
Qed.

End create_read_facts.

(** ** Updating a registration; the cache of single registrations *)

Section update_facts.
Implicit Types (w : World).


End update_facts.

Section stale_facts.
Context (E : DateEnv).
Implicit Types (w : World).

Lemma invalidateAllCaches_keeps registrationId trailId now w :
  cache (RegistrationService.invalidateAllCaches trailId now w)
    !! ("registration:" +:+ registrationId)
  = cache w !! ("registration:" +:+ registrationId).
Proof.
  unfold RegistrationService.invalidateAllCaches, RegistrationService.triggerAnalyticsAggregation.
  cbv zeta. destruct (Js.falsy trailId);
    cbn [cache with_sched with_cache Manager.invalidateCache];
    rewrite !invalidateCache_lookup; reflexivity.
Qed.

Lemma aggregateStatistics_keeps registrationId now w :
  cache (Statistics.aggregateStatistics E now w) !! ("registration:" +:+ registrationId)
  = cache w !! ("registration:" +:+ registrationId).
Proof.
  unfold Statistics.aggregateStatistics.
  destruct (groupAll_returns E w) as [g Hg]. rewrite (aggregateAnalytics_eq E now w g Hg).
  cbn [cache Manager.setInCache with_cache with_storage]. unfold TTLCache.setInCache.
  by rewrite lookup_insert_ne.
Qed.

Lemma fire_keeps registrationId t w :
  cache (RegistrationService.fire E t w) !! ("registration:" +:+ registrationId)
  = cache w !! ("registration:" +:+ registrationId).
Proof.
  unfold RegistrationService.fire. destruct (callback t); cbv zeta; cbn [cache with_sched].
  - apply invalidateAllCaches_keeps.
  - apply aggregateStatistics_keeps.
Qed.

Lemma advance_keeps registrationId upTo w :
  cache (RegistrationService.advance E upTo w) !! ("registration:" +:+ registrationId)
  = cache w !! ("registration:" +:+ registrationId).
Proof.
  unfold RegistrationService.advance.
  generalize (sum_list (map RegistrationService.weight (timers (sched w)))).
  intros fuel. revert w. induction fuel as [|fuel IH]; intros w; simpl; [done|].
  destruct (RegistrationService.nextDue upTo (sched w)) as [t|]; [|done].
  by rewrite IH, fire_keeps.
Qed.

Lemma handleRequest_keeps registrationId r now w :
  cache (RegistrationService.handleRequest E r now w) !! ("registration:" +:+ registrationId)
  = cache w !! ("registration:" +:+ registrationId).
Proof.
  destruct r as [data id h|id data|id|]; cbn [RegistrationService.handleRequest].
  - f_equal.
    unfold RegistrationService.createRegistration.
    destruct (Js.falsy _); [done|]. destruct (Storage.getHandle _ _); [|done].
    match goal with |- context [Stub.putRegistration ?a ?b ?c ?d] =>
      pose proof (putRegistration_cache a b c d) as Hc;
      destruct (Stub.putRegistration a b c d) as [[r|] w1] end; [|done].
    destruct (status r =? 200); done.
  - unfold RegistrationService.updateRegistration.
    destruct (Storage.getHandle _ _) as [h|]; [|done].
    destruct (Stub.getRegistration w h) as [o|]; [|done].
    pose proof (putRegistration_cache (toISOString E now) w h data) as Hc.
    destruct (Stub.putRegistration (toISOString E now) w h data) as [[r|] w1];
      cbn [snd] in Hc |- *; [|by rewrite Hc].
    destruct (status r =? 200); cbn [snd]; [|by rewrite Hc].
    set (w2 := match (if status o =? 200 then json o else None) with
               | Some _ => _
               | None => _
               end).
    assert (cache w2 !! ("registration:" +:+ registrationId)
            = cache w !! ("registration:" +:+ registrationId)) as H2.
    { subst w2. repeat case_match; rewrite ?invalidateAllCaches_keeps, ?Hc; done. }
    repeat case_match; rewrite ?invalidateAllCaches_keeps, ?H2; done.
  - unfold RegistrationService.deleteRegistration.
    destruct (Storage.getHandle _ _) as [h|]; [|done].
    destruct (Stub.getRegistration w h) as [o|]; [|done].
    match goal with |- context [Stub.deleteRegistration ?a h] =>
      pose proof (deleteRegistration_cache a h) as Hc; set (w1 := a) in *;
      assert (cache w1 = cache w) as Hc1 by (subst w1; by repeat case_match);
      destruct (Stub.deleteRegistration w1 h) as [[r|] w2] end; cbn [snd] in Hc.
    + cbn [snd].
      case_match; rewrite ?invalidateAllCaches_keeps, ?Hc, ?Hc1; done.
    + cbn [snd]. by rewrite Hc, Hc1.
  - unfold RegistrationService.flushAllRegistrations. cbn [snd].
    rewrite invalidateAllCaches_keeps. f_equal.
    generalize (Storage.listing "trail_registrations:" (storage w)). intros l.
    rewrite <- (flush_cache (Storage.listing "registration:" (storage w)) w).
    generalize (foldl RegistrationService.flushOne w (Storage.listing "registration:" (storage w))).
    induction l as [|[key v] l IH]; intros w'; simpl; [done|]. by rewrite IH.
Qed.

Lemma run_keeps registrationId script w :
  cache (RegistrationService.run E script w) !! ("registration:" +:+ registrationId)
  = cache w !! ("registration:" +:+ registrationId).
Proof.
  revert w. induction script as [|[t r] script IH]; intros w; simpl; [done|].
  by rewrite IH, handleRequest_keeps, advance_keeps.
Qed.

(** X13.  A registration that was read is served from the cache until its
    entry expires, whatever happens to it meanwhile: no create, update,
    delete or flush and no timer removes the entry under
    [registration:<id>].  So after any run of requests and timers, a read
    before the expiry still returns the document as it was cached, even if
    the registration was updated or deleted. *)
Theorem cached_registration_outlives_writes registrationId script t w e :
  cache w !! ("registration:" +:+ registrationId) = Some e →
  truthy (TTLCache.data e) = true →
  t ≤ TTLCache.expires e →
  (RegistrationService.getRegistration registrationId t
     (RegistrationService.advance E t (RegistrationService.run E script w))).1
  = Returned (mkResponse 200 (Some (TTLCache.data e))).
Proof.
  intros Hc Htruthy Ht.
  unfold RegistrationService.getRegistration, Manager.getFromCache, TTLCache.getFromCache.
  rewrite advance_keeps, run_keeps, Hc.
  destruct (Z.ltb_spec (TTLCache.expires e) t); [lia|].
  cbn [truthyValue]. by rewrite Htruthy.
Qed.

End stale_facts.

(** ** Deleting a registration; deleting them all *)

Section delete_facts2.
Implicit Types (w : World).


End delete_facts2.

Section flush_facts.
Implicit Types (w : World) (l : list (string * Stored)).

Lemma callable_failing w w' v : failing w' = failing w → callable w' v = callable w v.
Proof. intros Hf. destruct v; try done. unfold callable, Stub.throws. by rewrite Hf. Qed.

Lemma flushOne_failing w entry : failing (RegistrationService.flushOne w entry) = failing w.
Proof.
  destruct entry as [key v]. unfold RegistrationService.flushOne.
  destruct (handleOf v) as [h|]; [|done].
  unfold Stub.deleteRegistration. destruct (Stub.throws w h); [done|].
  by destruct (RegistrationDO.deleteRegistration _).
Qed.

Lemma flushOne_storage w key v k :
  storage (RegistrationService.flushOne w (key, v)) !! k
  = if String.eqb key k && callable w v then None else storage w !! k.
Proof.
  unfold RegistrationService.flushOne, callable.
  destruct v as [h| |]; cbn [handleOf]; try by rewrite andb_false_r.
  unfold Stub.deleteRegistration. destruct (Stub.throws w h); [by rewrite andb_false_r|].
  destruct (RegistrationDO.deleteRegistration _) as [doc resp].
  cbn [negb storage with_storage Stub.setDoc with_registrationDocs]. rewrite andb_true_r.
  destruct (String.eqb_spec key k) as [->|Hne].
  - apply lookup_delete_eq.
  - by apply lookup_delete_ne.
Qed.

Lemma existsb_pointwise {A} (f g : A → bool) (l' : list A) :
  (∀ x, f x = g x) → existsb f l' = existsb g l'.
Proof. intros Hfg. induction l' as [|x l' IH]; simpl; [done|]. by rewrite Hfg, IH. Qed.

Lemma flush_storage l w k :
  storage (foldl RegistrationService.flushOne w l) !! k
  = if existsb (fun '(key, v) => String.eqb key k && callable w v) l
    then None else storage w !! k.
Proof.
  revert w. induction l as [|[key v] l IH]; intros w; [done|].
  cbn [foldl existsb]. rewrite IH, flushOne_storage.
  rewrite (existsb_pointwise _ (fun '(key, v) => String.eqb key k && callable w v)).
  - destruct (existsb _ l); [by rewrite orb_true_r|]. by rewrite orb_false_r.
  - intros [key' v']. by rewrite (callable_failing w) by apply flushOne_failing.
Qed.

Lemma flushOne_docs w key v h :
  callable w v = true → v = SHandle h →
  registrationDocs (RegistrationService.flushOne w (key, v)) !! h = None.
Proof.
  intros Hc ->. unfold RegistrationService.flushOne, callable in *. cbn [handleOf].
  unfold Stub.deleteRegistration. apply negb_true_iff in Hc. rewrite Hc.
  destruct (RegistrationDO.deleteRegistration _) as [doc resp] eqn:Hdel.
  assert (doc = None) as -> by (unfold RegistrationDO.deleteRegistration in Hdel;
                                by destruct (registrationDocs w !! h); simplify_eq).
  simpl. apply lookup_delete_eq.
Qed.

Lemma flushOne_docs_None w entry h :
  registrationDocs w !! h = None →
  registrationDocs (RegistrationService.flushOne w entry) !! h = None.
Proof.
  intros Hnone. destruct entry as [key v]. unfold RegistrationService.flushOne.
  destruct (handleOf v) as [h'|]; [|done].
  unfold Stub.deleteRegistration. destruct (Stub.throws w h'); [done|].
  destruct (RegistrationDO.deleteRegistration _) as [doc resp] eqn:Hdel.
  assert (doc = None) as -> by (unfold RegistrationDO.deleteRegistration in Hdel;
                                by destruct (registrationDocs w !! h'); simplify_eq).
  simpl. rewrite lookup_delete_None. by right.
Qed.

Lemma flush_docs l w key h :
  (key, SHandle h) ∈ l → Stub.throws w h = false →
  registrationDocs (foldl RegistrationService.flushOne w l) !! h = None.
Proof.
  revert w. induction l as [|entry l IH]; intros w Hin Hh; [by apply elem_of_nil in Hin|].
  simpl. apply elem_of_cons in Hin as [<-|Hin].
  - assert (registrationDocs (RegistrationService.flushOne w (key, SHandle h)) !! h = None)
      as Hnone by (apply (flushOne_docs w key _ h); [simpl; by rewrite Hh|done]).
    generalize dependent (RegistrationService.flushOne w (key, SHandle h)).
    clear. induction l as [|e l IH]; intros w Hnone; simpl; [done|].
    by apply IH, flushOne_docs_None.
  - apply IH; [done|]. unfold Stub.throws in *. by rewrite flushOne_failing.
Qed.

Lemma clear_lists_storage l (s : gmap string Stored) k :
  (foldl (fun s '(key, _) => <[key := SRegistrationIds []]> s) s l) !! k
  = if bool_decide (k ∈ l.*1) then Some (SRegistrationIds []) else s !! k.
Proof.
  revert s. induction l as [|[key v] l IH]; intros s; simpl; [done|].
  rewrite IH. destruct (decide (k ∈ l.*1)) as [Hin|Hnin].
  - rewrite !bool_decide_eq_true_2; [done|by right|done].
  - rewrite (bool_decide_eq_false_2 (k ∈ l.*1)) by done.
    destruct (decide (k = key)) as [->|Hne].
    + rewrite bool_decide_eq_true_2 by by left. apply lookup_insert_eq.
    + rewrite bool_decide_eq_false_2 by (rewrite not_elem_of_cons; done).
      by apply lookup_insert_ne.
Qed.

Lemma clear_lists_world l w :
  foldl (fun w '(key, _) => with_storage w (<[key := SRegistrationIds []]> (storage w))) w l
  = with_storage w (foldl (fun s '(key, _) => <[key := SRegistrationIds []]> s) (storage w) l).
Proof.
  revert w. induction l as [|[key v] l IH]; intros w; simpl; [by destruct w|].
  by rewrite IH.
Qed.

Lemma prefix_split p s : String.prefix p s = true → ∃ rest, s = p +:+ rest.
Proof.
  revert s. induction p as [|c p IH]; intros s.
  - intros _. by exists s.
  - destruct s as [|c' s]; [done|]. simpl. destruct (ascii_dec c c') as [->|]; [|done].
    intros [rest ->]%IH. by exists rest.
Qed.

(** The storage after a flush *)
Lemma flush_lookup now w k :
  storage (RegistrationService.flushAllRegistrations now w).2 !! k
  = match storage w !! k with
    | Some v =>
        if Js.startsWith k "trail_registrations:" then Some (SRegistrationIds [])
        else if Js.startsWith k "registration:" && callable w v then None
        else Some v
    | None => None
    end.
Proof.
  unfold RegistrationService.flushAllRegistrations. cbn [snd].
  rewrite invalidateAllCaches_storage, clear_lists_world. cbn [storage with_storage].
  rewrite clear_lists_storage, flush_storage.
  destruct (storage w !! k) as [v|] eqn:Hk.
  - destruct (Js.startsWith k "trail_registrations:") eqn:Ht.
    + rewrite bool_decide_eq_true_2; [done|].
      apply list_elem_of_fmap. exists (k, v). split; [done|]. by apply listing_elem_of.
    + rewrite bool_decide_eq_false_2.
      2:{ intros ([k' v'] & -> & Hin)%list_elem_of_fmap.
          apply listing_elem_of in Hin as [_ Hp]. simpl in *. congruence. }
      destruct (Js.startsWith k "registration:" && callable w v) eqn:Hr.
      * apply andb_prop in Hr as [Hp Hc].
        assert (existsb (fun '(key, v) => String.eqb key k && callable w v)
                        (Storage.listing "registration:" (storage w)) = true) as ->; [|done].
        apply existsb_exists. exists (k, v). split.
        { by apply list_elem_of_In, listing_elem_of. }
        by rewrite String.eqb_refl.
      * assert (existsb (fun '(key, v) => String.eqb key k && callable w v)
                        (Storage.listing "registration:" (storage w)) = false) as ->; [|done].
        apply not_true_is_false. intros ([k' v'] & Hin & Hkv)%existsb_exists.
        apply andb_prop in Hkv as [Heq Hc]. apply String.eqb_eq in Heq. subst k'.
        apply list_elem_of_In, listing_elem_of in Hin as [Hin Hp].
        assert (v' = v) as -> by congruence. by rewrite Hp, Hc in Hr.
  - rewrite bool_decide_eq_false_2.
    2:{ intros ([k' v'] & -> & Hin)%list_elem_of_fmap.
        apply listing_elem_of in Hin as [Hin _]. simpl in *. congruence. }
    by destruct (existsb _ _).
Qed.

(** X15.  The flush answers 200 and, in the manager's storage, removes the
    mapping of every registration whose actor could be called and keeps the
    others as they were; it replaces every trail's list of registrations
    by the empty list; the actors that were called hold no document any
    more.  When every mapped actor could be called, nothing is left to
    list: the next [getAllRegistrations] returns the empty list. *)
Theorem flush_empties now t w :
  let r := RegistrationService.flushAllRegistrations now w in
  status r.1 = 200
  ∧ (∀ key v, storage w !! key = Some v → Js.startsWith key "registration:" = true →
       storage r.2 !! key = if callable w v then None else Some v)
  ∧ (∀ key v, storage w !! key = Some v → Js.startsWith key "trail_registrations:" = true →
       storage r.2 !! key = Some (SRegistrationIds []))
  ∧ (∀ key h, storage w !! key = Some (SHandle h) → Js.startsWith key "registration:" = true →
       Stub.throws w h = false → registrationDocs r.2 !! h = None)
  ∧ ((∀ key v, storage w !! key = Some v → Js.startsWith key "registration:" = true →
        callable w v = true) →
     (RegistrationService.getAllRegistrations t r.2).1
     = Returned (mkResponse 200 (Some (CVRegistrations [])))).
Proof.
  intros r.
  assert (∀ key, Js.startsWith key "registration:" = true →
                 Js.startsWith key "trail_registrations:" = false) as Hdisj.
  { intros key [rest ->]%prefix_split. reflexivity. }
  assert (∀ key v, storage w !! key = Some v → Js.startsWith key "registration:" = true →
                   storage r.2 !! key = if callable w v then None else Some v) as Hreg.
  { intros key v Hk Hp. subst r. rewrite flush_lookup, Hk, (Hdisj key Hp), Hp. done. }
  split; [done|]. split; [exact Hreg|]. split; [|split].
  - intros key v Hk Hp. subst r. by rewrite flush_lookup, Hk, Hp.
  - intros key h Hk Hp Hh. subst r.
    unfold RegistrationService.flushAllRegistrations. cbn [snd].
    rewrite invalidateAllCaches_docs, clear_lists_world. cbn [registrationDocs with_storage].
    apply (flush_docs _ w key h); [|done]. by apply listing_elem_of.
  - intros Hall.
    assert (Storage.listing "registration:" (storage r.2) = []) as Hnone.
    { destruct (Storage.listing "registration:" (storage r.2)) as [|[k v] l] eqn:Hl; [done|].
      assert ((k, v) ∈ Storage.listing "registration:" (storage r.2)) as Hin
        by (rewrite Hl; by left).
      apply listing_elem_of in Hin as [Hk Hp]. subst r. rewrite flush_lookup in Hk.
      destruct (storage w !! k) as [v0|] eqn:Hk0; [|done].
      rewrite (Hdisj k Hp), Hp, (Hall k v0 Hk0 Hp) in Hk. done. }
    assert (cache r.2 !! "all-registrations" = None) as Hcache.
    { subst r. unfold RegistrationService.flushAllRegistrations. cbn [snd].
      unfold RegistrationService.invalidateAllCaches,
        RegistrationService.triggerAnalyticsAggregation.
      change (Js.falsy "") with true. cbv zeta.
      cbn [cache with_sched with_cache Manager.invalidateCache].
      rewrite !invalidateCache_lookup. reflexivity. }
    unfold RegistrationService.getAllRegistrations, Manager.getFromCache, TTLCache.getFromCache.
    rewrite Hcache. cbn [truthyValue storage with_cache]. by rewrite Hnone.
Qed.

End flush_facts.

(** ** The counts of a trail *)

Section trail_count_facts.
Implicit Types (w : World).

Lemma horseCountOf_eq w regId :
  TrailService.horseCountOf w regId = Returned (horsesOf w regId).
Proof.
  unfold TrailService.horseCountOf, horsesOf, Stub.getRegistration.
  destruct (Storage.getHandle _ _) as [h|]; [|done].
  destruct (Stub.throws w h); [done|].
  by destruct (registrationDocs w !! h).
Qed.

Lemma foldl_add_sum (l : list Z) acc :
  foldl (fun sum count => sum + count) acc l = acc + sumOf id l.
Proof.
  revert acc. induction l as [|x l IH]; intros acc; simpl; [lia|]. rewrite IH. unfold id. lia.
Qed.

Lemma sumBatches_eq w regBatches horseCount :
  TrailService.sumBatches w regBatches horseCount
  = Returned (horseCount + sumOf (horsesOf w) (concat regBatches)).
Proof.
  revert horseCount. induction regBatches as [|regBatch rest IH]; intros horseCount; simpl.
  - f_equal. lia.
  - rewrite (promiseAll_resolves (TrailService.horseCountOf w) (horsesOf w) _
               (horseCountOf_eq w)).
    simpl. rewrite IH, foldl_add_sum, sumOf_app, sumOf_map.
    change (fun x => id (horsesOf w x)) with (horsesOf w). f_equal. lia.
Qed.

Lemma horsesOf_frame w w' regId :
  sameActors w w' → storage w' = storage w → horsesOf w' regId = horsesOf w regId.
Proof.
  intros Hs Hst. unfold horsesOf. rewrite Hst.
  destruct (Storage.getHandle _ _) as [h'|]; [|done].
  rewrite <- (throws_sameActors w w' h' Hs). destruct Hs as (-> & _ & _). done.
Qed.

(** X16.  Reading one trail.  The registration count is the length of the
    trail's list in storage, whatever the cache holds.  The horse count,
    when the cache has none, is the sum over the list of the horse counts
    of the registrations (0 for one that is not mapped, cannot be read or
    has no document), however the list is cut into batches, and it is
    cached for two minutes; when the cache has one, that number is
    returned as it is, whatever the registrations now say.  This is for
    horse counts that the code adds exactly. *)
Theorem trail_counts trailId now w h d :
  Storage.getHandle ("trail:" +:+ trailId) (storage w) = Some h →
  Stub.throws w h = false →
  trailDocs w !! h = Some d →
  let ids := default [] (Storage.getRegistrationIds ("trail_registrations:" +:+ trailId)
                                                    (storage w)) in
  exactSums (horsesOf w) ids →
  let answer horses :=
    Returned (mkResponse 200
                (Some (mkTrail (trail_id d) (trail_name d) (trail_active d)
                               (Some (Z.of_nat (List.length ids))) horses))) in
  ((Manager.getFromCache ("trail-horse-count:" +:+ trailId) now w).1 = None →
     (TrailService.getTrail trailId now w).1 = answer (Some (sumOf (horsesOf w) ids))
     ∧ cache (TrailService.getTrail trailId now w).2 !! ("trail-horse-count:" +:+ trailId)
       = Some (TTLCache.mkEntry (CVNumber (sumOf (horsesOf w) ids)) (now + 2 * 60 * 1000)))
  ∧ (∀ n, (Manager.getFromCache ("trail-horse-count:" +:+ trailId) now w).1
          = Some (CVNumber n) →
          (TrailService.getTrail trailId now w).1 = answer (Some n)).
Proof.
  intros Hmap Hh Hd ids _ answer. subst answer.
  assert (Z.of_nat (List.length ids)
          = match Storage.getRegistrationIds ("trail_registrations:" +:+ trailId) (storage w) with
            | Some ids => Z.of_nat (List.length ids)
            | None => 0
            end) as Hlen.
  { subst ids. by destruct (Storage.getRegistrationIds _ _). }
  unfold TrailService.getTrail. rewrite Hmap. unfold Stub.getTrail. rewrite Hh, Hd.
  cbn [TrailDO.getTrail status json jsonOf]. rewrite Z.eqb_refl. cbn [jsonOf json].
  rewrite <- Hlen.
  pose proof (getFromCache_sameActors ("trail-horse-count:" +:+ trailId) now w) as [Hs Hst].
  destruct (Manager.getFromCache ("trail-horse-count:" +:+ trailId) now w) as [cached w1].
  cbn [fst snd] in *. split.
  - intros ->. rewrite sumBatches_eq, concat_toBatches. cbn [fst snd].
    assert (∀ id, horsesOf w1 id = horsesOf w id) as Hsame
      by (intros id; by apply horsesOf_frame).
    fold ids. replace (sumOf (horsesOf w1) ids) with (sumOf (horsesOf w) ids).
    2:{ clear -Hsame. induction ids as [|x l IH]; simpl; [done|]. by rewrite IH, Hsame. }
    split; [by rewrite Z.add_0_l|].
    cbn [cache with_cache Manager.setInCache]. unfold TTLCache.setInCache.
    rewrite lookup_insert_eq. by rewrite Z.add_0_l.
  - intros n ->. done.
Qed.

End trail_count_facts.

(** ** Trails: create, read, update, public information *)

Section trail_crud_facts.
Implicit Types (w : World).

Lemma invalidateAllTrailCaches_frame trailId w :
  storage (TrailService.invalidateAllTrailCaches trailId w) = storage w
  ∧ trailDocs (TrailService.invalidateAllTrailCaches trailId w) = trailDocs w
  ∧ registrationDocs (TrailService.invalidateAllTrailCaches trailId w) = registrationDocs w
  ∧ failing (TrailService.invalidateAllTrailCaches trailId w) = failing w
  ∧ sched (TrailService.invalidateAllTrailCaches trailId w) = sched w.
Proof. unfold TrailService.invalidateAllTrailCaches. by destruct (Js.falsy trailId). Qed.

Lemma invalidateAllTrailCaches_cache trailId w k :
  cache (TrailService.invalidateAllTrailCaches trailId w) !! k
  = if Js.startsWith k "all-trails" || Js.startsWith k "trails-name-map"
       || (negb (Js.falsy trailId)
           && (Js.startsWith k ("trail:" +:+ trailId)
               || Js.startsWith k ("trail-reg-count:" +:+ trailId)
               || Js.startsWith k ("trail-horse-count:" +:+ trailId)))
       || Js.startsWith k "summary-statistics" || Js.startsWith k "registrations:"
    then None else cache w !! k.
Proof.
  unfold TrailService.invalidateAllTrailCaches. cbv zeta.
  destruct (Js.falsy trailId); cbn [cache with_cache Manager.invalidateCache negb andb];
    rewrite !invalidateCache_lookup;
    repeat match goal with |- context [Js.startsWith k ?p] => destruct (Js.startsWith k p) end;
    done.
Qed.

(** What a create does when the new actor answers and holds nothing *)
Lemma createTrail_fresh data trailId h w :
  Stub.throws w h = false →
  trailDocs w !! h = None →
  let created :=
    mkTrail trailId (default "" (pt_name data)) (Some (default true (pt_active data)))
            (pt_registrationCount data) (pt_horseCount data) in
  TrailService.createTrail data trailId h w
  = (Returned (mkResponse 200 (Some created)),
     TrailService.invalidateAllTrailCaches ""
       (Stub.setTrailDoc
          (with_storage w (<["trail:" +:+ trailId := SHandle h]> (storage w)))
          h (Some created))).
Proof.
  intros Hh Hfresh created.
  unfold TrailService.createTrail, Stub.putTrail.
  assert (Stub.throws (with_storage w (<["trail:" +:+ trailId := SHandle h]> (storage w))) h
          = false) as -> by done.
  cbn [trailDocs with_storage]. rewrite Hfresh.
  unfold TrailDO.updateTrail. cbn [status]. rewrite Z.eqb_refl.
  assert (TrailDO.merge None
            (mkPartialTrail (Some trailId) (pt_name data) (pt_active data)
                            (pt_registrationCount data) (pt_horseCount data))
          = mkTrail trailId (default "" (pt_name data)) (pt_active data)
                    (pt_registrationCount data) (pt_horseCount data)) as ->.
  { unfold TrailDO.merge. simpl. f_equal; by destruct data as [? ? [?|] [?|] [?|]]. }
  cbn [trail_id trail_name trail_active trail_registrationCount trail_horseCount].
  assert (match pt_active data with Some b => Some b | None => Some true end
          = Some (default true (pt_active data))) as -> by (by destruct (pt_active data)).
  done.
Qed.

(** X17.  Create a trail, then read it.  With a fresh actor and a fresh
    id, the create answers 200 (the trail actor validates nothing) and the
    trail read back has the new id, the name of the body, [active] as given
    and otherwise [true], no registration and no horse. *)
Theorem create_trail_then_read data trailId h now w :
  Stub.throws w h = false →
  trailDocs w !! h = None →
  storage w !! ("trail_registrations:" +:+ trailId) = None →
  cache w !! ("trail-horse-count:" +:+ trailId) = None →
  let created :=
    mkTrail trailId (default "" (pt_name data)) (Some (default true (pt_active data)))
            (pt_registrationCount data) (pt_horseCount data) in
  let r := TrailService.createTrail data trailId h w in
  r.1 = Returned (mkResponse 200 (Some created))
  ∧ (TrailService.getTrail trailId now r.2).1
    = Returned (mkResponse 200
                  (Some (mkTrail trailId (default "" (pt_name data))
                                 (Some (default true (pt_active data))) (Some 0) (Some 0)))).
Proof.
  intros Hh Hfresh Hlist Hcache created r. subst r.
  rewrite (createTrail_fresh data trailId h w Hh Hfresh). fold created.
  cbn [fst snd]. split; [done|].
  set (w1 := TrailService.invalidateAllTrailCaches "" _).
  destruct (invalidateAllTrailCaches_frame ""
              (Stub.setTrailDoc
                 (with_storage w (<["trail:" +:+ trailId := SHandle h]> (storage w)))
                 h (Some created))) as (Hst & Htd & Hrd & Hf & _).
  fold w1 in Hst, Htd, Hrd, Hf.
  cbn [storage trailDocs registrationDocs failing Stub.setTrailDoc with_trailDocs with_storage]
    in Hst, Htd, Hrd, Hf.
  unfold TrailService.getTrail, Storage.getHandle. rewrite Hst, lookup_insert_eq.
  rewrite (throws_not_falsy w h Hh).
  unfold Stub.getTrail, Stub.throws. rewrite Hf, Htd, lookup_insert_eq.
  unfold Stub.throws in Hh. rewrite Hh.
  cbn [TrailDO.getTrail status json jsonOf]. rewrite Z.eqb_refl. cbn [jsonOf json].
  unfold Storage.getRegistrationIds.
  rewrite lookup_insert_ne by (by intros [=]). rewrite Hlist.
  unfold Manager.getFromCache, TTLCache.getFromCache.
  assert (cache w1 !! ("trail-horse-count:" +:+ trailId) = None) as ->.
  { subst w1. rewrite invalidateAllTrailCaches_cache. cbn [cache Stub.setTrailDoc with_trailDocs with_storage].
    rewrite Hcache. by destruct (_ || _). }
  cbn [default]. done.
Qed.

(** X18.  Public trail information is given for active trails only: an
    unknown trail is answered 404; a trail whose document is read is
    answered 403 unless its [active] field is [true] (so also when the
    field is missing), and otherwise 200 with the id, the name and
    [active], and without the counts the document may carry.  A trail that
    was just created is public unless its body said [active: false]: the
    actor makes a new trail active when the body does not say. *)
Theorem public_info_only_if_active trailId w :
  (Storage.getHandle ("trail:" +:+ trailId) (storage w) = None →
     TrailService.getPublicTrailInfo trailId w = Returned (mkResponse 404 None))
  ∧ (∀ h d,
      Storage.getHandle ("trail:" +:+ trailId) (storage w) = Some h →
      Stub.throws w h = false → trailDocs w !! h = Some d →
      TrailService.getPublicTrailInfo trailId w
      = Returned (if bool_decide (trail_active d = Some true)
                  then mkResponse 200
                         (Some (mkTrail (trail_id d) (trail_name d) (Some true) None None))
                  else mkResponse 403 None))
  ∧ ∀ data h,
      Stub.throws w h = false → trailDocs w !! h = None →
      TrailService.getPublicTrailInfo trailId (TrailService.createTrail data trailId h w).2
      = Returned (if default true (pt_active data)
                  then mkResponse 200
                         (Some (mkTrail trailId (default "" (pt_name data)) (Some true)
                                        None None))
                  else mkResponse 403 None).
Proof.
  assert (∀ w h d,
            Storage.getHandle ("trail:" +:+ trailId) (storage w) = Some h →
            Stub.throws w h = false → trailDocs w !! h = Some d →
            TrailService.getPublicTrailInfo trailId w
            = Returned (if bool_decide (trail_active d = Some true)
                        then mkResponse 200
                               (Some (mkTrail (trail_id d) (trail_name d) (Some true) None None))
                        else mkResponse 403 None)) as Hread.
  { intros w0 h d Hmap Hh Hd. unfold TrailService.getPublicTrailInfo, Stub.getTrail.
    rewrite Hmap, Hh, Hd. simpl. by destruct (trail_active d) as [[|]|]. }
  split; [|split].
  - intros Hmap. unfold TrailService.getPublicTrailInfo. by rewrite Hmap.
  - apply Hread.
  - intros data h Hh Hfresh.
    rewrite (createTrail_fresh data trailId h w Hh Hfresh). cbn [snd].
    set (created := mkTrail trailId _ _ _ _).
    set (w1 := TrailService.invalidateAllTrailCaches "" _).
    destruct (invalidateAllTrailCaches_frame ""
                (Stub.setTrailDoc
                   (with_storage w (<["trail:" +:+ trailId := SHandle h]> (storage w)))
                   h (Some created))) as (Hst & Htd & _ & Hf & _).
    fold w1 in Hst, Htd, Hf.
    cbn [storage trailDocs failing Stub.setTrailDoc with_trailDocs with_storage]
      in Hst, Htd, Hf.
    rewrite (Hread w1 h created).
    + subst created. cbn [trail_active trail_id trail_name].
      by destruct (pt_active data) as [[|]|].
    + unfold Storage.getHandle.
      by rewrite Hst, lookup_insert_eq, (throws_not_falsy w h Hh).
    + unfold Stub.throws in *. by rewrite Hf.
    + by rewrite Htd, lookup_insert_eq.
Qed.

(** X19.  Updating a trail refreshes the trail listings but not the
    analytics.  For a mapped trail whose actor answers, the update is
    never refused; afterwards the cached trail list and name map are gone,
    while the manager's storage (the stored snapshot included), the cached
    snapshot and the timers are as they were: no aggregation is
    scheduled. *)
Theorem trail_update_leaves_analytics trailId data w h :
  Storage.getHandle ("trail:" +:+ trailId) (storage w) = Some h →
  Stub.throws w h = false →
  let r := TrailService.updateTrail trailId data w in
  (∃ updated, r.1 = Returned (mkResponse 200 (Some updated))
              ∧ trailDocs r.2 !! h = Some updated)
  ∧ cache r.2 !! "all-trails" = None
  ∧ cache r.2 !! "trails-name-map" = None
  ∧ cache r.2 !! "analytics-data" = cache w !! "analytics-data"
  ∧ storage r.2 = storage w
  ∧ sched r.2 = sched w.
Proof.
  intros Hmap Hh r. subst r. unfold TrailService.updateTrail, Stub.putTrail.
  rewrite Hmap, Hh. unfold TrailDO.updateTrail. cbn [status]. rewrite Z.eqb_refl. cbn [fst snd].
  set (updated := if match trailDocs w !! h with None => true | Some _ => false end
                  then _ else _).
  destruct (invalidateAllTrailCaches_frame trailId (Stub.setTrailDoc w h (Some updated)))
    as (Hst & Htd & _ & _ & Hsched).
  split; [exists updated; split; [done|]; rewrite Htd; simpl; apply lookup_insert_eq|].
  rewrite !invalidateAllTrailCaches_cache.
  split; [done|]. split; [done|]. split; [|done].
  cbn [cache Stub.setTrailDoc with_trailDocs].
  assert (Js.startsWith "analytics-data" ("trail:" +:+ trailId) = false) as -> by done.
  assert (Js.startsWith "analytics-data" ("trail-reg-count:" +:+ trailId) = false) as -> by done.
  assert (Js.startsWith "analytics-data" ("trail-horse-count:" +:+ trailId) = false) as ->
    by done.
  by rewrite andb_false_r.
Qed.

End trail_crud_facts.

(** ** Deleting a trail *)

Section cascade_facts.
Implicit Types (w : World).

Lemma deleteOne_failing w regId : failing (TrailService.deleteOne w regId) = failing w.
Proof.
  unfold TrailService.deleteOne. destruct (Storage.getHandle _ _) as [h|]; [|done].
  unfold Stub.deleteRegistration. destruct (Stub.throws w h); [done|].
  by destruct (RegistrationDO.deleteRegistration _).
Qed.

Lemma deleteOne_trailDocs w regId : trailDocs (TrailService.deleteOne w regId) = trailDocs w.
Proof.
  unfold TrailService.deleteOne. destruct (Storage.getHandle _ _) as [h|]; [|done].
  unfold Stub.deleteRegistration. destruct (Stub.throws w h); [done|].
  by destruct (RegistrationDO.deleteRegistration _).
Qed.

Lemma deleteRegistration_actor doc : (RegistrationDO.deleteRegistration doc).1 = None.
Proof. by destruct doc. Qed.

(** One callback removes at most the mapping of its own registration. *)
Lemma deleteOne_storage w regId k :
  storage (TrailService.deleteOne w regId) !! k
  = if String.eqb k ("registration:" +:+ regId)
       && match Storage.getHandle ("registration:" +:+ regId) (storage w) with
          | Some h => negb (Stub.throws w h)
          | None => false
          end
    then None else storage w !! k.
Proof.
  unfold TrailService.deleteOne.
  destruct (Storage.getHandle _ _) as [h|]; [|by rewrite andb_false_r].
  unfold Stub.deleteRegistration. destruct (Stub.throws w h); [by rewrite andb_false_r|].
  destruct (RegistrationDO.deleteRegistration _) as [doc resp].
  cbn [negb storage with_storage Stub.setDoc with_registrationDocs]. rewrite andb_true_r.
  destruct (String.eqb_spec k ("registration:" +:+ regId)) as [->|Hne].
  - apply lookup_delete_eq.
  - by apply lookup_delete_ne.
Qed.

Lemma deleteOne_docs_None w regId h :
  registrationDocs w !! h = None →
  registrationDocs (TrailService.deleteOne w regId) !! h = None.
Proof.
  intros Hnone. unfold TrailService.deleteOne.
  destruct (Storage.getHandle _ _) as [h'|]; [|done].
  unfold Stub.deleteRegistration. destruct (Stub.throws w h'); [done|].
  pose proof (deleteRegistration_actor (registrationDocs w !! h')) as Hdoc.
  destruct (RegistrationDO.deleteRegistration _) as [doc resp]. simpl in Hdoc. subst doc.
  simpl. rewrite lookup_delete_None. by right.
Qed.

Lemma deleteOne_gone w regId h :
  Storage.getHandle ("registration:" +:+ regId) (storage w) = Some h →
  Stub.throws w h = false →
  storage (TrailService.deleteOne w regId) !! ("registration:" +:+ regId) = None
  ∧ registrationDocs (TrailService.deleteOne w regId) !! h = None.
Proof.
  intros Hmap Hh. split.
  - by rewrite deleteOne_storage, Hmap, Hh, String.eqb_refl.
  - unfold TrailService.deleteOne, Stub.deleteRegistration. rewrite Hmap, Hh.
    pose proof (deleteRegistration_actor (registrationDocs w !! h)) as Hdoc.
    destruct (RegistrationDO.deleteRegistration _) as [doc resp]. simpl in Hdoc. subst doc.
    simpl. apply lookup_delete_eq.
Qed.

Lemma cascade_None (l : list string) w k h :
  (storage w !! k = None → storage (foldl TrailService.deleteOne w l) !! k = None)
  ∧ (registrationDocs w !! h = None →
     registrationDocs (foldl TrailService.deleteOne w l) !! h = None).
Proof.
  revert w. induction l as [|id l IH]; intros w; [done|]. cbn [foldl]. split.
  - intros Hnone. apply IH. rewrite deleteOne_storage, Hnone. by destruct (_ && _).
  - intros Hnone. by apply IH, deleteOne_docs_None.
Qed.

Lemma cascade_gone (l : list string) w regId h :
  regId ∈ l →
  Storage.getHandle ("registration:" +:+ regId) (storage w) = Some h →
  Stub.throws w h = false →
  storage (foldl TrailService.deleteOne w l) !! ("registration:" +:+ regId) = None
  ∧ registrationDocs (foldl TrailService.deleteOne w l) !! h = None.
Proof.
  revert w. induction l as [|id l IH]; intros w Hin Hmap Hh; [by apply elem_of_nil in Hin|].
  cbn [foldl]. destruct (decide (id = regId)) as [->|Hne].
  - destruct (deleteOne_gone w regId h Hmap Hh) as [Hs Hd].
    split; by apply cascade_None.
  - apply elem_of_cons in Hin as [?|Hin]; [congruence|].
    apply IH; [done| |].
    + unfold Storage.getHandle in *. rewrite deleteOne_storage.
      destruct (String.eqb_spec ("registration:" +:+ regId) ("registration:" +:+ id)) as [Heq|];
        [|done].
      simpl in Heq. by simplify_eq.
    + unfold Stub.throws in *. by rewrite deleteOne_failing.
Qed.

Lemma cascade_frame (l : list string) w :
  failing (foldl TrailService.deleteOne w l) = failing w
  ∧ trailDocs (foldl TrailService.deleteOne w l) = trailDocs w.
Proof.
  revert w. induction l as [|id l IH]; intros w; [done|]. cbn [foldl].
  destruct (IH (TrailService.deleteOne w id)) as [-> ->].
  by rewrite deleteOne_failing, deleteOne_trailDocs.
Qed.

Lemma batches_fold {A} (f : World → A → World) (batches : list (list A)) w :
  foldl (fun w batch => foldl f w batch) w batches = foldl f w (concat batches).
Proof.
  revert w. induction batches as [|b bs IH]; intros w; simpl; [done|].
  by rewrite IH, foldl_app.
Qed.

(** X20.  Deleting a trail cascades.  For a mapped trail whose actor
    answers, the answer is the actor's (200, or 404 when it holds no
    document); afterwards the mapping of the trail and its document are
    gone, and so are the mapping and the document of every registration of
    its list whose actor could be called, and the list itself when it was
    not empty. *)
Theorem delete_trail_cascades malformed trailId w h :
  Storage.getHandle ("trail:" +:+ trailId) (storage w) = Some h →
  Stub.throws w h = false →
  let ids := default [] (Storage.getRegistrationIds ("trail_registrations:" +:+ trailId)
                                                    (storage w)) in
  let r := TrailService.deleteTrail malformed trailId w in
  r.1 = Returned (TrailDO.deleteTrail (trailDocs w !! h)).2
  ∧ storage r.2 !! ("trail:" +:+ trailId) = None
  ∧ trailDocs r.2 !! h = None
  ∧ (ids ≠ [] → storage r.2 !! ("trail_registrations:" +:+ trailId) = None)
  ∧ ∀ regId hr,
      regId ∈ ids →
      Storage.getHandle ("registration:" +:+ regId) (storage w) = Some hr →
      Stub.throws w hr = false →
      storage r.2 !! ("registration:" +:+ regId) = None
      ∧ registrationDocs r.2 !! hr = None.
Proof.
  intros Hmap Hh ids r. subst r. unfold TrailService.deleteTrail.
  rewrite Hmap, Hh, andb_false_r.
  set (w1 := match Storage.getRegistrationIds _ _ with Some (_ :: _) => _ | _ => w end).
  assert (failing w1 = failing w ∧ trailDocs w1 = trailDocs w) as [Hf1 Htd1].
  { subst w1. destruct (Storage.getRegistrationIds _ _) as [[|id l]|]; try done.
    rewrite batches_fold, concat_toBatches. cbn [failing trailDocs with_storage].
    apply cascade_frame. }
  assert (ids ≠ [] → storage w1 !! ("trail_registrations:" +:+ trailId) = None) as Hlist.
  { subst w1 ids. destruct (Storage.getRegistrationIds _ _) as [[|id l]|]; try done.
    intros _. cbn [storage with_storage]. apply lookup_delete_eq. }
  assert (∀ regId hr, regId ∈ ids →
            Storage.getHandle ("registration:" +:+ regId) (storage w) = Some hr →
            Stub.throws w hr = false →
            storage w1 !! ("registration:" +:+ regId) = None
            ∧ registrationDocs w1 !! hr = None) as Hregs.
  { intros regId hr Hin Hr Hhr. subst w1 ids.
    destruct (Storage.getRegistrationIds _ _) as [[|id l]|];
      try by apply elem_of_nil in Hin.
    rewrite batches_fold, concat_toBatches.
    cbn [storage registrationDocs with_storage default] in *.
    destruct (cascade_gone (id :: l) w regId hr Hin Hr Hhr) as [Hs Hd].
    split; [|done]. rewrite lookup_delete_None. by right. }
  set (w2 := with_storage w1 (delete ("trail:" +:+ trailId) (storage w1))).
  unfold Stub.deleteTrail.
  assert (Stub.throws w2 h = false) as -> by (unfold Stub.throws in *; subst w2; simpl; by rewrite Hf1).
  assert (trailDocs w2 !! h = trailDocs w !! h) as -> by (subst w2; simpl; by rewrite Htd1).
  pose proof (eq_refl (TrailDO.deleteTrail (trailDocs w !! h))) as Hdel.
  destruct (TrailDO.deleteTrail (trailDocs w !! h)) as [doc resp] eqn:Hdel' in Hdel at 1 |- * at 1.
  assert (doc = None) as -> by (unfold TrailDO.deleteTrail in Hdel'; by destruct (trailDocs w !! h); simplify_eq).
  cbn [fst snd]. rewrite Hdel'. cbn [snd]. split; [done|].
  set (w3 := if status resp =? 200 then _ else _).
  assert (storage w3 = storage w2 ∧ trailDocs w3 = delete h (trailDocs w2)
          ∧ registrationDocs w3 = registrationDocs w2) as (Hs3 & Ht3 & Hr3).
  { subst w3. destruct (status resp =? 200); [|done].
    destruct (invalidateAllTrailCaches_frame "" (Stub.setTrailDoc w2 h None))
      as (-> & -> & -> & _). done. }
  rewrite Hs3, Ht3, Hr3. subst w2. cbn [storage registrationDocs trailDocs with_storage].
  split; [apply lookup_delete_eq|]. split; [apply lookup_delete_eq|]. split.
  - intros Hne. rewrite lookup_delete_None. right. by apply Hlist.
  - intros regId hr Hin Hr Hhr. destruct (Hregs regId hr Hin Hr Hhr) as [Hs Hd].
    split; [|done]. rewrite lookup_delete_None. by right.
Qed.

End cascade_facts.

(** ** Reading the analytics *)

Section analytics_facts.
Context (E : DateEnv).
Implicit Types (w : World).

(** X21.  Reading the analytics returns what the aggregation computed.
    Right after an aggregation at time [now], and at any later time with
    nothing in between (from the cache for ten minutes, from storage after
    that), [getAnalytics] answers the snapshot of that aggregation; and on
    an instance with no snapshot at all it runs the aggregation itself,
    answers its snapshot and leaves it stored. *)
Theorem analytics_after_aggregation now t w :
  ∃ g, Statistics.groupAll E w = Returned g
       ∧ (Statistics.getAnalytics E t (Statistics.aggregateAnalytics E now w)).1
         = mkResponse 200 (Some (CVAnalytics (mkAnalytics g (toISOString E now))))
       ∧ (truthyValue (Manager.getFromCache "analytics-data" now w).1 = None →
          Storage.getAnalytics "analytics:data" (storage w) = None →
          (Statistics.getAnalytics E now w).1
          = mkResponse 200 (Some (CVAnalytics (mkAnalytics g (toISOString E now))))
          ∧ Storage.getAnalytics "analytics:data" (storage (Statistics.getAnalytics E now w).2)
            = Some (mkAnalytics g (toISOString E now))).
Proof.
  destruct (groupAll_returns E w) as [g Hg]. exists g. split; [done|].
  set (a := mkAnalytics g (toISOString E now)).
  assert (∀ w0, Statistics.groupAll E w0 = Returned g →
            cache (Statistics.aggregateAnalytics E now w0) !! "analytics-data"
            = Some (TTLCache.mkEntry (CVAnalytics a) (now + 10 * 60 * 1000))
            ∧ Storage.getAnalytics "analytics:data"
                (storage (Statistics.aggregateAnalytics E now w0)) = Some a) as Hagg.
  { intros w0 Hg0. rewrite (aggregateAnalytics_eq E now w0 g Hg0). split.
    - cbn [cache Manager.setInCache with_cache]. unfold TTLCache.setInCache.
      by rewrite lookup_insert_eq.
    - unfold Storage.getAnalytics. cbn [storage Manager.setInCache with_cache with_storage].
      by rewrite lookup_insert_eq. }
  split.
  - destruct (Hagg w Hg) as [Hc Hs].
    unfold Statistics.getAnalytics, Manager.getFromCache, TTLCache.getFromCache.
    rewrite Hc. cbn [TTLCache.expires TTLCache.data].
    destruct (now + 10 * 60 * 1000 <? t); cbn [truthyValue truthy storage with_cache].
    + by rewrite Hs.
    + done.
  - intros Hmiss Hnone.
    pose proof (getFromCache_sameActors "analytics-data" now w) as [Hsame Hst].
    unfold Statistics.getAnalytics.
    destruct (Manager.getFromCache "analytics-data" now w) as [cached w1].
    cbn [fst snd] in *. rewrite Hmiss, Hst, Hnone.
    assert (Statistics.groupAll E w1 = Returned g) as Hg1.
    { rewrite <- Hg. symmetry. apply groupAll_ext; [done|by rewrite Hst..]. }
    destruct (Hagg w1 Hg1) as [_ Hs]. rewrite Hs. cbn [fst snd]. split; [done|].
    unfold Storage.getAnalytics in *. cbn [storage Manager.setInCache with_cache]. exact Hs.
Qed.

Lemma putRegistration_storage nowIso w h data :
  storage (Stub.putRegistration nowIso w h data).2 = storage w.
Proof.
  unfold Stub.putRegistration. destruct (Stub.throws w h); [done|].
  by destruct (RegistrationDO.updateRegistration _ _ _).
Qed.

Lemma update_storage nowIso registrationId data now w :
  storage (RegistrationService.updateRegistration nowIso registrationId data now w).2
  = storage w.
Proof.
  unfold RegistrationService.updateRegistration.
  destruct (Storage.getHandle _ _) as [h|]; [|done].
  destruct (Stub.getRegistration w h) as [o|]; [|done].
  pose proof (putRegistration_storage nowIso w h data) as Hs.
  destruct (Stub.putRegistration nowIso w h data) as [[r|] w1]; cbn [snd] in Hs |- *; [|done].
  destruct (status r =? 200); cbn [snd]; [|done].
  repeat case_match; rewrite ?invalidateAllCaches_storage; done.
Qed.

(** X22.  After a registration was updated, and until the aggregation that
    the update triggers has run, the analytics are the snapshot stored
    before the update: the update clears the cached snapshot, not the
    stored one, and [getAnalytics] falls back to it. *)
Theorem analytics_stale_until_aggregation nowIso registrationId data now t w a :
  validUpdate w registrationId data →
  Storage.getAnalytics "analytics:data" (storage w) = Some a →
  (Statistics.getAnalytics E t
     (RegistrationService.updateRegistration nowIso registrationId data now w).2).1
  = mkResponse 200 (Some (CVAnalytics a)).
Proof.
  intros Hvalid Hstored.
  destruct (updateRegistration_invalidates nowIso registrationId data now w Hvalid)
    as (response & trailId & w' & Hupd & _).
  pose proof (update_storage nowIso registrationId data now w) as Hst.
  rewrite Hupd in Hst |- *. cbn [snd] in *.
  assert (cache (RegistrationService.invalidateAllCaches trailId now w') !! "analytics-data"
          = None) as Hc.
  { unfold RegistrationService.invalidateAllCaches,
      RegistrationService.triggerAnalyticsAggregation.
    cbv zeta. destruct (Js.falsy trailId);
      cbn [cache with_sched with_cache Manager.invalidateCache];
      rewrite !invalidateCache_lookup; reflexivity. }
  unfold Statistics.getAnalytics, Manager.getFromCache, TTLCache.getFromCache.
  rewrite Hc. cbn [truthyValue storage with_cache]. by rewrite Hst, Hstored.
Qed.

End analytics_facts.

(** ** The items of the paginated view *)

Section view_filter_facts.
Context (E : DateEnv).
Implicit Types (w : World) (tf sd ed tz : string).

Lemma or_else_truthy s d : Js.falsy d = false → Js.falsy (Js.or_else s d) = false.
Proof. intros Hd. unfold Js.or_else. by destruct (Js.falsy s) eqn:Hs. Qed.

Lemma or_elseZ_nonzero n d : d ≠ 0 → Js.or_elseZ n d ≠ 0.
Proof. intros Hd. unfold Js.or_elseZ. by destruct (Z.eqb_spec n 0). Qed.

Lemma tableItem_filtered w trailsMap tf sd ed tz entry item :
  catchNull (Statistics.tableItemBody E w trailsMap tf sd ed tz entry) = Some item →
  passesFilters tf sd ed item.
Proof.
  destruct entry as [key id]. unfold Statistics.tableItemBody, passesFilters.
  destruct id as [h| |]; try done. destruct h as [|c h]; [done|].
  cbn [mbind Outcome_bind handleOf].
  destruct (Stub.getRegistration w (String c h)) as [resp|];
    cbn [mbind Outcome_bind catchNull]; [|done].
  destruct (status resp =? 200); cbn [mret Outcome_ret catchNull]; [|done].
  destruct (jsonOf resp) as [regData|]; cbn [mbind Outcome_bind catchNull]; [|done].
  match goal with
  | |- context [mbind _ ?o] => generalize o
  end.
  intros [regDate0|]; cbn [mbind Outcome_bind catchNull]; [|done].
  set (regDate := if negb (Js.falsy tz) && negb (Js.falsy (reg_timestamp regData))
                  then _ else _).
  set (trailName := if Js.falsy (reg_trailId regData) then _ else _).
  assert (Js.falsy trailName = false) as Hname
    by (subst trailName; destruct (Js.falsy (reg_trailId regData)); [done|];
        by apply or_else_truthy).
  destruct (negb (Js.falsy sd) && String.ltb regDate sd) eqn:Hlo;
    cbn [mret Outcome_ret catchNull]; [done|].
  destruct (negb (Js.falsy ed) && String.ltb ed regDate) eqn:Hhi;
    cbn [mret Outcome_ret catchNull]; [done|].
  destruct (negb (Js.falsy tf) && negb (String.eqb trailName tf)) eqn:Htf;
    cbn [mret Outcome_ret catchNull]; [done|].
  intros [= <-]. cbn [item_date item_trail item_horseCount].
  split; [intros Hsd; by rewrite Hsd in Hlo|].
  split; [intros Hed; by rewrite Hed in Hhi|].
  split; [|split; [by apply or_elseZ_nonzero|done]].
  intros Hf. rewrite Hf in Htf. cbn [negb andb] in Htf.
  apply negb_false_iff in Htf. by apply String.eqb_eq.
Qed.

End view_filter_facts.

Section slice_facts.
Context {A : Type}.
Implicit Types (l : list A).

Lemma slice_elem_of s e l x : x ∈ Statistics.slice s e l → x ∈ l.
Proof.
  unfold Statistics.slice. intros Hx.
  eapply elem_of_sublist; [exact Hx|]. etrans; [apply sublist_take|apply sublist_drop].
Qed.

Lemma slice_sorted (R : relation A) s e l :
  StronglySorted R l → StronglySorted R (Statistics.slice s e l).
Proof.
  unfold Statistics.slice. cbv zeta. intros Hs.
  generalize (Z.to_nat (Statistics.relIndex (Z.of_nat (length l)) e
                        - Statistics.relIndex (Z.of_nat (length l)) s)).
  generalize (Z.to_nat (Statistics.relIndex (Z.of_nat (length l)) s)).
  intros from n.
  rewrite <- (take_drop from l) in Hs. apply StronglySorted_app_1_r in Hs.
  rewrite <- (take_drop n (drop from l)) in Hs. by apply StronglySorted_app_1_l in Hs.
Qed.

End slice_facts.

Lemma compare_le_trans a b c :
  String.compare a b ≠ Gt → String.compare b c ≠ Gt → String.compare a c ≠ Gt.
Proof.
  destruct (String.compare a b) eqn:Hab; [| |done]; intros _.
  - apply String.compare_eq_iff in Hab. by subst b.
  - destruct (String.compare b c) eqn:Hbc; [| |done]; intros _.
    + apply String.compare_eq_iff in Hbc. subst c. by rewrite Hab.
    + by rewrite (compare_lt_trans a b c Hab Hbc).
Qed.

Section newest_first.
Implicit Types (l : list RegistrationTableItem) (x : RegistrationTableItem).

Lemma insert_newestFirst x l :
  StronglySorted notOlder l → StronglySorted notOlder (Js.sort_insert Statistics.newestFirst x l).
Proof.
  intros Hs. induction Hs as [|y l Hs IH Hy]; simpl.
  - repeat constructor.
  - destruct (Statistics.newestFirst y x) eqn:Hc.
    + constructor; [done|]. rewrite sort_insert_Permutation. constructor; [|done].
      unfold notOlder, Statistics.newestFirst, Js.localeCompare in *. by rewrite Hc.
    + constructor; [done|]. rewrite sort_insert_Permutation. constructor; [|done].
      unfold notOlder, Statistics.newestFirst, Js.localeCompare in *. by rewrite Hc.
    + assert (notOlder x y) as Hxy.
      { unfold notOlder, Statistics.newestFirst, Js.localeCompare in *.
        rewrite String.compare_antisym, Hc. done. }
      constructor; [by constructor|]. constructor; [done|].
      eapply Forall_impl; [exact Hy|]. intros z Hz.
      unfold notOlder in *. by eapply compare_le_trans.
Qed.

Lemma sort_newestFirst l : StronglySorted notOlder (Js.sort Statistics.newestFirst l).
Proof.
  unfold Js.sort. generalize (@nil RegistrationTableItem) (SSorted_nil notOlder).
  induction l as [|x l IH]; intros acc Hacc; simpl; [done|].
  by apply IH, insert_newestFirst.
Qed.

End newest_first.

Section view_theorems.
Context (E : DateEnv).
Implicit Types (w : World) (tf sd ed tz : string).

(** X23.  A view that is computed (the cache has none for its key) obeys
    the filters it echoes: every item's date is not below the start date
    and not above the end date, when these are given, and its trail name is
    the trail filter, when that is given; and every item has a trail name
    and a horse count that is not 0.  This is for registrations whose trail
    id is not the name of a property that the name map, a plain object,
    inherits. *)
Theorem view_obeys_filters page limit tf sd ed tz now w :
  map_Forall (fun _ d => ordinaryKey (reg_trailId d) = true) (registrationDocs w) →
  truthyValue (Manager.getFromCache
                 (Statistics.cacheKey (Statistics.clampPage page) (Statistics.clampLimit limit)
                                      tf sd ed tz) now w).1 = None →
  ∃ view w',
    Statistics.getRegistrationData E page limit tf sd ed tz now w
    = (Returned (mkResponse 200 (Some (CVView view))), w')
    ∧ view_filters view = mkFilters tf sd ed tz
    ∧ Forall (passesFilters tf sd ed) (view_data view).
Proof.
  intros _ Hmiss.
  destruct (getRegistrationData_miss E page limit tf sd ed tz now w Hmiss)
    as (trailsMap & w1 & Hres & _).
  cbv zeta in Hres. eexists _, _. split; [exact Hres|]. split; [done|].
  apply Forall_forall. intros item Hitem.
  unfold Statistics.paginate in Hitem. cbn [view_data] in Hitem.
  apply slice_elem_of in Hitem. rewrite sort_Permutation in Hitem.
  apply list_elem_of_omap in Hitem as (entry & _ & Hentry).
  by eapply tableItem_filtered.
Qed.

(** X24.  A view that is computed lists the newest registrations first:
    no item of a page has a timestamp above that of an item before it, the
    timestamps being compared as strings.  This is for registrations whose
    timestamp is missing or written as [toISOString] writes it, on which
    [localeCompare] orders as the code units do. *)
Theorem view_newest_first page limit tf sd ed tz now w :
  map_Forall (fun _ d => reg_timestamp d = "" ∨ isoTimestamp (reg_timestamp d) = true)
             (registrationDocs w) →
  truthyValue (Manager.getFromCache
                 (Statistics.cacheKey (Statistics.clampPage page) (Statistics.clampLimit limit)
                                      tf sd ed tz) now w).1 = None →
  ∃ view w',
    Statistics.getRegistrationData E page limit tf sd ed tz now w
    = (Returned (mkResponse 200 (Some (CVView view))), w')
    ∧ StronglySorted notOlder (view_data view).
Proof.
  intros _ Hmiss.
  destruct (getRegistrationData_miss E page limit tf sd ed tz now w Hmiss)
    as (trailsMap & w1 & Hres & _).
  cbv zeta in Hres. eexists _, _. split; [exact Hres|].
  unfold Statistics.paginate. cbn [view_data].
  apply slice_sorted, sort_newestFirst.
Qed.

End view_theorems.

(** ** Routing *)

Section routing_facts.
Import Routing.

Lemma substring_all s : String.substring 0 (String.length s) s = s.
Proof. induction s as [|c s IH]; [done|]. simpl. by rewrite IH. Qed.

Lemma substringFrom_api s : Js.substringFrom 4 ("/api" +:+ s) = s.
Proof. unfold Js.substringFrom. simpl. rewrite Nat.sub_0_r. apply substring_all. Qed.

Lemma split_noSlash s : noSlash s = true → split "/" s = [s].
Proof.
  unfold noSlash. induction s as [|c s IH]; [done|]. simpl.
  intros [Hc Hs]%andb_prop. rewrite (IH Hs).
  by destruct (Ascii.eqb c "/").
Qed.

Lemma split_app_slash a s :
  noSlash a = true → split "/" (a +:+ String "/" s) = a :: split "/" s.
Proof.
  unfold noSlash. induction a as [|c a IH]; [done|]. simpl.
  intros [Hc Hs]%andb_prop. rewrite (IH Hs).
  by destruct (Ascii.eqb c "/").
Qed.

Lemma public_trail_route method rest :
  isPublic (TrailService.handleRequest method ("/public/" +:+ rest)) = true.
Proof.
  unfold TrailService.handleRequest.
  change (String.eqb ("/public/" +:+ rest) "/trails") with false. cbn [andb].
  destruct (Js.startsWith _ "/public/trails/" && _); [done|].
  destruct (getIdFromPath _) as [trailId|]; [|done].
  destruct (Js.falsy trailId); [done|].
  change (String.eqb ("/public/" +:+ rest) ("/trails/" +:+ trailId)) with false.
  change (String.eqb ("/public/" +:+ rest) ("/trails/" +:+ trailId +:+ "/registrations"))
    with false.
  change (String.eqb ("/public/" +:+ rest) ("/trails/" +:+ trailId +:+ "/generate-qr"))
    with false.
  done.
Qed.

Lemma public_registration_route method rest :
  isPublic (RegistrationService.handleRequest method ("/public/" +:+ rest)) = true.
Proof.
  unfold RegistrationService.handleRequest.
  destruct (String.eqb _ "/public/registrations" && _); [done|].
  change (String.eqb ("/public/" +:+ rest) "/registrations") with false.
  change (String.eqb ("/public/" +:+ rest) "/registrations/flush-all") with false.
  cbn [andb].
  destruct (getIdFromPath _) as [registrationId|]; [|done].
  destruct (Js.falsy registrationId); [done|].
  change (String.eqb ("/public/" +:+ rest) ("/registrations/" +:+ registrationId)) with false.
  done.
Qed.

(** X25.  A request without a verified user reaches no operation but the
    public ones: it is answered by the creation of a registration, by the
    public information on a trail, by the web application's pages or by a
    bare status (401 for every other path under [/api/]). *)
Theorem unauthenticated_reaches_public_only method pathname isSecurityTest :
  isPublic (App.fetch method pathname false isSecurityTest) = true.
Proof.
  unfold App.fetch, App.isProtectedApiRoute.
  destruct (Js.startsWith pathname "/api/") eqn:Hapi.
  - destruct (Js.startsWith pathname "/api/public/") eqn:Hpub.
    + apply prefix_split in Hpub as [rest ->].
      change (Js.startsWith ("/api/public/" +:+ rest) "/api/admin/") with false.
      cbn [orb andb negb].
      unfold TrailManagerDO.fetch.
      change (Js.startsWith ("/api/public/" +:+ rest) "/api/") with true. cbv iota.
      change ("/api/public/" +:+ rest) with ("/api" +:+ ("/public/" +:+ rest)).
      rewrite substringFrom_api.
      destruct (Js.startsWith _ "/public/trails"); [apply public_trail_route|].
      destruct (Js.startsWith _ "/public/registrations"); [apply public_registration_route|].
      done.
    + by rewrite orb_true_r.
  - by destruct (Js.startsWith pathname "/admin" && isSecurityTest).
Qed.

(** X26.  Under [/api/registrations/] a path segment is the registration
    the request acts on: GET reads it, PUT updates it and DELETE deletes
    it, for a verified user; the segment [flush-all] is the exception for
    DELETE, which then deletes every registration. *)
Theorem registration_routes id isSecurityTest :
  id ≠ "" → noSlash id = true →
  App.fetch "GET" ("/api/registrations/" +:+ id) true isSecurityTest = GetRegistration id
  ∧ App.fetch "PUT" ("/api/registrations/" +:+ id) true isSecurityTest = UpdateRegistration id
  ∧ App.fetch "DELETE" ("/api/registrations/" +:+ id) true isSecurityTest
    = if String.eqb id "flush-all" then FlushAllRegistrations else DeleteRegistration id.
Proof.
  intros Hid Hns.
  assert (getIdFromPath ("/registrations/" +:+ id) = Some id) as Hget.
  { unfold getIdFromPath.
    change ("/registrations/" +:+ id) with ("" +:+ String "/" ("registrations" +:+ String "/" id)).
    rewrite split_app_slash by done. rewrite split_app_slash by done.
    by rewrite split_noSlash. }
  assert (Js.falsy id = false) as Hf.
  { unfold Js.falsy. by apply String.eqb_neq. }
  assert (∀ m, App.fetch m ("/api/registrations/" +:+ id) true isSecurityTest
               = RegistrationService.handleRequest m ("/registrations/" +:+ id)) as Hfetch.
  { intros m. unfold App.fetch, TrailManagerDO.fetch.
    change (Js.startsWith ("/api/registrations/" +:+ id) "/api/") with true. cbv iota.
    rewrite andb_false_r.
    change ("/api/registrations/" +:+ id) with ("/api" +:+ ("/registrations/" +:+ id)).
    by rewrite substringFrom_api. }
  rewrite !Hfetch. unfold RegistrationService.handleRequest. rewrite Hget, Hf.
  rewrite !String.eqb_refl.
  change (String.eqb ("/registrations/" +:+ id) "/public/registrations") with false.
  assert (String.eqb ("/registrations/" +:+ id) "/registrations" = false) as ->
    by reflexivity.
  change (String.eqb ("/registrations/" +:+ id) "/registrations/flush-all")
    with (String.eqb id "flush-all").
  cbn [andb]. repeat split; destruct (String.eqb id "flush-all"); reflexivity.
Qed.

Lemma eqb_app_longer s t : t ≠ "" → String.eqb s (s +:+ t) = false.
Proof.
  intros Ht. induction s as [|c s IH]; [by destruct t|].
  simpl. by rewrite Ascii.eqb_refl.
Qed.

Lemma eqb_app_same p s t : String.eqb (p +:+ s) (p +:+ t) = String.eqb s t.
Proof. induction p as [|c p IH]; [done|]. simpl. by rewrite Ascii.eqb_refl. Qed.

(** X27.  Under [/api/trails/] a path segment is the trail the request
    acts on, for a verified user: GET, PUT and DELETE on the segment read,
    update and delete the trail; GET on [<segment>/registrations] lists its
    registrations and POST on [<segment>/generate-qr] makes its QR code. *)
Theorem trail_routes id isSecurityTest :
  id ≠ "" → noSlash id = true →
  App.fetch "GET" ("/api/trails/" +:+ id) true isSecurityTest = GetTrail id
  ∧ App.fetch "PUT" ("/api/trails/" +:+ id) true isSecurityTest = UpdateTrail id
  ∧ App.fetch "DELETE" ("/api/trails/" +:+ id) true isSecurityTest = DeleteTrail id
  ∧ App.fetch "GET" ("/api/trails/" +:+ id +:+ "/registrations") true isSecurityTest
    = GetTrailRegistrations id
  ∧ App.fetch "POST" ("/api/trails/" +:+ id +:+ "/generate-qr") true isSecurityTest
    = GenerateTrailQRCode id.
Proof.
  intros Hid Hns.
  assert (∀ suffix, getIdFromPath ("/trails/" +:+ id +:+ String "/" suffix) = Some id)
    as Hget'.
  { intros suffix. unfold getIdFromPath.
    change ("/trails/" +:+ id +:+ String "/" suffix)
      with ("" +:+ String "/" ("trails" +:+ String "/" (id +:+ String "/" suffix))).
    rewrite !split_app_slash by done.
    by destruct (split "/" suffix). }
  assert (getIdFromPath ("/trails/" +:+ id) = Some id) as Hget.
  { unfold getIdFromPath.
    change ("/trails/" +:+ id) with ("" +:+ String "/" ("trails" +:+ String "/" id)).
    rewrite !split_app_slash by done. by rewrite split_noSlash. }
  assert (Js.falsy id = false) as Hf.
  { unfold Js.falsy. by apply String.eqb_neq. }
  assert (∀ m rest, App.fetch m ("/api/trails/" +:+ rest) true isSecurityTest
                    = TrailService.handleRequest m ("/trails/" +:+ rest)) as Hfetch.
  { intros m rest. unfold App.fetch, TrailManagerDO.fetch.
    change (Js.startsWith ("/api/trails/" +:+ rest) "/api/") with true. cbv iota.
    rewrite andb_false_r.
    change ("/api/trails/" +:+ rest) with ("/api" +:+ ("/trails/" +:+ rest)).
    by rewrite substringFrom_api. }
  rewrite !Hfetch. unfold TrailService.handleRequest.
  rewrite Hget, !Hget', Hf.
  change (Js.startsWith ("/trails/" +:+ id) "/public/trails/") with false.
  change (Js.startsWith ("/trails/" +:+ id +:+ "/registrations") "/public/trails/") with false.
  change (Js.startsWith ("/trails/" +:+ id +:+ "/generate-qr") "/public/trails/") with false.
  assert (String.eqb ("/trails/" +:+ id) "/trails" = false) as -> by reflexivity.
  assert (String.eqb ("/trails/" +:+ id +:+ "/registrations") "/trails" = false) as ->
    by reflexivity.
  assert (String.eqb ("/trails/" +:+ id +:+ "/generate-qr") "/trails" = false) as ->
    by reflexivity.
  rewrite !String.eqb_refl. cbn [andb].
  assert (String.eqb ("/trails/" +:+ id +:+ "/registrations") ("/trails/" +:+ id) = false)
    as ->.
  { rewrite String.eqb_sym. rewrite (eqb_app_same "/trails/"). by apply eqb_app_longer. }
  assert (String.eqb ("/trails/" +:+ id +:+ "/generate-qr") ("/trails/" +:+ id) = false)
    as ->.
  { rewrite String.eqb_sym. rewrite (eqb_app_same "/trails/"). by apply eqb_app_longer. }
  assert (String.eqb ("/trails/" +:+ id +:+ "/generate-qr")
                     ("/trails/" +:+ id +:+ "/registrations") = false) as ->.
  { rewrite (eqb_app_same "/trails/"), (eqb_app_same id). reflexivity. }
  repeat split; reflexivity.
Qed.

End routing_facts.

(** ** The properties above, on the sample data *)

Lemma pages_partition_witness :
  1 ≤ 2
  ∧ concat (map (fun p : nat =>
                   view_data (Statistics.paginate (Some (Z.of_nat p)) (Some 2) "" "" "" "UTC"
                                                  Examples.items))
                (seq 1 (Z.to_nat (ceilDiv (Z.of_nat (List.length Examples.items)) 2))))
    = Examples.items.
Proof.
  assert (1 ≤ 2) as H1 by lia.
  split; [exact H1|]. exact (pages_partition Examples.items 2 "" "" "" "UTC" H1).
Defined.

Lemma page_past_the_end_witness :
  1 ≤ 2 ∧ 1 ≤ 3 ∧ ceilDiv (Z.of_nat (List.length Examples.items)) 2 < 3
  ∧ view_data (Statistics.paginate (Some 3) (Some 2) "" "" "" "UTC" Examples.items) = []
  ∧ pg_hasNextPage (view_pagination
                      (Statistics.paginate (Some 3) (Some 2) "" "" "" "UTC" Examples.items))
    = false.
Proof.
  assert (1 ≤ 2) as H1 by lia.
  assert (1 ≤ 3) as H2 by lia.
  assert (ceilDiv (Z.of_nat (List.length Examples.items)) 2 < 3) as H3 by reflexivity.
  split; [exact H1|]. split; [exact H2|]. split; [exact H3|].
  destruct (page_past_the_end Examples.items 3 2 "" "" "" "UTC" H1 H2 H3) as (Hd & Hn & _).
  split; [exact Hd|exact Hn].
Defined.

Lemma week_number_bounds_witness :
  yearStart Sample.dates (getFullYear Examples.noon) = (1704067200000, 1)
  ∧ 0 ≤ 1 ≤ 6
  ∧ 1704067200000 ≤ getTime Examples.noon < 1704067200000 + 366 * 86400000
  ∧ 1 ≤ Statistics.getWeekNumber Sample.dates Examples.noon ≤ 54.
Proof.
  assert (yearStart Sample.dates (getFullYear Examples.noon) = (1704067200000, 1)) as H1
    by reflexivity.
  assert (0 ≤ 1 ≤ 6) as H2 by lia.
  assert (1704067200000 ≤ getTime Examples.noon < 1704067200000 + 366 * 86400000) as H3
    by (simpl; lia).
  split; [exact H1|]. split; [exact H2|]. split; [exact H3|].
  exact (proj1 (week_number_bounds Sample.dates Examples.noon _ _ H1 H2 H3)).
Defined.

Lemma buckets_total_their_registrations_witness :
  exactSums pr_horseCount Examples.processed
  ∧ Forall (fun r => pr_trailName r ≠ "__proto__") Examples.processed
  ∧ Forall (bucketEntry pr_weekKey Examples.processed)
           (weekly (Statistics.processRegistrations Examples.processed))
  ∧ totalHorses <$> weekly (Statistics.processRegistrations Examples.processed) = [3; 2].
Proof.
  assert (exactSums pr_horseCount Examples.processed) as H1 by (vm_compute; discriminate).
  assert (Forall (fun r => pr_trailName r ≠ "__proto__") Examples.processed) as H2
    by (repeat constructor; discriminate).
  split; [exact H1|]. split; [exact H2|].
  split; [|reflexivity].
  exact (proj1 (proj2 (buckets_total_their_registrations Examples.processed H1 H2))).
Defined.

Lemma trail_summaries_total_witness :
  exactSums pr_horseCount Examples.processed
  ∧ Forall (fun r => pr_trailName r ≠ "__proto__") Examples.processed
  ∧ NoDup (trailSummaries (Statistics.processRegistrations Examples.processed)).*1
  ∧ trailSummaries (Statistics.processRegistrations Examples.processed)
    = [("Oak", mkSummary 5 2 (5, 2))].
Proof.
  assert (exactSums pr_horseCount Examples.processed) as H1 by (vm_compute; discriminate).
  assert (Forall (fun r => pr_trailName r ≠ "__proto__") Examples.processed) as H2
    by (repeat constructor; discriminate).
  split; [exact H1|]. split; [exact H2|].
  split; [|reflexivity].
  exact (proj1 (trail_summaries_total Examples.processed H1 H2)).
Defined.

Lemma time_lists_strictly_sorted_witness :
  Forall (fun r => plainKey (pr_date r) = true ∧ plainKey (pr_weekKey r) = true
                   ∧ plainKey (pr_monthKey r) = true) Examples.processed
  ∧ StronglySorted keyBefore (weekly (Statistics.processRegistrations Examples.processed))
  ∧ timeKey <$> weekly (Statistics.processRegistrations Examples.processed)
    = ["2024-W10"; "2024-W9"].
Proof.
  assert (Forall (fun r => plainKey (pr_date r) = true ∧ plainKey (pr_weekKey r) = true
                           ∧ plainKey (pr_monthKey r) = true) Examples.processed) as H1
    by (repeat constructor).
  split; [exact H1|]. split; [|reflexivity].
  exact (proj1 (proj2 (time_lists_strictly_sorted Examples.processed H1))).
Defined.

Lemma every_registration_counted_once_witness :
  exactSums pr_horseCount Examples.processed
  ∧ Forall (fun r => pr_trailName r ≠ "__proto__") Examples.processed
  ∧ sumOf totalRegistrations (daily (Statistics.processRegistrations Examples.processed))
    = Z.of_nat (List.length Examples.processed)
  ∧ sumOf totalHorses (daily (Statistics.processRegistrations Examples.processed))
    = Statistics.sumHorses Examples.processed.
Proof.
  assert (exactSums pr_horseCount Examples.processed) as H1 by (vm_compute; discriminate).
  assert (Forall (fun r => pr_trailName r ≠ "__proto__") Examples.processed) as H2
    by (repeat constructor; discriminate).
  split; [exact H1|]. split; [exact H2|].
  exact (proj1 (every_registration_counted_once Examples.processed H1 H2)).
Defined.

Lemma create_is_all_or_nothing_witness :
  registrationDocs Sample.world !! "g4" = None
  ∧ status (RegistrationService.createRegistration "2024-03-06T00:00:00.000Z"
              Examples.nameless "r4" "g4" 0 Sample.world).1 ≠ 200
  ∧ (RegistrationService.createRegistration "2024-03-06T00:00:00.000Z"
       Examples.nameless "r4" "g4" 0 Sample.world).2 = Sample.world.
Proof.
  assert (registrationDocs Sample.world !! "g4" = None) as H1 by reflexivity.
  assert (status (RegistrationService.createRegistration "2024-03-06T00:00:00.000Z"
                    Examples.nameless "r4" "g4" 0 Sample.world).1 ≠ 200) as H2
    by (vm_compute; discriminate).
  split; [exact H1|]. split; [exact H2|].
  exact (create_is_all_or_nothing _ _ _ _ _ _ H1 H2).
Defined.

Lemma create_then_read_witness :
  validCreate Sample.world "T1" (Sample.newRider "C") "g4"
  ∧ registrationDocs Sample.world !! "g4" = None
  ∧ cache Sample.world !! ("registration:" +:+ "r4") = None
  ∧ (RegistrationService.getRegistration "r4" 5
       (RegistrationService.createRegistration "2024-03-06T00:00:00.000Z"
          (Sample.newRider "C") "r4" "g4" 0 Sample.world).2).1
    = Returned (mkResponse 200
                  (Some (CVRegistration
                           (mkRegistration "r4" "T1" "C" 2 "2024-03-06T00:00:00.000Z")))).
Proof.
  assert (validCreate Sample.world "T1" (Sample.newRider "C") "g4") as H1.
  { split; [reflexivity|]. split; [reflexivity|]. split; [by exists "h1"|].
    split; [reflexivity|]. split; [discriminate|reflexivity]. }
  assert (registrationDocs Sample.world !! "g4" = None) as H2 by reflexivity.
  assert (cache Sample.world !! ("registration:" +:+ "r4") = None) as H3 by reflexivity.
  split; [exact H1|]. split; [exact H2|]. split; [exact H3|].
  exact (proj1 (proj2 (create_then_read "2024-03-06T00:00:00.000Z" (Sample.newRider "C")
                         "r4" "g4" 0 5 Sample.world "T1" H1 H2 H3))).
Defined.

Lemma created_registration_is_listed_witness :
  validCreate Sample.world "T1" (Sample.newRider "C") "g4"
  ∧ registrationDocs Sample.world !! "g4" = None
  ∧ ("r4" ∉ ["r1"; "r2"; "r3"])
  ∧ json (TrailService.getTrailRegistrations "T1"
            (RegistrationService.createRegistration "2024-03-06T00:00:00.000Z"
               (Sample.newRider "C") "r4" "g4" 0 Sample.world).2)
    = Some [Sample.february; Sample.march;
            mkRegistration "r4" "T1" "C" 2 "2024-03-06T00:00:00.000Z"].
Proof.
  assert (validCreate Sample.world "T1" (Sample.newRider "C") "g4") as H1.
  { split; [reflexivity|]. split; [reflexivity|]. split; [by exists "h1"|].
    split; [reflexivity|]. split; [discriminate|reflexivity]. }
  assert (registrationDocs Sample.world !! "g4" = None) as H2 by reflexivity.
  assert ("r4" ∉ ["r1"; "r2"; "r3"]) as H3.
  { intros Hin. repeat (apply elem_of_cons in Hin as [Heq|Hin]; [discriminate Heq|]).
    by apply elem_of_nil in Hin. }
  assert (∀ id, id ∈ ["r1"; "r2"; "r3"] →
                Storage.getHandle ("registration:" +:+ id) (storage Sample.world)
                ≠ Some "g4") as H4.
  { intros id Hin.
    repeat (apply elem_of_cons in Hin as [->|Hin]; [discriminate|]).
    by apply elem_of_nil in Hin. }
  split; [exact H1|]. split; [exact H2|]. split; [exact H3|].
  exact (created_registration_is_listed "2024-03-06T00:00:00.000Z" (Sample.newRider "C")
           "r4" "g4" 0 Sample.world "T1" H1 H2 H3 H4).
Defined.


Lemma cached_registration_outlives_writes_witness :
  cache Examples.afterRead !! ("registration:" +:+ "r1")
  = Some (TTLCache.mkEntry (CVRegistration Sample.february) 300000)
  ∧ truthy (CVRegistration Sample.february) = true
  ∧ 1000 ≤ 300000
  ∧ (RegistrationService.getRegistration "r1" 1000
       (RegistrationService.advance Sample.dates 1000
          (RegistrationService.run Sample.dates
             [(10, RegistrationService.UpdateRegistration "r1" Sample.fiveHorses)]
             Examples.afterRead))).1
    = Returned (mkResponse 200 (Some (CVRegistration Sample.february))).
Proof.
  assert (cache Examples.afterRead !! ("registration:" +:+ "r1")
          = Some (TTLCache.mkEntry (CVRegistration Sample.february) 300000)) as H1
    by (vm_compute; reflexivity).
  assert (truthy (CVRegistration Sample.february) = true) as H2 by reflexivity.
  assert (1000 ≤ 300000) as H3 by lia.
  split; [exact H1|]. split; [exact H2|]. split; [exact H3|].
  exact (cached_registration_outlives_writes Sample.dates "r1"
           [(10, RegistrationService.UpdateRegistration "r1" Sample.fiveHorses)]
           1000 Examples.afterRead _ H1 H2 H3).
Defined.


Lemma trail_counts_witness :
  Storage.getHandle ("trail:" +:+ "T1") (storage Sample.world) = Some "h1"
  ∧ Stub.throws Sample.world "h1" = false
  ∧ trailDocs Sample.world !! "h1" = Some Sample.oak
  ∧ exactSums (horsesOf Sample.world) ["r1"; "r2"; "r3"]
  ∧ (TrailService.getTrail "T1" 0 Sample.world).1
    = Returned (mkResponse 200 (Some (mkTrail "T1" "Oak" (Some true) (Some 3) (Some 5)))).
Proof.
  assert (Storage.getHandle ("trail:" +:+ "T1") (storage Sample.world) = Some "h1")
    as H1 by reflexivity.
  assert (Stub.throws Sample.world "h1" = false) as H2 by reflexivity.
  assert (trailDocs Sample.world !! "h1" = Some Sample.oak) as H3 by reflexivity.
  assert (exactSums (horsesOf Sample.world) ["r1"; "r2"; "r3"]) as H4
    by (vm_compute; discriminate).
  split; [exact H1|]. split; [exact H2|]. split; [exact H3|]. split; [exact H4|].
  exact (proj1 (proj1 (trail_counts "T1" 0 Sample.world "h1" Sample.oak H1 H2 H3 H4)
                  (eq_refl : (Manager.getFromCache ("trail-horse-count:" +:+ "T1") 0
                                Sample.world).1 = None))).
Defined.

Lemma create_trail_then_read_witness :
  Stub.throws Sample.world "h3" = false
  ∧ trailDocs Sample.world !! "h3" = None
  ∧ storage Sample.world !! ("trail_registrations:" +:+ "T3") = None
  ∧ cache Sample.world !! ("trail-horse-count:" +:+ "T3") = None
  ∧ (TrailService.getTrail "T3" 0
       (TrailService.createTrail Examples.elm "T3" "h3" Sample.world).2).1
    = Returned (mkResponse 200 (Some (mkTrail "T3" "Elm" (Some true) (Some 0) (Some 0)))).
Proof.
  assert (Stub.throws Sample.world "h3" = false) as H1 by reflexivity.
  assert (trailDocs Sample.world !! "h3" = None) as H2 by reflexivity.
  assert (storage Sample.world !! ("trail_registrations:" +:+ "T3") = None) as H3
    by reflexivity.
  assert (cache Sample.world !! ("trail-horse-count:" +:+ "T3") = None) as H4 by reflexivity.
  split; [exact H1|]. split; [exact H2|]. split; [exact H3|]. split; [exact H4|].
  exact (proj2 (create_trail_then_read Examples.elm "T3" "h3" 0 Sample.world H1 H2 H3 H4)).
Defined.

Lemma trail_update_leaves_analytics_witness :
  Storage.getHandle ("trail:" +:+ "T1") (storage Examples.aggregated) = Some "h1"
  ∧ Stub.throws Examples.aggregated "h1" = false
  ∧ cache (TrailService.updateTrail "T1" Examples.elm Examples.aggregated).2 !! "analytics-data"
    = cache Examples.aggregated !! "analytics-data"
  ∧ is_Some (cache Examples.aggregated !! "analytics-data").
Proof.
  assert (Storage.getHandle ("trail:" +:+ "T1") (storage Examples.aggregated) = Some "h1")
    as H1 by (vm_compute; reflexivity).
  assert (Stub.throws Examples.aggregated "h1" = false) as H2 by (vm_compute; reflexivity).
  split; [exact H1|]. split; [exact H2|].
  split; [|vm_compute; eexists; reflexivity].
  exact (proj1 (proj2 (proj2 (proj2
           (trail_update_leaves_analytics "T1" Examples.elm Examples.aggregated "h1" H1 H2))))).
Defined.

Lemma delete_trail_cascades_witness :
  Storage.getHandle ("trail:" +:+ "T1") (storage Sample.world) = Some "h1"
  ∧ Stub.throws Sample.world "h1" = false
  ∧ storage (TrailService.deleteTrail false "T1" Sample.world).2 !! ("trail:" +:+ "T1") = None
  ∧ trailDocs (TrailService.deleteTrail false "T1" Sample.world).2 !! "h1" = None
  ∧ storage (TrailService.deleteTrail false "T1" Sample.world).2
      !! ("registration:" +:+ "r1") = None
  ∧ registrationDocs (TrailService.deleteTrail false "T1" Sample.world).2 !! "g1" = None.
Proof.
  assert (Storage.getHandle ("trail:" +:+ "T1") (storage Sample.world) = Some "h1")
    as H1 by reflexivity.
  assert (Stub.throws Sample.world "h1" = false) as H2 by reflexivity.
  split; [exact H1|]. split; [exact H2|].
  destruct (delete_trail_cascades false "T1" Sample.world "h1" H1 H2)
    as (_ & Hs & Hd & _ & Hregs).
  split; [exact Hs|]. split; [exact Hd|].
  apply (Hregs "r1" "g1"); [|reflexivity|reflexivity].
  apply elem_of_cons. by left.
Defined.

Lemma analytics_stale_until_aggregation_witness :
  validUpdate Examples.aggregated "r1" Sample.fiveHorses
  ∧ ∃ a, Storage.getAnalytics "analytics:data" (storage Examples.aggregated) = Some a
         ∧ (Statistics.getAnalytics Sample.dates 5
              (RegistrationService.updateRegistration "2024-03-06T00:00:00.000Z" "r1"
                 Sample.fiveHorses 1 Examples.aggregated).2).1
           = mkResponse 200 (Some (CVAnalytics a)).
Proof.
  assert (validUpdate Examples.aggregated "r1" Sample.fiveHorses) as H1.
  { exists "g1", Sample.february. repeat split; vm_compute; reflexivity. }
  split; [exact H1|].
  destruct (Storage.getAnalytics "analytics:data" (storage Examples.aggregated))
    as [a|] eqn:H2; [|vm_compute in H2; discriminate H2].
  exists a. split; [reflexivity|].
  exact (analytics_stale_until_aggregation Sample.dates "2024-03-06T00:00:00.000Z" "r1"
           Sample.fiveHorses 1 5 Examples.aggregated a H1 H2).
Defined.

Lemma view_obeys_filters_witness :
  map_Forall (fun _ d => ordinaryKey (reg_trailId d) = true) (registrationDocs Sample.world)
  ∧ truthyValue (Manager.getFromCache
                 (Statistics.cacheKey (Statistics.clampPage (Some 1))
                                      (Statistics.clampLimit (Some 10)) "Oak" "2024-03-01" "" "")
                 0 Sample.world).1 = None
  ∧ ∃ view w',
      Statistics.getRegistrationData Sample.dates (Some 1) (Some 10) "Oak" "2024-03-01" "" ""
                                     0 Sample.world
      = (Returned (mkResponse 200 (Some (CVView view))), w')
      ∧ Forall (passesFilters "Oak" "2024-03-01" "") (view_data view).
Proof.
  assert (truthyValue (Manager.getFromCache
                 (Statistics.cacheKey (Statistics.clampPage (Some 1))
                                      (Statistics.clampLimit (Some 10)) "Oak" "2024-03-01" "" "")
                 0 Sample.world).1 = None) as H1 by (vm_compute; reflexivity).
  assert (map_Forall (fun _ d => ordinaryKey (reg_trailId d) = true)
                     (registrationDocs Sample.world)) as H0.
  { apply map_Forall_insert_2; [reflexivity|].
    apply map_Forall_insert_2; [reflexivity|]. apply map_Forall_empty. }
  split; [exact H0|]. split; [exact H1|].
  destruct (view_obeys_filters Sample.dates (Some 1) (Some 10) "Oak" "2024-03-01" "" ""
              0 Sample.world H0 H1) as (view & w' & Hres & _ & Hall).
  exists view, w'. split; [exact Hres|exact Hall].
Defined.

Lemma view_newest_first_witness :
  map_Forall (fun _ d => reg_timestamp d = "" ∨ isoTimestamp (reg_timestamp d) = true)
             (registrationDocs Sample.world)
  ∧ truthyValue (Manager.getFromCache
                 (Statistics.cacheKey (Statistics.clampPage (Some 1))
                                      (Statistics.clampLimit (Some 10)) "" "" "" "")
                 0 Sample.world).1 = None
  ∧ ∃ view w',
      Statistics.getRegistrationData Sample.dates (Some 1) (Some 10) "" "" "" "" 0 Sample.world
      = (Returned (mkResponse 200 (Some (CVView view))), w')
      ∧ StronglySorted notOlder (view_data view).
Proof.
  assert (truthyValue (Manager.getFromCache
                 (Statistics.cacheKey (Statistics.clampPage (Some 1))
                                      (Statistics.clampLimit (Some 10)) "" "" "" "")
                 0 Sample.world).1 = None) as H1 by (vm_compute; reflexivity).
  assert (map_Forall (fun _ d => reg_timestamp d = "" ∨ isoTimestamp (reg_timestamp d) = true)
                     (registrationDocs Sample.world)) as H0.
  { apply map_Forall_insert_2; [by right|].
    apply map_Forall_insert_2; [by right|]. apply map_Forall_empty. }
  split; [exact H0|]. split; [exact H1|].
  exact (view_newest_first Sample.dates (Some 1) (Some 10) "" "" "" "" 0 Sample.world H0 H1).
Defined.

Lemma registration_routes_witness :
  "r1" ≠ "" ∧ noSlash "r1" = true
  ∧ Routing.App.fetch "GET" ("/api/registrations/" +:+ "r1") true false
    = Routing.GetRegistration "r1".
Proof.
  assert ("r1" ≠ "") as H1 by discriminate.
  assert (noSlash "r1" = true) as H2 by reflexivity.
  split; [exact H1|]. split; [exact H2|].
  exact (proj1 (registration_routes "r1" false H1 H2)).
Defined.

Lemma trail_routes_witness :
  "T1" ≠ "" ∧ noSlash "T1" = true
  ∧ Routing.App.fetch "GET" ("/api/trails/" +:+ "T1" +:+ "/registrations") true false
    = Routing.GetTrailRegistrations "T1".
Proof.
  assert ("T1" ≠ "") as H1 by discriminate.
  assert (noSlash "T1" = true) as H2 by reflexivity.
  split; [exact H1|]. split; [exact H2|].
  exact (proj1 (proj2 (proj2 (proj2 (trail_routes "T1" false H1 H2))))).
Defined.
